(** * MarketMode: the solar-fleet report pipeline

    A shallow embedding of the report pipeline that is written three times
    in the repository:

    - [Cron]     : api/sync-weekly-report.js   (serverless handler)
    - [Weekly]   : WeeklyPerformanceReport.jsx (weekly report page)
    - [AllGraph] : src/pages/AllGraph.jsx      (multi-year page)

    Conventions of the embedding.

    - A JavaScript number is an IEEE 754 binary64 value ([spec_float] with
      a precision of 53 bits), with its signed zeros, its infinities and
      [NaN]; the arithmetic rounds to the nearest value, ties to even.
    - A JavaScript string is a [string]; white space is ASCII white space.
    - A JavaScript object is an association list in key insertion order.
    - A [Date] is its time value, the milliseconds since the epoch in UTC;
      the local getters and setters take the offset of the time zone, in
      minutes east of UTC, which is taken to be constant.
    - [try]/[catch] is a sum type; network traffic is an explicit trace and
      the remote answers are arguments. *)

From Stdlib Require Import ZArith Bool Ascii String List Lia Permutation.
From Stdlib Require Import DecimalString SpecFloat.
From Stdlib Require DecimalPos DecimalFacts.
Import ListNotations.

Local Open Scope string_scope.
Local Open Scope list_scope.
Local Open Scope Z_scope.

(* ================================================================== *)
(** * JavaScript primitives used by the pipeline *)

Module JS.

Definition str := String.string.

(** ** Strings *)

(** ASCII white space removed by [String.prototype.trim]. *)
Definition is_ws (c : ascii) : bool :=
  let n := nat_of_ascii c in
  ((n =? 32) || (n =? 9) || (n =? 10) || (n =? 11) || (n =? 12) || (n =? 13))%nat.

Fixpoint trimStart (s : str) : str :=
  match s with
  | EmptyString => EmptyString
  | String c r => if is_ws c then trimStart r else s
  end.

Fixpoint rev_string (s acc : str) : str :=
  match s with
  | EmptyString => acc
  | String c r => rev_string r (String c acc)
  end.

Definition trimEnd (s : str) : str :=
  rev_string (trimStart (rev_string s EmptyString)) EmptyString.

Definition trim (s : str) : str := trimEnd (trimStart s).

(** [s.slice(0, n)] for a non-negative [n]. *)
Definition slice0 (n : nat) (s : str) : str := String.substring 0 n s.

(** [s.includes(sub)]. *)
Fixpoint includes (s sub : str) : bool :=
  String.prefix sub s ||
  match s with
  | EmptyString => false
  | String _ r => includes r sub
  end.

Definition lower_ascii (c : ascii) : ascii :=
  let n := nat_of_ascii c in
  if ((65 <=? n) && (n <=? 90))%nat then ascii_of_nat (n + 32) else c.

Fixpoint toLowerCase (s : str) : str :=
  match s with
  | EmptyString => EmptyString
  | String c r => String (lower_ascii c) (toLowerCase r)
  end.

(** [s.replace(/-/g, '')]. *)
Fixpoint removeHyphens (s : str) : str :=
  match s with
  | EmptyString => EmptyString
  | String c r =>
      if (nat_of_ascii c =? 45)%nat then removeHyphens r
      else String c (removeHyphens r)
  end.

(** Relational operators on strings compare code units. *)
Definition str_le (a b : str) : bool := String.leb a b.
Definition str_ge (a b : str) : bool := String.leb b a.

(** A string is truthy when it is not empty. *)
Definition truthy_str (s : str) : bool :=
  match s with EmptyString => false | _ => true end.

(** [String(n)] for a natural number and for an integer. *)
Definition string_of_nat (n : nat) : str :=
  NilEmpty.string_of_uint (Nat.to_uint n).

Definition string_of_Z (z : Z) : str :=
  NilEmpty.string_of_int (Z.to_int z).

(** [s.padStart(2, '0')]. *)
Definition padStart2 (s : str) : str :=
  match String.length s with
  | O => "00"
  | S O => String "0"%char s
  | _ => s
  end.

(** ** Numbers *)

Definition digit_of (c : ascii) : option Z :=
  let n := nat_of_ascii c in
  if ((48 <=? n) && (n <=? 57))%nat then Some (Z.of_nat (n - 48)) else None.

(** The longest prefix of decimal digits: its value, its length, the rest. *)
Fixpoint digits_acc (s : str) (acc : Z) (len : nat) : Z * nat * str :=
  match s with
  | EmptyString => (acc, len, s)
  | String c r =>
      match digit_of c with
      | Some d => digits_acc r (10 * acc + d) (S len)
      | None => (acc, len, s)
      end
  end.

Definition digits (s : str) : Z * nat * str := digits_acc s 0 O.

(** An optional sign: [true] for a minus sign. *)
Definition sign_of (s : str) : bool * str :=
  match s with
  | String c r =>
      if (nat_of_ascii c =? 45)%nat then (true, r)
      else if (nat_of_ascii c =? 43)%nat then (false, r)
      else (false, s)
  | EmptyString => (false, s)
  end.

(** The exponent part [e[+-]ddd], when one is there. *)
Definition exponent_of (s : str) : Z :=
  match s with
  | String c r =>
      if ((nat_of_ascii c =? 101) || (nat_of_ascii c =? 69))%nat then
        let '(neg, r1) := sign_of r in
        let '(e, len, _) := digits r1 in
        match len with
        | O => 0
        | _ => if neg then - e else e
        end
      else 0
  | EmptyString => 0
  end.

Definition pow10 (n : Z) : Z := 10 ^ n.

(** A number: a binary64 value. *)
Definition number := spec_float.

Definition prec : Z := 53.
Definition emax : Z := 1024.

Definition NaN : number := S754_nan.

(** The literal [0]. *)
Definition zero : number := S754_zero false.

(** The number of an integer, rounded when it has more than 53 bits. *)
Definition of_Z (z : Z) : number := binary_normalize prec emax z 0 false.

(** [x + y], [x - y] and [x / y]. *)
Definition add (x y : number) : number := SFadd prec emax x y.
Definition sub (x y : number) : number := SFsub prec emax x y.
Definition div (x y : number) : number := SFdiv prec emax x y.

(** [x < y] and [x <= y]; both are false when an operand is [NaN]. *)
Definition lt (x y : number) : bool := SFltb x y.
Definition le (x y : number) : bool := SFleb x y.

(** The number nearest to [m / 10^k], for an integer [m] that is not zero
    and [0 <= k]: the quotient of the two integers, rounded once. *)
Definition ratio10 (neg : bool) (m : positive) (k : Z) : number :=
  SFdiv prec emax (S754_finite neg m 0)
    (S754_finite false (Z.to_pos (pow10 k)) 0).

(** The value of a decimal literal: the number nearest to [m * 10^e], with
    the sign [neg]. *)
Definition of_decimal (neg : bool) (m e : Z) : number :=
  match m with
  | Zpos p =>
      if 0 <=? e
      then binary_normalize prec emax
             (if neg then - (m * pow10 e) else m * pow10 e) 0 false
      else ratio10 neg p (- e)
  | _ => S754_zero neg
  end.

(** [parseFloat]: leading white space, a sign, and then [Infinity] or
    digits with an optional fraction and exponent; what follows is left
    unread, and a text without such a start gives [NaN]. *)
Definition parseFloat (s : str) : number :=
  let '(neg, s1) := sign_of (trimStart s) in
  if String.prefix "Infinity" s1 then S754_infinity neg
  else
    let '(ip, ilen, s2) := digits s1 in
    let '(fp, flen, s3) :=
      match s2 with
      | String c r => if (nat_of_ascii c =? 46)%nat then digits r else (0, O, s2)
      | EmptyString => (0, O, s2)
      end in
    match ilen, flen with
    | O, O => NaN
    | _, _ =>
        let m := ip * pow10 (Z.of_nat flen) + fp in
        let e := exponent_of s3 - Z.of_nat flen in
        of_decimal neg m e
    end.

(** [parseInt(s)] in base ten; [None] is [NaN]. *)
Definition parseInt (s : str) : option Z :=
  let '(neg, s1) := sign_of (trimStart s) in
  let '(n, len, _) := digits s1 in
  match len with
  | O => None
  | _ => Some (if neg then - n else n)
  end.

(** A number is falsy when it is a zero or [NaN]. *)
Definition truthy_num (x : number) : bool :=
  match x with
  | S754_zero _ => false
  | S754_nan => false
  | _ => true
  end.

(** [x || d] for a number [x]. *)
Definition num_or (x d : number) : number := if truthy_num x then x else d.

(** [Math.max(0, x)]: [NaN] for [NaN], and [+0] for a zero of either
    sign. *)
Definition max0 (x : number) : number :=
  match x with
  | S754_nan => NaN
  | _ => if lt zero x then x else zero
  end.

(** [x > 0]. *)
Definition gt0 (x : number) : bool := lt zero x.

(** [Number(x.toFixed(d))] for [d] from 0 to 100.  [toFixed] takes the
    integer [n] for which [n / 10^d] is nearest to the exact value of [x],
    the larger one of two, and writes it with [d] decimals, after a minus
    sign for [x < 0]; [Number] gives the number nearest to what is written.
    From [10^21] on, and for the values that are not finite, the text is
    that of [String(x)]. *)
Definition toFixed (d : nat) (x : number) : number :=
  match x with
  | S754_finite s m e =>
      (* the exact value of [x] without its sign is [num / den] *)
      let num := if 0 <=? e then Zpos m * 2 ^ e else Zpos m in
      let den := if 0 <=? e then 1 else 2 ^ (- e) in
      if pow10 21 * den <=? num then x
      else
        match (2 * num * pow10 (Z.of_nat d) + den) / (2 * den) with
        | Zpos n => ratio10 s n (Z.of_nat d)
        | _ => S754_zero s
        end
  | S754_zero _ => zero
  | _ => x
  end.

(** ** Arrays *)

(** [Array.prototype.sort] with a comparator: a stable insertion sort.
    [le a b] says that the comparator does not put [b] before [a]. *)
Section Sort.
Context {A : Type} (le : A -> A -> bool).

Fixpoint insert (x : A) (l : list A) : list A :=
  match l with
  | [] => [x]
  | y :: r => if le x y then x :: l else y :: insert x r
  end.

Definition sort (l : list A) : list A := fold_right insert [] l.

(** Adjacent elements are in order. *)
Fixpoint sorted (l : list A) : bool :=
  match l with
  | [] => true
  | x :: r =>
      match r with
      | [] => true
      | y :: _ => le x y && sorted r
      end
  end.

End Sort.

(** [arr.forEach((item, idx) => ...)] threading a state. *)
Fixpoint forEachFrom {A St : Type} (f : St -> A -> nat -> St) (l : list A)
  (i : nat) (s : St) : St :=
  match l with
  | [] => s
  | a :: r => forEachFrom f r (S i) (f s a i)
  end.

Definition forEachIdx {A St : Type} (f : St -> A -> nat -> St) (l : list A)
  (s0 : St) : St := forEachFrom f l O s0.

(** [arr[arr.length - 1]]. *)
Definition lastOf {A : Type} (l : list A) : option A :=
  List.last (map Some l) None.

End JS.

(** Results of code that can [throw]. *)
Inductive outcome (A : Type) : Type :=
| Ok (a : A)
| Throw (msg : JS.str).
Arguments Ok {A} a.
Arguments Throw {A} msg.

(* ================================================================== *)
(** * The vendor's history response *)

Module Vendor.
Import JS.

(** One reading: [{time_stamp: "20240102", p2: "5000"}].  [fields] holds the
    own properties other than [time_stamp], in insertion order. *)
Record item := { time_stamp : str; fields : list (str * str) }.

(** [Object.keys(item)] without [time_stamp]. *)
Definition keys (it : item) : list str := map fst (fields it).

(** [Object.keys(item).find(key => key !== 'time_stamp')]. *)
Definition valueKey (it : item) : option str :=
  find (fun key => negb (String.eqb key "time_stamp")) (keys it).

(** [item[key]]. *)
Fixpoint prop (key : str) (l : list (str * str)) : option str :=
  match l with
  | [] => None
  | (k, v) :: r => if String.eqb k key then Some v else prop key r
  end.

(** [(parseFloat(item[valueKey]) || 0) / 1000]. *)
Definition kwhOf (it : item) (key : str) : number :=
  div (num_or (match prop key (fields it) with
               | Some v => parseFloat v
               | None => NaN
               end) zero) (of_Z 1000).

(** [result_data[psKey]]: an object from data point name to an array of
    readings ([None] when the value is not an array). *)
Definition device_data := list (str * option (list item)).

(** [{result_code, result_msg, result_data}]. *)
Record history_response := {
  result_code : str;
  result_msg : option str;
  result_data : option (list (str * device_data))
}.

(** [Object.keys(o)[0]] together with [o[Object.keys(o)[0]]]. *)
Definition firstEntry {V : Type} (o : list (str * V)) : option (str * V) :=
  match o with
  | [] => None
  | e :: _ => Some e
  end.

(** The cumulative reading of a point, for the statements. *)
Definition cumulative (it : item) : number :=
  match valueKey it with
  | Some key => kwhOf it key
  | None => zero
  end.

Definition hasValue (it : item) : Prop := valueKey it <> None.

End Vendor.

(* ================================================================== *)
(** * The daily delta engine

    The same text in the handler (sync-weekly-report.js, lines 205-237) and in
    [fetchPerformanceData] (WeeklyPerformanceReport.jsx, lines 756-789). *)

Module Daily.
Import JS Vendor.

Record daily_point := { date : str; dailyKwh : number; cumulativeKwh : number }.

Record walk_state := { previousValue : number; dailyData : list daily_point }.

(** [[...dataArray].sort((a, b) => a.time_stamp.localeCompare(b.time_stamp))];
    on the digit strings of the vendor the order of [localeCompare] is the
    order of the code units. *)
Definition by_time_stamp (a b : item) : bool :=
  str_le (time_stamp a) (time_stamp b).

Definition sortedData (dataArray : list item) : list item :=
  sort by_time_stamp dataArray.

(** The body of [sortedData.forEach((item, idx) => ...)]. *)
Definition step (st : walk_state) (it : item) (idx : nat) : walk_state :=
  match valueKey it with
  | Some key =>
      let currentKwh := kwhOf it key in
      if (idx =? 0)%nat then
        {| previousValue := currentKwh; dailyData := dailyData st |}
      else
        {| previousValue := currentKwh;
           dailyData := dailyData st ++
             [ {| date := time_stamp it;
                  dailyKwh := max0 (sub currentKwh (previousValue st));
                  cumulativeKwh := currentKwh |} ] |}
  | None => st
  end.

Definition walk (sorted_items : list item) : walk_state :=
  forEachIdx step sorted_items {| previousValue := zero; dailyData := [] |}.

(** [itemDate >= start && itemDate <= end] with [itemDate = item.date.slice(0, 8)]. *)
Definition inWindow (startStr endStr : str) (p : daily_point) : bool :=
  let itemDate := slice0 8 (date p) in
  str_ge itemDate startStr && str_le itemDate endStr.

Definition filteredDailyData (startStr endStr : str) (l : list daily_point)
  : list daily_point := filter (inWindow startStr endStr) l.

(** [filteredDailyData.reduce((sum, day) => sum + day.dailyKwh, 0)]. *)
Definition totalKwh (l : list daily_point) : number :=
  fold_left (fun sum day => add sum (dailyKwh day)) l zero.

(** [dailyData.length > 0 ? dailyData[dailyData.length - 1].cumulativeKwh : 0]. *)
Definition lifetimeOf (l : list daily_point) : number :=
  match lastOf l with
  | Some p => cumulativeKwh p
  | None => zero
  end.

(** The series the statements compare with: one point for each reading
    after the first, against its predecessor. *)
Fixpoint deltasFrom (prev : number) (l : list item) : list daily_point :=
  match l with
  | [] => []
  | it :: r =>
      {| date := time_stamp it;
         dailyKwh := max0 (sub (cumulative it) prev);
         cumulativeKwh := cumulative it |} :: deltasFrom (cumulative it) r
  end.

Definition deltaSeries (l : list item) : list daily_point :=
  match l with
  | [] => []
  | it :: r => deltasFrom (cumulative it) r
  end.

(** The sum of a list of numbers as [reduce] takes it: from 0, one
    addition for each element, in the order of the list. *)
Definition sumOf (l : list number) : number := fold_left add l zero.

End Daily.

(* ================================================================== *)
(** * Dates

    A [Date] is its time value: the milliseconds since 1970-01-01 in UTC.
    The local getters, [setDate] and [MakeDay] follow ECMAScript, over the
    proleptic Gregorian calendar, for a zone with a constant offset. *)

Module Calendar.
Import JS.

Definition Date := Z.

(** The offset of the local zone, in minutes east of UTC. *)
Definition zone := Z.

Definition msPerDay : Z := 86400000.
Definition msPerMinute : Z := 60000.

(** [LocalTime(t)]. *)
Definition LocalTime (tz : zone) (t : Date) : Z := t + tz * msPerMinute.

(** [Day(t)] and [TimeWithinDay(t)]. *)
Definition Day (t : Z) : Z := t / msPerDay.
Definition TimeWithinDay (t : Z) : Z := t mod msPerDay.

(** The number of the local calendar day of a date, from 1970-01-01. *)
Definition localDay (tz : zone) (t : Date) : Z := Day (LocalTime tz t).

(** Day number of the civil date [y]-[m]-[d], [m] counted from 1. *)
Definition days_from_civil (y m d : Z) : Z :=
  let y' := if m <=? 2 then y - 1 else y in
  let era := y' / 400 in
  let yoe := y' - era * 400 in
  let mp := if 2 <? m then m - 3 else m + 9 in
  let doy := (153 * mp + 2) / 5 + d - 1 in
  let doe := yoe * 365 + yoe / 4 - yoe / 100 + doy in
  era * 146097 + doe - 719468.

(** Civil date of a day number: year, month counted from 1, day. *)
Definition civil_from_days (z : Z) : Z * Z * Z :=
  let z' := z + 719468 in
  let era := z' / 146097 in
  let doe := z' - era * 146097 in
  let yoe := (doe - doe / 1460 + doe / 36524 - doe / 146096) / 365 in
  let doy := doe - (365 * yoe + yoe / 4 - yoe / 100) in
  let mp := (5 * doy + 2) / 153 in
  let d := doy - (153 * mp + 2) / 5 + 1 in
  let m := if mp <? 10 then mp + 3 else mp - 9 in
  ((if m <=? 2 then yoe + era * 400 + 1 else yoe + era * 400), m, d).

(** [YearFromTime], [MonthFromTime] and [DateFromTime] of a day number. *)
Definition YearFromDay (day : Z) : Z := let '(y, _, _) := civil_from_days day in y.
Definition MonthFromDay (day : Z) : Z := let '(_, m, _) := civil_from_days day in m - 1.
Definition DateFromDay (day : Z) : Z := let '(_, _, d) := civil_from_days day in d.

Definition getFullYear (tz : zone) (t : Date) : Z := YearFromDay (localDay tz t).
Definition getMonth (tz : zone) (t : Date) : Z := MonthFromDay (localDay tz t).
Definition getDate (tz : zone) (t : Date) : Z := DateFromDay (localDay tz t).

(** [MakeDay(year, month, date)], the month counted from 0. *)
Definition MakeDay (year month date : Z) : Z :=
  days_from_civil (year + month / 12) (month mod 12 + 1) 1 + date - 1.

(** [t.setDate(dt)], returning the changed date:
    [UTC(MakeDate(MakeDay(year, month, dt), TimeWithinDay(LocalTime(t))))]. *)
Definition setDate (tz : zone) (t : Date) (dt : Z) : Date :=
  MakeDay (getFullYear tz t) (getMonth tz t) dt * msPerDay
  + TimeWithinDay (LocalTime tz t) - tz * msPerMinute.

(** [formatDateForAPI]: [`${year}${month}${day}`] with the month and the day
    padded to two digits. *)
Definition formatDateForAPI (tz : zone) (d : Date) : str :=
  let year := string_of_Z (getFullYear tz d) in
  let month := padStart2 (string_of_Z (getMonth tz d + 1)) in
  let day := padStart2 (string_of_Z (getDate tz d)) in
  (year ++ month ++ day)%string.

Definition days_in_month (y m : Z) : Z :=
  days_from_civil (if m =? 12 then y + 1 else y) (if m =? 12 then 1 else m + 1) 1
  - days_from_civil y m 1.

(** [new Date("YYYY-MM-DD")]: the date-only form of the ECMAScript date
    string format, which is read as midnight in UTC; anything else is an
    invalid date. *)
Definition all_digits (s : str) : bool :=
  let '(_, len, rest) := digits s in
  (len =? String.length s)%nat && negb (truthy_str rest).

Definition newDate (s : str) : option Date :=
  let ys := String.substring 0 4 s in
  let ms := String.substring 5 2 s in
  let ds := String.substring 8 2 s in
  if (String.length s =? 10)%nat
     && String.eqb (String.substring 4 1 s) "-"
     && String.eqb (String.substring 7 1 s) "-"
     && all_digits ys && all_digits ms && all_digits ds
  then
    let '(y, _, _) := digits ys in
    let '(m, _, _) := digits ms in
    let '(d, _, _) := digits ds in
    if (1 <=? m) && (m <=? 12) && (1 <=? d) && (d <=? days_in_month y m)
    then Some (days_from_civil y m d * msPerDay) else None
  else None.

(** [Math.ceil(a / b)] for integers [a] and [0 < b]. *)
Definition ceilDiv (a b : Z) : Z := - ((- a) / b).

End Calendar.

(* ================================================================== *)
(** * HTTP exchanges *)

Module Http.
Import JS.

(** What [await fetch(...)] followed by [await res.json()] can give: the
    status line and the parsed body, or a body that is not JSON. *)
Record response (A : Type) := {
  ok : bool;
  status : Z;
  json : outcome A
}.
Arguments ok {A} r.
Arguments status {A} r.
Arguments json {A} r.

(** A [fetch] that rejects is a [Throw]. *)
Definition fetched (A : Type) := outcome (response A).

End Http.

(* ================================================================== *)
(** * The roster sheet *)

Module Sheet.
Import JS.

(** A value of the sheet's JSON: absent ([undefined] or [null]), a string,
    or an integer number. *)
Inductive value :=
| VAbsent
| VStr (s : str)
| VNum (n : Z).

(** [{v: ...}], the cell of the table shape. *)
Record cell := { v : value }.

(** A row: [{c: [cell, ...]}] (a cell can be [null]), a bare array, or
    something else. *)
Inductive row :=
| RowC (c : list (option cell))
| RowArray (vals : list value)
| RowOther.

(** The parsed body of the roster answer, in the shapes that the loaders
    accept: [{table: {rows}}], a bare array of rows, [{values}], or
    something else. *)
Inductive sheet_data :=
| Table (rows : list row)
| Bare (rows : list row)
| Values (values : list (list value))
| Unknown.

(** Lines 74-77 of the handler, 344-352 of the weekly page and 102-114 of
    the multi-year page. *)
Definition rowsOf (sheetData : sheet_data) : list row :=
  match sheetData with
  | Table rows => rows
  | Bare rows => rows
  | Values values =>
      map (fun row => RowC (map (fun val => Some {| v := val |}) row)) values
  | Unknown => []
  end.

(** [x || ''] keeps a truthy value. *)
Definition truthy (x : value) : bool :=
  match x with
  | VAbsent => false
  | VStr s => truthy_str s
  | VNum n => negb (n =? 0)
  end.

Definition orEmpty (x : value) : value := if truthy x then x else VStr "".

(** [String(x)] for the values that reach it. *)
Definition toString (x : value) : str :=
  match x with
  | VAbsent => "undefined"
  | VStr s => s
  | VNum n => string_of_Z n
  end.

(** [row.c.map(cell => cell?.v || '')], or the array itself, or []. *)
Definition rowValues (r : row) : list value :=
  match r with
  | RowC c =>
      map (fun cell => orEmpty (match cell with
                                | Some cl => v cl
                                | None => VAbsent
                                end)) c
  | RowArray vals => vals
  | RowOther => []
  end.

(** [String(rowValues[i] || '').trim()]. *)
Definition column (vals : list value) (i : nat) : str :=
  trim (toString (orEmpty (nth i vals VAbsent))).

End Sheet.

(* ================================================================== *)
(** * The device-key response *)

Module Device.
Import JS.

Record device_point := {
  ps_key : option str;
  sn : option str;
  serial_number : option str;
  device_sn : option str;
  device_name : option str
}.

(** An entry of [device_point_list]; the entry or its [device_point] can be
    missing. *)
Definition entry := option (option device_point).

Record device_response := {
  result_code : str;
  result_msg : option str;
  (** [result_data?.device_point_list] *)
  device_point_list : option (list entry)
}.

Definition truthy_opt (o : option str) : bool :=
  match o with
  | Some s => truthy_str s
  | None => false
  end.

(** [p?.device_point?.ps_key]. *)
Definition entry_ps_key (p : entry) : option str :=
  match p with
  | Some (Some dp) => ps_key dp
  | _ => None
  end.

(** [list.find(p => p?.device_point?.ps_key)?.device_point?.ps_key]. *)
Definition find_ps_key (l : list entry) : option str :=
  match find (fun p => truthy_opt (entry_ps_key p)) l with
  | Some p => entry_ps_key p
  | None => None
  end.

End Device.

(* ================================================================== *)
(** * Requests to the vendor *)

Module Request.
Import JS.

(** Body of [POST /openapi/getPVInverterRealTimeData]. *)
Record device_request := { sn_list : list str }.

(** Body of [POST /openapi/getDevicePointsDayMonthYearDataList]. *)
Record history_request := {
  data_point : str;
  data_type : str;
  query_type : str;
  order : str;
  start_time : str;
  end_time : str;
  ps_key_list : list str
}.

Definition device_api := device_request -> Http.fetched Device.device_response.
Definition history_api := history_request -> Http.fetched Vendor.history_response.

End Request.

(* ================================================================== *)
(** * api/sync-weekly-report.js: the scheduled handler *)

Module Cron.
Import JS Vendor Http Request Calendar.

Record inverter := {
  serialNo : str;
  inverterId : str;
  beneficiaryName : str;
  capacity : number
}.

(** Lines 80-99: the body of [rows.forEach((row, index) => ...)]. *)
Definition loadRow (inverters : list inverter) (row : Sheet.row) (index : nat)
  : list inverter :=
  if (index =? 0)%nat then inverters
  else
    let rowValues := Sheet.rowValues row in
    let serialNo := Sheet.column rowValues 0 in
    let inverterId := Sheet.column rowValues 1 in
    let beneficiaryName := Sheet.column rowValues 2 in
    let capacity := num_or (parseFloat (Sheet.column rowValues 3)) (of_Z 1) in
    if truthy_str inverterId && truthy_str beneficiaryName then
      inverters ++
        [ {| serialNo := if truthy_str serialNo then serialNo
                         else ("S" ++ string_of_nat index)%string;
             inverterId := inverterId;
             beneficiaryName := beneficiaryName;
             capacity := capacity |} ]
    else inverters.

(** Lines 79-102. *)
Definition loadRoster (rows : list Sheet.row) : outcome (list inverter) :=
  let inverters := forEachIdx loadRow rows [] in
  match inverters with
  | [] => Throw "No inverters found in the sheet."
  | _ => Ok inverters
  end.

(** Lines 104-131: the window of the run; [now] is the time of the two
    [new Date()] of lines 104 and 105. *)
Record window := {
  start : Date;
  end_ : Date;
  apiStartDate : str;
  apiEndDate : str;
  dateRangeStartStr : str;
  dateRangeEndStr : str
}.

Definition apiStartOf (tz : zone) (start : Date) : Date :=
  setDate tz start (getDate tz start - 1).

Definition windowOf (tz : zone) (now : Date) : window :=
  let end_ := now in
  let start := setDate tz now (getDate tz now - 7) in
  let apiStart := apiStartOf tz start in
  {| start := start;
     end_ := end_;
     apiStartDate := formatDateForAPI tz apiStart;
     apiEndDate := formatDateForAPI tz end_;
     dateRangeStartStr := formatDateForAPI tz start;
     dateRangeEndStr := formatDateForAPI tz end_ |}.

(** Lines 147-161 and 171-191. *)
Definition deviceRequest (inv : inverter) : device_request :=
  {| sn_list := [inverterId inv] |}.

Definition energyRequest (w : window) (psKey : str) : history_request :=
  {| data_point := "p2";
     data_type := "2";
     query_type := "1";
     order := "0";
     start_time := apiStartDate w;
     end_time := apiEndDate w;
     ps_key_list := [psKey] |}.

(** Lines 195-240: [totalKwh] and [lifetimeGeneration] from the answer. *)
Definition energyTotals (w : window) (energyData : history_response)
  : number * number :=
  if String.eqb (result_code energyData) "1" then
    match result_data energyData with
    | Some rd =>
        match firstEntry rd with
        | Some (psKeyData, dev) =>
            if truthy_str psKeyData then
              match firstEntry dev with
              | Some (_, Some dataArray) =>
                  let dailyData :=
                    Daily.dailyData (Daily.walk (Daily.sortedData dataArray)) in
                  let filteredDailyData :=
                    Daily.filteredDailyData (dateRangeStartStr w)
                      (dateRangeEndStr w) dailyData in
                  (Daily.totalKwh filteredDailyData, Daily.lifetimeOf dailyData)
              | _ => (zero, zero)
              end
            else (zero, zero)
        | None => (zero, zero)
        end
    | None => (zero, zero)
    end
  else (zero, zero).

Record record := {
  r_serialNo : str;
  r_inverterId : str;
  r_beneficiaryName : str;
  r_capacity : number;
  totalKwh : number;
  avgDailyKwh : number;
  specYield : number;
  daysInRange : Z;
  lifetimeGeneration : number
}.

(** Lines 242-245: the constants [daysInRange], [avgDailyKwh] and
    [specYield] that the handler computes from [totalKwh]. *)
Record locals := {
  local_daysInRange : Z;
  local_avgDailyKwh : number;
  local_specYield : number
}.

Definition localsOf (inv : inverter) (totalKwh : number) : locals :=
  let daysInRange := 8 in
  let avgDailyKwh := div totalKwh (of_Z daysInRange) in
  let specYield :=
    if gt0 (capacity inv) then div avgDailyKwh (capacity inv) else zero in
  {| local_daysInRange := daysInRange;
     local_avgDailyKwh := avgDailyKwh;
     local_specYield := specYield |}.

(** Lines 247-257: the object that is returned. *)
Definition makeRecord (inv : inverter) (totals : number * number) : record :=
  let '(totalKwh, lifetimeGeneration) := totals in
  let l := localsOf inv totalKwh in
  {| r_serialNo := serialNo inv;
     r_inverterId := inverterId inv;
     r_beneficiaryName := beneficiaryName inv;
     r_capacity := capacity inv;
     totalKwh := toFixed 2 totalKwh;
     avgDailyKwh := toFixed 2 (local_avgDailyKwh l);
     specYield := toFixed 3 (local_specYield l);
     daysInRange := local_daysInRange l;
     lifetimeGeneration := lifetimeGeneration |}.

(** Lines 144-262: one inverter of a batch; [None] is the [null] that
    [filter(Boolean)] removes. *)
Definition processInverter (deviceApi : device_api) (energyApi : history_api)
  (w : window) (inv : inverter) : option record :=
  match deviceApi (deviceRequest inv) with
  | Throw _ => None
  | Ok deviceRes =>
      if negb (ok deviceRes) then None
      else
        match json deviceRes with
        | Throw _ => None
        | Ok deviceData =>
            let psKey :=
              match Device.device_point_list deviceData with
              | Some l => Device.find_ps_key l
              | None => None
              end in
            match psKey with
            | Some key =>
                if truthy_str key then
                  match energyApi (energyRequest w key) with
                  | Throw _ => None
                  | Ok energyRes =>
                      if negb (ok energyRes) then None
                      else
                        match json energyRes with
                        | Throw _ => None
                        | Ok energyData =>
                            Some (makeRecord inv (energyTotals w energyData))
                        end
                  end
                else None
            | None => None
            end
        end
  end.

(** Lines 134-272: the records of all batches, in roster order. *)
Fixpoint collect (deviceApi : device_api) (energyApi : history_api)
  (w : window) (inverters : list inverter) : list record :=
  match inverters with
  | [] => []
  | inv :: r =>
      match processInverter deviceApi energyApi w inv with
      | Some rec => rec :: collect deviceApi energyApi w r
      | None => collect deviceApi energyApi w r
      end
  end.

Definition performanceData (deviceApi : device_api) (energyApi : history_api)
  (tz : zone) (now : Date) (inverters : list inverter)
  : outcome (list record) :=
  match collect deviceApi energyApi (windowOf tz now) inverters with
  | [] => Throw "No valid inverter data successfully collected to sync"
  | l => Ok l
  end.

End Cron.

(* ================================================================== *)
(** * The login exchange, as both pages see it *)

Module Login.
Import JS.

(** What one [POST /openapi/login] gives the page. *)
Inductive reply :=
| NetworkFailure (message : str)
    (** [fetch] rejects with an error of this message *)
| NotJson
    (** the body does not parse *)
| Answer (ok : bool) (status : Z) (result_code : str)
    (result_msg : option str) (token : option str).

(** The reply to the attempt made with a given [retryCount]. *)
Definition server := nat -> reply.

Record credentials := {
  SOLAR_APPKEY : str;
  SOLAR_SECRET_KEY : str;
  USER_ACCOUNT : str;
  USER_PASSWORD : str
}.

Inductive event :=
| Post (retryCount : nat)   (** one request to the login endpoint *)
| Wait (ms : Z).            (** [setTimeout] before the next attempt *)

Inductive ending :=
| LoggedIn (token : str)
| Failed (message : str)    (** [setLoginError], the failure is shown *)
| Skipped.                  (** [if (loginLoading) return] *)

Definition is_post (e : event) : bool :=
  match e with Post _ => true | Wait _ => false end.

(** Number of requests in a trace. *)
Definition attempts (trace : list event) : nat :=
  List.length (filter is_post trace).

(** The delays of a trace. *)
Definition waits (trace : list event) : list Z :=
  flat_map (fun e => match e with Wait ms => [ms] | Post _ => [] end) trace.

(** [x || d] on an optional string. *)
Definition str_or (x : option str) (d : str) : str :=
  match x with
  | Some s => if truthy_str s then s else d
  | None => d
  end.

End Login.

(* ================================================================== *)
(** * WeeklyPerformanceReport.jsx: the weekly report page *)

Module Weekly.
Import JS Vendor Http Request Calendar.

Record inverter := {
  id : nat;
  serialNo : option str;
  inverterId : str;
  beneficiaryName : str;
  capacity : number;
  selected : bool
}.

(** Lines 358-384: the body of [rows.forEach((row, index) => ...)]. *)
Definition loadRow (inverterList : list inverter) (row : Sheet.row)
  (index : nat) : list inverter :=
  if (index =? 0)%nat then inverterList
  else
    let rowValues := Sheet.rowValues row in
    let serialNo := Sheet.column rowValues 0 in
    let inverterId := Sheet.column rowValues 1 in
    let beneficiaryName := Sheet.column rowValues 2 in
    let capacityStr := Sheet.column rowValues 3 in
    let capacity := num_or (parseFloat capacityStr) (of_Z 1) in
    if truthy_str inverterId && truthy_str beneficiaryName then
      inverterList ++
        [ {| id := index;
             serialNo := Some (if truthy_str serialNo then serialNo
                               else ("S" ++ string_of_nat index)%string);
             inverterId := inverterId;
             beneficiaryName := beneficiaryName;
             capacity := capacity;
             selected := true |} ]
    else inverterList.

Definition fetchInverterList (rows : list Sheet.row) : list inverter :=
  forEachIdx loadRow rows [].

Record date_range := { startDate : str; endDate : str }.

(** Lines 238-254. *)
Definition calculateDaysInRange (dateRange : date_range) : Z :=
  if negb (truthy_str (startDate dateRange))
     || negb (truthy_str (endDate dateRange)) then 7
  else
    match newDate (startDate dateRange), newDate (endDate dateRange) with
    | Some start, Some end_ =>
        let diffTime := Z.abs (end_ - start) in
        ceilDiv diffTime (1000 * 60 * 60 * 24) + 1
    | _, _ => 7
    end.

(** Lines 620-632: the dates of the request. *)
Record api_dates := { apiStartDate : str; apiEndDate : str }.

Definition apiStartOf (tz : zone) (start : Date) : Date :=
  setDate tz start (getDate tz start - 1).

Definition apiDates (tz : zone) (dateRange : date_range) : outcome api_dates :=
  match newDate (startDate dateRange), newDate (endDate dateRange) with
  | Some start, Some end_ =>
      Ok {| apiStartDate := formatDateForAPI tz (apiStartOf tz start);
            apiEndDate := formatDateForAPI tz end_ |}
  | _, _ => Throw "Invalid date range selected"
  end.

Definition deviceRequest (inverterId : str) : device_request :=
  {| sn_list := [inverterId] |}.

Definition energyRequest (d : api_dates) (psKey : str) : history_request :=
  {| data_point := "p2";
     data_type := "2";
     query_type := "1";
     order := "0";
     start_time := apiStartDate d;
     end_time := apiEndDate d;
     ps_key_list := [psKey] |}.

(** One entry of [performanceData]. *)
Record result := {
  inv : inverter;                        (** [...inverter] *)
  psKey : option str;
  totalKwh : number;
  avgDailyKwh : number;
  specYield : number;
  dailyData : list Daily.daily_point;
  error : option str;
  daysInRange : Z;
  lifetimeGeneration : option number     (** absent in some error records *)
}.

(** The error records of lines 688-710 and 793-802. *)
Definition errorRecord (inverter : inverter) (psKey : option str)
  (message : str) (daysInRange : Z) : result :=
  {| inv := inverter;
     psKey := psKey;
     totalKwh := zero;
     avgDailyKwh := zero;
     specYield := zero;
     dailyData := [];
     error := Some message;
     daysInRange := daysInRange;
     lifetimeGeneration := None |}.

(** The record of the [catch], lines 819-836. *)
Definition caughtRecord (inverters : list inverter) (i : nat)
  (inverterId : str) (dateRange : date_range) (message : str) : result :=
  let inverter :=
    match find (fun inv => String.eqb (Weekly.inverterId inv) inverterId)
               inverters with
    | Some inv => inv
    | None => {| id := i; serialNo := None; inverterId := inverterId;
                 beneficiaryName := "Unknown"; capacity := of_Z 1;
                 selected := false |}
    end in
  {| inv := inverter;
     psKey := None;
     totalKwh := zero;
     avgDailyKwh := zero;
     specYield := zero;
     dailyData := [];
     error := Some message;
     daysInRange := calculateDaysInRange dateRange;
     lifetimeGeneration := Some zero |}.

(** [psKeyCache], an object from inverter id to key. *)
Definition cache := list (str * str).

Definition cached (c : cache) (inverterId : str) : option str :=
  match Vendor.prop inverterId c with
  | Some k => if truthy_str k then Some k else None
  | None => None
  end.

(** Lines 749-790: [dailyData] and [totalKwh] of an accepted answer. *)
Definition energyTotals (dateRange : date_range)
  (rd : list (str * device_data)) : list Daily.daily_point * number :=
  match firstEntry rd with
  | Some (psKeyData, dev) =>
      if truthy_str psKeyData then
        match firstEntry dev with
        | Some (_, Some dataArray) =>
            let dailyData :=
              Daily.dailyData (Daily.walk (Daily.sortedData dataArray)) in
            let filteredDailyData :=
              Daily.filteredDailyData (removeHyphens (startDate dateRange))
                (removeHyphens (endDate dateRange)) dailyData in
            (dailyData, Daily.totalKwh filteredDailyData)
        | _ => ([], zero)
        end
      else ([], zero)
  | None => ([], zero)
  end.

(** Lines 805-806: the constants [avgDailyKwh] and [specYield]. *)
Record locals := {
  local_avgDailyKwh : number;
  local_specYield : number
}.

Definition localsOf (inverter : inverter) (daysInRange : Z) (totalKwh : number)
  : locals :=
  let avgDailyKwh :=
    if 0 <? daysInRange then div totalKwh (of_Z daysInRange) else zero in
  let specYield :=
    if gt0 (capacity inverter) then div avgDailyKwh (capacity inverter)
    else zero in
  {| local_avgDailyKwh := avgDailyKwh; local_specYield := specYield |}.

(** Lines 808-818. *)
Definition successRecord (inverter : inverter) (psKey : str)
  (daysInRange : Z) (totals : list Daily.daily_point * number) : result :=
  let '(dailyData, totalKwh) := totals in
  let l := localsOf inverter daysInRange totalKwh in
  {| inv := inverter;
     psKey := Some psKey;
     totalKwh := toFixed 2 totalKwh;
     avgDailyKwh := toFixed 2 (local_avgDailyKwh l);
     specYield := toFixed 3 (local_specYield l);
     dailyData := dailyData;
     error := None;
     daysInRange := daysInRange;
     lifetimeGeneration := Some (Daily.lifetimeOf dailyData) |}.

Definition http_failure (what : str) (status : Z) : str :=
  if (status =? 401) || (status =? 403)
  then "Session expired. Please login again."
  else (what ++ string_of_Z status)%string.

(** Lines 713-818: the energy call and what follows it. *)
Definition withKey (energyApi : history_api) (dates : api_dates)
  (dateRange : date_range) (daysInRange : Z) (inverter : inverter)
  (key : str) : outcome result :=
  match energyApi (energyRequest dates key) with
  | Throw m => Throw m
  | Ok energyRes =>
      if negb (ok energyRes)
      then Throw (http_failure "Failed to fetch energy data: " (status energyRes))
      else
        match json energyRes with
        | Throw m => Throw m
        | Ok energyData =>
            match String.eqb (result_code energyData) "1",
                  result_data energyData with
            | true, Some rd =>
                Ok (successRecord inverter key daysInRange
                      (energyTotals dateRange rd))
            | _, _ =>
                Ok (errorRecord inverter (Some key)
                      (Login.str_or (result_msg energyData) "Invalid energy data")
                      daysInRange)
            end
        end
  end.

(** Lines 644-818: the [try] block for one inverter id.  The result is the
    entry, or [None] for [null], and the key to store in the cache. *)
Definition tryInverter (deviceApi : device_api) (energyApi : history_api)
  (inverters : list inverter) (psKeyCache : cache) (dates : api_dates)
  (dateRange : date_range) (daysInRange : Z) (inverterId : str)
  : outcome (option result) * option str :=
  match find (fun inv => String.eqb (Weekly.inverterId inv) inverterId)
             inverters with
  | None => (Ok None, None)
  | Some inverter =>
      match cached psKeyCache inverterId with
      | Some key =>
          (match withKey energyApi dates dateRange daysInRange inverter key with
           | Ok r => Ok (Some r)
           | Throw m => Throw m
           end, None)
      | None =>
          match deviceApi (deviceRequest inverterId) with
          | Throw m => (Throw m, None)
          | Ok deviceRes =>
              if negb (ok deviceRes)
              then (Throw (http_failure "Failed to fetch device data: "
                             (status deviceRes)), None)
              else
                match json deviceRes with
                | Throw m => (Throw m, None)
                | Ok deviceData =>
                    match String.eqb (Device.result_code deviceData) "1",
                          Device.device_point_list deviceData with
                    | true, Some l =>
                        match Device.find_ps_key l with
                        | Some key =>
                            (match withKey energyApi dates dateRange daysInRange
                                     inverter key with
                             | Ok r => Ok (Some r)
                             | Throw m => Throw m
                             end, Some key)
                        | None =>
                            (Ok (Some (errorRecord inverter None
                                         "No PS Key found" daysInRange)), None)
                        end
                    | _, _ =>
                        (Ok (Some (errorRecord inverter None
                                     (Login.str_or (Device.result_msg deviceData)
                                        "Invalid device response")
                                     daysInRange)), None)
                    end
                end
          end
      end
  end.

(** Lines 643-837: one element of [batch.map(async (inverterId) => ...)] of
    the batch that starts at index [i]. *)
Definition processInverter (deviceApi : device_api) (energyApi : history_api)
  (inverters : list inverter) (psKeyCache : cache) (dates : api_dates)
  (dateRange : date_range) (daysInRange : Z) (i : nat) (inverterId : str)
  : option result * option str :=
  match tryInverter deviceApi energyApi inverters psKeyCache dates dateRange
          daysInRange inverterId with
  | (Ok r, w) => (r, w)
  | (Throw m, w) => (Some (caughtRecord inverters i inverterId dateRange m), w)
  end.

(** Lines 639-853: the batches of ten, one after the other.  Every element
    of a batch reads the cache before any element of that batch writes it. *)
Definition somes {A : Type} (l : list (option A)) : list A :=
  flat_map (fun o => match o with Some a => [a] | None => [] end) l.

Definition storeKeys (psKeyCache : cache) (batch : list str)
  (writes : list (option str)) : cache :=
  fold_left
    (fun c kw => match kw with
                 | (inverterId, Some key) => (inverterId, key) :: c
                 | (_, None) => c
                 end)
    (combine batch writes) psKeyCache.

Fixpoint fetchLoop (fuel : nat) (deviceApi : device_api)
  (energyApi : history_api) (inverters : list inverter) (dates : api_dates)
  (dateRange : date_range) (selectedInverters : list str) (i : nat)
  (psKeyCache : cache) (results : list result) : list result * cache :=
  match fuel with
  | O => (results, psKeyCache)
  | S fuel' =>
      if (i <? List.length selectedInverters)%nat then
        let batch := firstn 10 (skipn i selectedInverters) in
        let batchResults :=
          map (processInverter deviceApi energyApi inverters psKeyCache dates
                 dateRange (calculateDaysInRange dateRange) i) batch in
        fetchLoop fuel' deviceApi energyApi inverters dates dateRange
          selectedInverters (i + 10)
          (storeKeys psKeyCache batch (map snd batchResults))
          (results ++ somes (map fst batchResults))
      else (results, psKeyCache)
  end.

(** Lines 617-856: the results and the cache to store. *)
Definition fetchPerformanceData (tz : zone) (deviceApi : device_api)
  (energyApi : history_api) (inverters : list inverter)
  (dateRange : date_range) (selectedInverters : list str)
  (cachedPsKeys : cache) : outcome (list result * cache) :=
  match apiDates tz dateRange with
  | Throw m => Throw m
  | Ok dates =>
      Ok (fetchLoop (S (List.length selectedInverters)) deviceApi energyApi
            inverters dates dateRange selectedInverters 0 cachedPsKeys [])
  end.

(** ** The sync writer, lines 896-988 *)

(** [!item.error]. *)
Definition hasError (item : result) : bool := Device.truthy_opt (error item).

Record sync_row := {
  row_serialNo : str;
  row_inverterId : str;
  row_beneficiaryName : str;
  row_capacity : number;
  row_totalKwh : number;
  row_avgDailyKwh : number;
  row_specYield : number;
  row_daysInRange : Z;
  row_lifetimeGeneration : number
}.

(** Body of the [POST] to the sheet endpoint; [data] is the array that the
    page serializes. *)
Record sync_request := {
  action : str;
  sheetName : str;
  dateRangeStart : str;
  dateRangeEnd : str;
  data : list sync_row
}.

Record sync_answer := {
  answer_success : bool;
  newRows : Z;
  updatedRows : Z;
  totalRows : Z;
  answer_error : option str;
  answer_message : option str
}.

Definition sheet_api := sync_request -> fetched sync_answer.

(** What [handleSyncCSVFormat] returns. *)
Record sync_return := { success : bool; sync_error : option str }.

(** [dateStr.split('-')], the parts between hyphens. *)
Fixpoint splitHyphen (s : str) (cur : str) : list str :=
  match s with
  | EmptyString => [cur]
  | String c r =>
      if (nat_of_ascii c =? 45)%nat then cur :: splitHyphen r EmptyString
      else splitHyphen r (cur ++ String c EmptyString)%string
  end.

(** Lines 75-83: [formatDateToDDMMYYYY]. *)
Definition formatDateToDDMMYYYY (dateStr : str) : str :=
  if negb (truthy_str dateStr) then ""
  else
    let parts := splitHyphen dateStr EmptyString in
    let year := nth 0 parts "undefined" in
    let month := nth 1 parts "undefined" in
    let day := nth 2 parts "undefined" in
    (day ++ "/" ++ month ++ "/" ++ year)%string.

(** Lines 914-928: the body of [performanceData.forEach(item => ...)]. *)
Definition pushRow (dateRange : date_range) (syncData : list sync_row)
  (item : result) : list sync_row :=
  if negb (hasError item) then
    syncData ++
      [ {| row_serialNo :=
             match serialNo (inv item) with
             | Some s => if truthy_str s then s
                         else ("S" ++ string_of_nat (id (inv item)))%string
             | None => ("S" ++ string_of_nat (id (inv item)))%string
             end;
           row_inverterId := trim (inverterId (inv item));
           row_beneficiaryName := trim (beneficiaryName (inv item));
           row_capacity := capacity (inv item);
           row_totalKwh := totalKwh item;
           row_avgDailyKwh := avgDailyKwh item;
           row_specYield := specYield item;
           row_daysInRange :=
             if daysInRange item =? 0 then calculateDaysInRange dateRange
             else daysInRange item;
           row_lifetimeGeneration :=
             match lifetimeGeneration item with
             | Some x => num_or x zero
             | None => zero
             end |} ]
  else syncData.

Definition syncDataOf (dateRange : date_range) (performanceData : list result)
  : list sync_row := fold_left (pushRow dateRange) performanceData [].

(** What the page does that can be seen from outside. *)
Inductive effect :=
| Toast (message : str) (type : str)   (** [showToast(message, type)] *)
| Post (request : sync_request).       (** [fetch(GOOGLE_SCRIPT_URL, {method: 'POST', ...})] *)

Definition posts (trace : list effect) : list sync_request :=
  flat_map (fun e => match e with Post r => [r] | Toast _ _ => [] end) trace.

Definition errorToasts (trace : list effect) : list str :=
  flat_map (fun e => match e with
                     | Toast m type => if String.eqb type "error" then [m] else []
                     | Post _ => []
                     end) trace.

(** The message of the success toast, lines 972-976, without its leading
    check mark. *)
Definition syncedMessage (n : nat) (result : sync_answer) : str :=
  ("Synced " ++ string_of_nat n ++ " records in CSV format"
   ++ (if (0 <? newRows result)%Z
       then " (" ++ string_of_Z (newRows result) ++ " new)" else "")
   ++ (if (0 <? updatedRows result)%Z
       then " (" ++ string_of_Z (updatedRows result) ++ " updated)" else ""))%string.

(** Lines 896-988: the value returned and the trace of the effects. *)
Definition handleSyncCSVFormat (sheetApi : sheet_api)
  (performanceData : list result) (dateRange : date_range)
  : sync_return * list effect :=
  match performanceData with
  | [] =>
      ({| success := false; sync_error := None |},
       [Toast "No performance data available to sync" "error"])
  | _ =>
      let started := [Toast "Syncing data in CSV format to Google Sheets..." "info"] in
      let failed trace m :=
        ({| success := false; sync_error := Some m |},
         trace ++ [Toast ("CSV Sync Failed: " ++ m)%string "error"]) in
      let syncData := syncDataOf dateRange performanceData in
      match syncData with
      | [] => failed started "No valid data to sync (all records have errors)"
      | _ =>
          let request :=
            {| action := "syncCSVFormat";
               sheetName := "Weekly_Performance_Logs";
               dateRangeStart := formatDateToDDMMYYYY (startDate dateRange);
               dateRangeEnd := formatDateToDDMMYYYY (endDate dateRange);
               data := syncData |} in
          let posted := started ++ [Post request] in
          match sheetApi request with
          | Throw m => failed posted m
          | Ok response =>
              if negb (ok response)
              then failed posted ("HTTP error! status: "
                                  ++ string_of_Z (status response))%string
              else
                match json response with
                | Throw m => failed posted m
                | Ok result =>
                    if answer_success result
                    then ({| success := true; sync_error := None |},
                          posted ++ [Toast (syncedMessage (List.length syncData)
                                              result) "success"])
                    else failed posted
                           (Login.str_or (answer_error result)
                              (Login.str_or (answer_message result)
                                 "Sync failed"))
                end
          end
      end
  end.

(** ** The summary, lines 1127-1171 *)

Inductive sort_column :=
| ByBeneficiaryName | ByInverterId | ByCapacity | ByTotalKwh
| ByAvgDailyKwh | BySpecYield.

(** [a[sortBy] || 0] as the number that the subtraction sees; a text column
    gives [NaN]. *)
Definition sortValue (sortBy : sort_column) (a : result) : number :=
  match sortBy with
  | ByBeneficiaryName => NaN
  | ByInverterId => NaN
  | ByCapacity => num_or (capacity (inv a)) zero
  | ByTotalKwh => num_or (totalKwh a) zero
  | ByAvgDailyKwh => num_or (avgDailyKwh a) zero
  | BySpecYield => num_or (specYield a) zero
  end.

(** The comparator of line 1142,
    [sortOrder === 'desc' ? bValue - aValue : aValue - bValue], does not put
    [b] before [a]: its value is not positive. *)
Definition sort_le (sortBy : sort_column) (desc : bool) (a b : result) : bool :=
  let aValue := sortValue sortBy a in
  let bValue := sortValue sortBy b in
  negb (gt0 (if desc then sub bValue aValue else sub aValue bValue)).

Definition lower_includes (field : option str) (term : str) : bool :=
  match field with
  | Some s => includes (toLowerCase s) term
  | None => false
  end.

Definition matchesSearch (term : str) (item : result) : bool :=
  lower_includes (Some (beneficiaryName (inv item))) term
  || lower_includes (Some (inverterId (inv item))) term
  || lower_includes (serialNo (inv item)) term.

(** Lines 1127-1144. *)
Definition filteredData (performanceData : list result) (searchTerm : str)
  (sortBy : sort_column) (desc : bool) : list result :=
  let data := filter (fun item => negb (hasError item)) performanceData in
  let data :=
    if truthy_str searchTerm
    then filter (matchesSearch (toLowerCase searchTerm)) data
    else data in
  sort (sort_le sortBy desc) data.

Record summary := {
  sum_totalKwh : number;
  sum_avgDailyKwh : number;
  sum_avgSpecYield : number;
  sum_totalCapacity : number;
  totalInverters : nat;
  bestPerformer : result;
  worstPerformer : result
}.

(** [validData.reduce((sum, item) => sum + f(item), 0)]. *)
Definition reduceSum (f : result -> number) (l : list result) : number :=
  fold_left (fun sum item => add sum (f item)) l zero.

(** [validData.length] as a number. *)
Definition count (l : list result) : number := of_Z (Z.of_nat (List.length l)).

(** The comparator [(a, b) => b.specYield - a.specYield] does not put [b]
    before [a]. *)
Definition by_yield (a b : result) : bool :=
  negb (gt0 (sub (specYield b) (specYield a))).

(** Lines 1147-1171. *)
Definition summaryStats (filteredData : list result) : option summary :=
  match filteredData with
  | [] => None
  | _ =>
      let validData := filter (fun item => gt0 (totalKwh item)) filteredData in
      match validData with
      | [] => None
      | first :: _ =>
          let totalKwh := reduceSum totalKwh validData in
          let avgDailyKwh := div (reduceSum avgDailyKwh validData) (count validData) in
          let avgSpecYield := div (reduceSum specYield validData) (count validData) in
          let totalCapacity := reduceSum (fun item => capacity (inv item)) validData in
          let sortedByYield := sort by_yield validData in
          Some {| sum_totalKwh := toFixed 2 totalKwh;
                  sum_avgDailyKwh := toFixed 2 avgDailyKwh;
                  sum_avgSpecYield := toFixed 3 avgSpecYield;
                  sum_totalCapacity := toFixed 2 totalCapacity;
                  totalInverters := List.length validData;
                  bestPerformer := hd first sortedByYield;
                  worstPerformer := List.last sortedByYield first |}
      end
  end.

(** ** The login, lines 436-535 *)

Definition missingVars (c : Login.credentials) : list str :=
  (if truthy_str (Login.SOLAR_APPKEY c) then [] else ["VITE_SOLAR_APP_KEY"]) ++
  (if truthy_str (Login.SOLAR_SECRET_KEY c) then [] else ["VITE_SOLAR_SECRET_KEY"]) ++
  (if truthy_str (Login.USER_ACCOUNT c) then [] else ["VITE_USER_ACCOUNT"]) ++
  (if truthy_str (Login.USER_PASSWORD c) then [] else ["VITE_USER_PASSWORD"]).

(** What the [try] block of one call does: it ends the login, asks for a
    retry after a busy answer, or throws. *)
Inductive attempt :=
| Done (token : str)
| RetryBusy
| Thrown (message : str).

Definition tryLogin (c : Login.credentials) (r : Login.reply)
  (retryCount : nat) : attempt :=
  match r with
  | Login.NetworkFailure m => Thrown m
  | Login.NotJson => Thrown "Invalid server response. Please try again."
  | Login.Answer ok status result_code result_msg token =>
      if negb ok then
        Thrown (Login.str_or result_msg
                  ("Server error (" ++ string_of_Z status ++ ")")%string)
      else if String.eqb result_code "1" then
        let newToken := Login.str_or token "" in
        if truthy_str newToken then Done newToken
        else Thrown "No token received from server"
      else if lower_includes result_msg "busy" && (retryCount <? 2)%nat
      then RetryBusy
      else Thrown (Login.str_or result_msg "Login failed with unknown error")
  end.

(** The test of line 523:
    [retryCount < 2 && err.message.includes('network')
     || err.message.includes('Failed to fetch')]. *)
Definition retryAfterError (retryCount : nat) (message : str) : bool :=
  ((retryCount <? 2)%nat && includes message "network")
  || includes message "Failed to fetch".

(** Lines 436-535.  [None] when the fuel runs out before the login ends. *)
Fixpoint handleAutoLogin (fuel : nat) (loginLoading : bool)
  (c : Login.credentials) (srv : Login.server) (retryCount : nat)
  : option (Login.ending * list Login.event) :=
  match fuel with
  | O => None
  | S fuel' =>
      if loginLoading then Some (Login.Skipped, [])
      else
        let again trace ms :=
          match handleAutoLogin fuel' loginLoading c srv (retryCount + 1) with
          | Some (e, t) => Some (e, trace ++ Login.Wait ms :: t)
          | None => None
          end in
        let caught trace message :=
          if retryAfterError retryCount message then again trace 3000
          else Some (Login.Failed (Login.str_or (Some message)
                                     "Unable to connect to server"), trace) in
        match missingVars c with
        | (_ :: _) as missing =>
            caught []
              ("Missing API credentials: " ++ String.concat ", " missing
               ++ ". Please check environment configuration.")%string
        | [] =>
            let trace := [Login.Post retryCount] in
            match tryLogin c (srv retryCount) retryCount with
            | Done token => Some (Login.LoggedIn token, trace)
            | RetryBusy => again trace 2000
            | Thrown message => caught trace message
            end
        end
  end.

End Weekly.

(* ================================================================== *)
(** * The days of the automatic sync and the first range of the page

    WeeklyPerformanceReport.jsx, lines 163-193 and 257-273. *)

Module Schedule.
Import JS Calendar.

(** [date.getDay()]: the day of the week of the local day, Sunday being 0.
    Day 0 of the count, 1 January 1970, was a Thursday. *)
Definition getDay (tz : zone) (t : Date) : Z := (localDay tz t + 4) mod 7.

(** Lines 163-167, [today] being the [new Date()] of the call. *)
Definition isTodayAutoSyncDay (tz : zone) (today : Date) : bool :=
  let dayOfWeek := getDay tz today in
  (dayOfWeek =? 1) || (dayOfWeek =? 3).

(** Lines 176-193.  [(8 - dayOfWeek) % 7 || 7]: the remainder of [%] has
    the sign of the dividend. *)
Definition getNextAutoSyncDate (tz : zone) (today : Date) : Date :=
  let nextDate := today in
  let dayOfWeek := getDay tz today in
  if dayOfWeek =? 1 then setDate tz nextDate (getDate tz nextDate + 2)
  else if dayOfWeek =? 3 then setDate tz nextDate (getDate tz nextDate + 5)
  else
    let daysUntilMonday :=
      let r := Z.rem (8 - dayOfWeek) 7 in
      if r =? 0 then 7 else r in
    setDate tz nextDate (getDate tz nextDate + daysUntilMonday).

(** [formatDate] of lines 262-267: [`${year}-${month}-${day}`]. *)
Definition formatDate (tz : zone) (date : Date) : str :=
  let year := string_of_Z (getFullYear tz date) in
  let month := padStart2 (string_of_Z (getMonth tz date + 1)) in
  let day := padStart2 (string_of_Z (getDate tz date)) in
  (year ++ "-" ++ month ++ "-" ++ day)%string.

(** Lines 258-273: the range that the page starts with, [now] being the
    time of the two [new Date()]. *)
Definition defaultDateRange (tz : zone) (now : Date) : Weekly.date_range :=
  let end_ := now in
  let start := setDate tz now (getDate tz now - 7) in
  {| Weekly.startDate := formatDate tz start;
     Weekly.endDate := formatDate tz end_ |}.

End Schedule.

(* ================================================================== *)
(** * api/sync-weekly-report.js: the handler as a whole

    The checks of the request and of the environment (lines 16-27), the
    login (lines 32-51), the roster (lines 55-102), the records (lines
    134-272) and the submission (lines 275-312). *)

Module Handler.
Import JS Http Request Calendar.

(** [o === s] for a header or a variable that can be missing. *)
Definition option_is (o : option str) (s : str) : bool :=
  match o with
  | Some t => String.eqb t s
  | None => false
  end.

(** [`${day}/${month}/${year}`] of lines 277-278. *)
Definition formatDDMMYYYY (tz : zone) (d : Date) : str :=
  (padStart2 (string_of_Z (getDate tz d)) ++ "/" ++
   padStart2 (string_of_Z (getMonth tz d + 1)) ++ "/" ++
   string_of_Z (getFullYear tz d))%string.

(** [process.env]. *)
Record env := {
  VITE_SOLAR_APP_KEY : option str;
  VITE_SOLAR_SECRET_KEY : option str;
  VITE_USER_ACCOUNT : option str;
  VITE_USER_PASSWORD : option str;
  VITE_GOOGLE_SCRIPT_URL : option str;
  CRON_SECRET : option str
}.

(** [req.headers]. *)
Record headers := {
  user_agent : option str;
  authorization : option str
}.

(** The body of the login answer. *)
Record login_body := {
  result_code : str;
  result_msg : option str;
  token : option str                        (** [result_data?.token] *)
}.

(** The text of the roster answer: it parses; or it does not and the text
    from its first opening brace to its last closing brace is parsed; or it
    does not and a brace is missing. *)
Inductive sheet_text :=
| Json (sheetData : Sheet.sheet_data)
| Embedded (sheetData : outcome Sheet.sheet_data)
| NoBraces.

Record sheet_response := {
  sheet_ok : bool;
  sheet_status : Z;
  sheet_body : sheet_text
}.

(** The form that the handler posts to the sheet. *)
Record submit_request := {
  action : str;
  sheetName : str;
  dateRangeStart : str;
  dateRangeEnd : str;
  data : list Cron.record
}.

Definition submit_api := submit_request -> fetched Weekly.sync_answer.

(** The requests that the handler sends. *)
Inductive call :=
| LoginCall
| SheetCall
| DeviceCall (request : device_request)
| EnergyCall (request : history_request)
| SubmitCall (request : submit_request).

(** The JSON bodies of the answers of the handler. *)
Inductive body :=
| Unauthorized                              (** [{ error: 'Unauthorized' }] *)
| Misconfigured (error : str)               (** [{ error }] *)
| Failure (error : str)                     (** [{ success: false, error }] *)
| Success (count : nat) (details : Weekly.sync_answer) (dateRange : str).

Record reply := { status : Z; json : body }.

(** [!x] on a variable of the environment. *)
Definition missing (x : option str) : bool := negb (Device.truthy_opt x).

(** [`${x}`] of a field that can be missing. *)
Definition template (x : option str) : str :=
  match x with
  | Some s => s
  | None => "undefined"
  end.

(** Lines 16-22: the request is refused. *)
Definition refused (e : env) (h : headers) : bool :=
  negb (option_is (user_agent h) "vercel-cron")
  && Device.truthy_opt (CRON_SECRET e)
  && negb (option_is (authorization h)
             ("Bearer " ++ template (CRON_SECRET e))%string).

(** Lines 32-51. *)
Definition login (loginApi : fetched login_body) : outcome str :=
  match loginApi with
  | Throw m => Throw m
  | Ok loginRes =>
      if negb (ok loginRes)
      then Throw ("Login failed with status "
                  ++ string_of_Z (Http.status loginRes))%string
      else
        match Http.json loginRes with
        | Throw m => Throw m
        | Ok loginResult =>
            if negb (String.eqb (result_code loginResult) "1")
            then Throw ("Login failed: " ++ template (result_msg loginResult))%string
            else if Device.truthy_opt (token loginResult)
            then Ok (template (token loginResult))
            else Throw "No token received from server"
        end
  end.

(** Lines 55-102. *)
Definition roster (sheetApi : outcome sheet_response)
  : outcome (list Cron.inverter) :=
  match sheetApi with
  | Throw m => Throw m
  | Ok sheetRes =>
      if negb (sheet_ok sheetRes)
      then Throw ("Failed to fetch inverter list: "
                  ++ string_of_Z (sheet_status sheetRes))%string
      else
        match sheet_body sheetRes with
        | Json sheetData => Cron.loadRoster (Sheet.rowsOf sheetData)
        | Embedded (Ok sheetData) => Cron.loadRoster (Sheet.rowsOf sheetData)
        | Embedded (Throw m) => Throw m
        | NoBraces => Throw "Invalid JSON response from Google Sheets"
        end
  end.

(** Lines 147-191: the requests made for one inverter. *)
Definition inverterCalls (deviceApi : device_api) (w : Cron.window)
  (inv : Cron.inverter) : list call :=
  DeviceCall (Cron.deviceRequest inv)
  :: match deviceApi (Cron.deviceRequest inv) with
     | Throw _ => []
     | Ok deviceRes =>
         if negb (ok deviceRes) then []
         else
           match Http.json deviceRes with
           | Throw _ => []
           | Ok deviceData =>
               match match Device.device_point_list deviceData with
                     | Some l => Device.find_ps_key l
                     | None => None
                     end with
               | Some key =>
                   if truthy_str key then [EnergyCall (Cron.energyRequest w key)]
                   else []
               | None => []
               end
           end
     end.

(** Lines 275-299. *)
Definition submit (submitApi : submit_api) (request : submit_request)
  : outcome Weekly.sync_answer :=
  match submitApi request with
  | Throw m => Throw m
  | Ok submitRes =>
      if negb (ok submitRes)
      then Throw ("Submit failed with status "
                  ++ string_of_Z (Http.status submitRes))%string
      else
        match Http.json submitRes with
        | Throw m => Throw m
        | Ok submitResult =>
            if Weekly.answer_success submitResult then Ok submitResult
            else Throw (Login.str_or (Weekly.answer_error submitResult)
                          (Login.str_or (Weekly.answer_message submitResult)
                             "Sync failed on Google apps script"))
        end
  end.

Definition failure (m : str) : reply := {| status := 500; json := Failure m |}.

(** The forms that a trace of requests posts to the sheet. *)
Definition submits (calls : list call) : list submit_request :=
  flat_map (fun c => match c with SubmitCall r => [r] | _ => [] end) calls.

(** Lines 4-313: the answer and the requests that were sent, [now] being
    the time of the run in the zone [tz] of the server.  The requests of
    the inverters of a batch are listed inverter by inverter. *)
Definition handler (e : env) (h : headers) (tz : zone) (now : Date)
  (loginApi : fetched login_body) (sheetApi : outcome sheet_response)
  (deviceApi : device_api) (energyApi : history_api) (submitApi : submit_api)
  : reply * list call :=
  if refused e h then ({| status := 401; json := Unauthorized |}, [])
  else if missing (VITE_SOLAR_APP_KEY e) || missing (VITE_SOLAR_SECRET_KEY e)
          || missing (VITE_USER_ACCOUNT e) || missing (VITE_USER_PASSWORD e)
          || missing (VITE_GOOGLE_SCRIPT_URL e)
  then ({| status := 500;
           json := Misconfigured
                     "Missing API credentials. Please set them in Vercel environment variables." |},
        [])
  else
    match login loginApi with
    | Throw m => (failure m, [LoginCall])
    | Ok _ =>
        match roster sheetApi with
        | Throw m => (failure m, [LoginCall; SheetCall])
        | Ok inverters =>
            let w := Cron.windowOf tz now in
            let fetched :=
              [LoginCall; SheetCall] ++ flat_map (inverterCalls deviceApi w) inverters in
            match Cron.performanceData deviceApi energyApi tz now inverters with
            | Throw m => (failure m, fetched)
            | Ok performanceData =>
                let formattedStartDate := formatDDMMYYYY tz (Cron.start w) in
                let formattedEndDate := formatDDMMYYYY tz (Cron.end_ w) in
                let request :=
                  {| action := "syncCSVFormat";
                     sheetName := "Weekly_Performance_Logs";
                     dateRangeStart := formattedStartDate;
                     dateRangeEnd := formattedEndDate;
                     data := performanceData |} in
                match submit submitApi request with
                | Throw m => (failure m, fetched ++ [SubmitCall request])
                | Ok submitResult =>
                    ({| status := 200;
                        json := Success (List.length performanceData) submitResult
                                  (formattedStartDate ++ " - " ++ formattedEndDate)%string |},
                     fetched ++ [SubmitCall request])
                end
            end
        end
    end.

End Handler.

(* ================================================================== *)
(** * The age of the saved token

    The two pages share the keys [solarToken] and [solarTokenTimestamp] of
    [localStorage]; each one has its own test of the age. *)

Module Session.
Import JS.

(** [solarToken] and [solarTokenTimestamp], [None] when the key is not
    there. *)
Record saved := { solarToken : option str; solarTokenTimestamp : option str }.

(** [Date.now() - parseInt(tokenTimestamp)]; [None] is [NaN].  The time
    is an integer below [2^53], and the comparisons of the age with a
    number of minutes give the same on the integers as on the numbers. *)
Definition tokenAge (now : Z) (tokenTimestamp : str) : option Z :=
  match parseInt tokenTimestamp with
  | Some ts => Some (now - ts)
  | None => None
  end.

(** WeeklyPerformanceReport.jsx, lines 429-433; a comparison with [NaN] is
    false. *)
Definition isTokenExpired (now : Z) (tokenTimestamp : option str) : bool :=
  match tokenTimestamp with
  | Some ts =>
      if negb (truthy_str ts) then true
      else
        match tokenAge now ts with
        | Some age => age >? 55 * 60 * 1000
        | None => false
        end
  | None => true
  end.

(** WeeklyPerformanceReport.jsx, lines 538-546: the saved token that the
    page takes when it is mounted, [None] when it takes none. *)
Definition weeklySavedToken (now : Z) (s : saved) : option str :=
  if Device.truthy_opt (solarToken s) && Device.truthy_opt (solarTokenTimestamp s)
  then
    if negb (isTokenExpired now (solarTokenTimestamp s))
    then solarToken s
    else None
  else None.

(** AllGraph.jsx, lines 24-32: the first value of [token]. *)
Definition initialToken (now : Z) (s : saved) : str :=
  if Device.truthy_opt (solarToken s) && Device.truthy_opt (solarTokenTimestamp s)
  then
    match tokenAge now (Login.str_or (solarTokenTimestamp s) "") with
    | Some age =>
        if age <? 60 * 60 * 1000 then Login.str_or (solarToken s) "" else ""
    | None => ""
    end
  else "".

(** AllGraph.jsx, lines 163-167: [!currentToken || tokenAge > 50 * 60 * 1000]
    with [tokenAge] infinite when there is no time stamp. *)
Definition mustAuthenticate (now : Z) (currentToken : str)
  (tokenTimestamp : option str) : bool :=
  negb (truthy_str currentToken)
  || (if Device.truthy_opt tokenTimestamp then
        match tokenAge now (Login.str_or tokenTimestamp "") with
        | Some age => age >? 50 * 60 * 1000
        | None => false
        end
      else true).

End Session.

(* ================================================================== *)
(** * src/pages/AllGraph.jsx: the multi-year page *)

Module AllGraph.
Import JS Vendor Http Request.

Record inverter := {
  serialNo : str;
  inverterId : str;
  beneficiaryName : str
}.

(** Lines 117-138: the body of [rows.forEach((row, index) => ...)]. *)
Definition loadRow (processedData : list inverter) (row : Sheet.row)
  (index : nat) : list inverter :=
  if (index =? 0)%nat then processedData
  else
    let rowValues := Sheet.rowValues row in
    let serialNo := Sheet.column rowValues 0 in
    let inverterId := Sheet.column rowValues 1 in
    let beneficiaryName := Sheet.column rowValues 2 in
    if truthy_str inverterId then
      processedData ++
        [ {| serialNo := if truthy_str serialNo then serialNo
                         else string_of_nat index;
             inverterId := inverterId;
             beneficiaryName := beneficiaryName |} ]
    else processedData.

Definition fetchInverterDataFromSheet (rows : list Sheet.row) : list inverter :=
  forEachIdx loadRow rows [].

Record year_range := { startYear : Z; endYear : Z }.

(** Lines 244-255: the body of the history request of a batch. *)
Definition historyRequest (yearRange : year_range) (batchPsKeyList : list str)
  : history_request :=
  {| data_point := "p2";
     data_type := "2";
     query_type := "3";
     order := "0";
     start_time := string_of_Z (startYear yearRange);
     end_time := string_of_Z (endYear yearRange);
     ps_key_list := batchPsKeyList |}.

Record year_point := {
  year : str;
  yearNum : Z;
  yearlyKwh : number;
  cumulativeKwh : number;
  serialNumber : str
}.

(** [{result_data: ...}], the argument of [formatYearlyData]. *)
Record api_data := { api_result_data : option (list (str * device_data)) }.

(** The comparator [parseInt(a.time_stamp) - parseInt(b.time_stamp)] does
    not put [b] before [a]; a [NaN] difference leaves the order. *)
Definition by_year (a b : item) : bool :=
  match parseInt (time_stamp a), parseInt (time_stamp b) with
  | Some x, Some y => x <=? y
  | _, _ => true
  end.

(** Lines 307-327: the body of [sortedData.forEach(item => ...)], on the
    pair of [result] and [previousCumulativeKwh]. *)
Definition step (serialNumber : str) (range : year_range)
  (st : list year_point * number) (it : item) : list year_point * number :=
  let '(result, previousCumulativeKwh) := st in
  let year := time_stamp it in
  match valueKey it with
  | None => st
  | Some key =>
      let cumulativeKwh := kwhOf it key in
      let yearlyKwh := sub cumulativeKwh previousCumulativeKwh in
      let safeYearlyKwh := max0 yearlyKwh in
      let inRange :=
        match parseInt year with
        | Some n => (startYear range <=? n) && (n <=? endYear range)
        | None => false
        end in
      (if inRange then
         result ++ [ {| year := year;
                        yearNum := match parseInt year with
                                   | Some n => n
                                   | None => 0
                                   end;
                        yearlyKwh := safeYearlyKwh;
                        cumulativeKwh := cumulativeKwh;
                        serialNumber := serialNumber |} ]
       else result,
       cumulativeKwh)
  end.

(** Lines 296-329. *)
Definition formatYearlyData (apiData : option api_data) (serialNumber : str)
  (range : year_range) : outcome (list year_point) :=
  match apiData with
  | None => Ok []
  | Some d =>
      match api_result_data d with
      | None => Ok []
      | Some rd =>
          match firstEntry rd with
          | None => Throw "Cannot convert undefined or null to object"
          | Some (_, dev) =>
              match firstEntry dev with
              | Some (_, Some ((_ :: _) as dataArray)) =>
                  let sortedData := sort by_year dataArray in
                  let '(result, _) :=
                    fold_left (step serialNumber range) sortedData ([], zero) in
                  Ok (sort (fun a b => yearNum a <=? yearNum b) result)
              | _ => Ok []
              end
          end
      end
  end.

(** Lines 267-271: the call made for one device of a batch. *)
Definition formatted (psKey : str) (deviceData : device_data)
  (serialNumber : str) (yearRange : year_range) : outcome (list year_point) :=
  formatYearlyData (Some {| api_result_data := Some [(psKey, deviceData)] |})
    serialNumber yearRange.

(** ** The login, lines 366-442 *)

Definition credentialsPresent (c : Login.credentials) : bool :=
  truthy_str (Login.SOLAR_APPKEY c) && truthy_str (Login.SOLAR_SECRET_KEY c)
  && truthy_str (Login.USER_ACCOUNT c) && truthy_str (Login.USER_PASSWORD c).

Inductive attempt :=
| Done (token : str)
| RetryBusy
| Thrown (message : str).

Definition includes_opt (field : option str) (sub : str) : bool :=
  match field with
  | Some s => includes s sub
  | None => false
  end.

Definition tryLogin (r : Login.reply) (retryCount : nat) : attempt :=
  match r with
  | Login.NetworkFailure m => Thrown m
  | Login.NotJson => Thrown "Invalid server response. Please try again."
  | Login.Answer ok status result_code result_msg token =>
      if negb ok then
        Thrown ("Server error (" ++ string_of_Z status ++ "): "
                ++ Login.str_or result_msg "Login failed")%string
      else if String.eqb result_code "1" then Done (Login.str_or token "")
      else if includes_opt result_msg "busy" && (retryCount <? 2)%nat
      then RetryBusy
      else Thrown (Login.str_or result_msg "Login failed")
  end.

(** Lines 366-442.  [None] when the fuel runs out before the login ends. *)
Fixpoint handleAutoLogin (fuel : nat) (loginLoading : bool)
  (c : Login.credentials) (srv : Login.server) (retryCount : nat)
  : option (Login.ending * list Login.event) :=
  match fuel with
  | O => None
  | S fuel' =>
      if loginLoading then Some (Login.Skipped, [])
      else
        let again trace :=
          match handleAutoLogin fuel' loginLoading c srv (retryCount + 1) with
          | Some (e, t) => Some (e, trace ++ Login.Wait 2000 :: t)
          | None => None
          end in
        let caught trace message :=
          if (retryCount <? 2)%nat then again trace
          else Some (Login.Failed (Login.str_or (Some message)
                                     "Unable to connect to server"), trace) in
        if negb (credentialsPresent c) then
          caught []
            "Missing API credentials. Please check environment configuration."
        else
          let trace := [Login.Post retryCount] in
          match tryLogin (srv retryCount) retryCount with
          | Done token => Some (Login.LoggedIn token, trace)
          | RetryBusy => again trace
          | Thrown message => caught trace message
          end
  end.

End AllGraph.

(* ================================================================== *)
(** * Definitions used by the statements *)

Module Spec.
Import JS.

(** The elements of a list with their indices, from [i]. *)
Fixpoint indexedFrom {A : Type} (i : nat) (l : list A) : list (nat * A) :=
  match l with
  | [] => []
  | a :: r => (i, a) :: indexedFrom (S i) r
  end.

Definition indexed {A : Type} (l : list A) : list (nat * A) := indexedFrom O l.

(** The roster record of a row, in the words of the specification: the
    header is skipped, the columns are read by position, a row is accepted
    when the trimmed inverter id and beneficiary name are not empty, a blank
    serial number becomes "S" and the row index, the capacity is parsed as
    a float and is 1 when it is blank or does not parse; a capacity that
    reads as zero is 1 as well. *)
Definition capacityOf (s : str) : number :=
  match parseFloat s with
  | S754_nan => of_Z 1
  | S754_zero _ => of_Z 1
  | x => x
  end.

Definition rosterRecord (index : nat) (row : Sheet.row) : list Cron.inverter :=
  let vals := Sheet.rowValues row in
  match index with
  | O => []
  | S _ =>
      if String.eqb (Sheet.column vals 1) "" || String.eqb (Sheet.column vals 2) ""
      then []
      else
        [ {| Cron.serialNo :=
               if String.eqb (Sheet.column vals 0) ""
               then ("S" ++ string_of_nat index)%string
               else Sheet.column vals 0;
             Cron.inverterId := Sheet.column vals 1;
             Cron.beneficiaryName := Sheet.column vals 2;
             Cron.capacity := capacityOf (Sheet.column vals 3) |} ]
  end.

(** The record of the multi-year page: only the inverter id decides, and a
    blank serial number becomes the row index. *)
Definition graphRecord (index : nat) (row : Sheet.row) : list AllGraph.inverter :=
  let vals := Sheet.rowValues row in
  match index with
  | O => []
  | S _ =>
      if String.eqb (Sheet.column vals 1) "" then []
      else
        [ {| AllGraph.serialNo :=
               if String.eqb (Sheet.column vals 0) ""
               then string_of_nat index
               else Sheet.column vals 0;
             AllGraph.inverterId := Sheet.column vals 1;
             AllGraph.beneficiaryName := Sheet.column vals 2 |} ]
  end.

(** The roster entry of the weekly page for a record of row [index]: the
    same fields, the row index as [id], and [selected]. *)
Definition weeklyOf (index : nat) (r : Cron.inverter) : Weekly.inverter :=
  {| Weekly.id := index;
     Weekly.serialNo := Some (Cron.serialNo r);
     Weekly.inverterId := Cron.inverterId r;
     Weekly.beneficiaryName := Cron.beneficiaryName r;
     Weekly.capacity := Cron.capacity r;
     Weekly.selected := true |}.

(** The yearly series in the words of the code: one point for every
    reading, the first against zero. *)
Fixpoint yearlyFrom (serialNumber : str) (prev : number) (l : list Vendor.item)
  : list AllGraph.year_point :=
  match l with
  | [] => []
  | it :: r =>
      {| AllGraph.year := Vendor.time_stamp it;
         AllGraph.yearNum := match parseInt (Vendor.time_stamp it) with
                             | Some n => n
                             | None => 0
                             end;
         AllGraph.yearlyKwh := max0 (sub (Vendor.cumulative it) prev);
         AllGraph.cumulativeKwh := Vendor.cumulative it;
         AllGraph.serialNumber := serialNumber |}
      :: yearlyFrom serialNumber (Vendor.cumulative it) r
  end.

(** The year of a reading lies in the range of the page. *)
Definition yearInRange (range : AllGraph.year_range) (it : Vendor.item) : bool :=
  match parseInt (Vendor.time_stamp it) with
  | Some n => (AllGraph.startYear range <=? n) && (n <=? AllGraph.endYear range)
  | None => false
  end.

(** A text of decimal digits only, and the number that it stands for
    after the digits of [acc]. *)
Fixpoint numeric (s : str) : bool :=
  match s with
  | EmptyString => true
  | String c r =>
      match digit_of c with
      | Some _ => numeric r
      | None => false
      end
  end.

Fixpoint valueFrom (s : str) (acc : Z) : Z :=
  match s with
  | EmptyString => acc
  | String c r =>
      match digit_of c with
      | Some d => valueFrom r (10 * acc + d)
      | None => acc
      end
  end.

(** The calendar date of a day number, written YYYYMMDD, and the number
    that this text stands for when the year has four digits. *)
Definition dayText (day : Z) : str :=
  let '(y, m, d) := Calendar.civil_from_days day in
  (string_of_Z y ++ padStart2 (string_of_Z m) ++ padStart2 (string_of_Z d))%string.

Definition dateNumber (y m d : Z) : Z := y * 10000 + m * 100 + d.

(** The first day of the month number [k], counted from January of the
    year 0. *)
Definition monthStart (k : Z) : Z :=
  Calendar.days_from_civil (k / 12) (k mod 12 + 1) 1.

(** The window test on a delta point, written out: the first eight
    characters of its date lie between the two bounds, as strings. *)
Definition inside (startStr endStr : str) (p : Daily.daily_point) : bool :=
  String.leb startStr (String.substring 0 8 (Daily.date p))
  && String.leb (String.substring 0 8 (Daily.date p)) endStr.

(** The roster entries of the selected ids, in the order of the
    selection: the first entry of the roster with the id, for every id that
    the roster holds. *)
Definition selectedRoster (inverters : list Weekly.inverter)
  (selectedInverters : list str) : list Weekly.inverter :=
  flat_map
    (fun inverterId =>
       match find (fun inv => String.eqb (Weekly.inverterId inv) inverterId)
                  inverters with
       | Some inv => [inv]
       | None => []
       end) selectedInverters.


(** A record counts for the summary. *)
Definition qualifies (searchTerm : str) (item : Weekly.result) : bool :=
  negb (Weekly.hasError item)
  && gt0 (Weekly.totalKwh item)
  && (negb (truthy_str searchTerm)
      || Weekly.matchesSearch (toLowerCase searchTerm) item).

(** The row that the sync writer sends for a record. *)
Definition rowOf (dateRange : Weekly.date_range) (item : Weekly.result)
  : Weekly.sync_row :=
  {| Weekly.row_serialNo :=
       match Weekly.serialNo (Weekly.inv item) with
       | Some s => if truthy_str s then s
                   else ("S" ++ string_of_nat (Weekly.id (Weekly.inv item)))%string
       | None => ("S" ++ string_of_nat (Weekly.id (Weekly.inv item)))%string
       end;
     Weekly.row_inverterId := trim (Weekly.inverterId (Weekly.inv item));
     Weekly.row_beneficiaryName := trim (Weekly.beneficiaryName (Weekly.inv item));
     Weekly.row_capacity := Weekly.capacity (Weekly.inv item);
     Weekly.row_totalKwh := Weekly.totalKwh item;
     Weekly.row_avgDailyKwh := Weekly.avgDailyKwh item;
     Weekly.row_specYield := Weekly.specYield item;
     Weekly.row_daysInRange :=
       if Weekly.daysInRange item =? 0
       then Weekly.calculateDaysInRange dateRange
       else Weekly.daysInRange item;
     Weekly.row_lifetimeGeneration :=
       match Weekly.lifetimeGeneration item with
       | Some x => num_or x zero
       | None => zero
       end |}.

End Spec.

(* ================================================================== *)
(** * Sample data for the examples *)

Module Samples.
Import JS Vendor.

(** A reading of the data point [p2]. *)
Definition reading (time_stamp value : str) : item :=
  {| time_stamp := time_stamp; fields := [("p2", value)] |}.

(** The series of the specification: 0, 5000 and 12000 watt-hours. *)
Definition daily : list item :=
  [ reading "20240101" "0"; reading "20240102" "5000";
    reading "20240103" "12000" ].

Definition yearly : list item :=
  [ reading "2020" "5000000"; reading "2021" "7000000" ].

Definition decade : AllGraph.year_range :=
  {| AllGraph.startYear := 2015; AllGraph.endYear := 2024 |}.

(** An accepted history answer with one device and one data point. *)
Definition history (dataArray : list item) : history_response :=
  {| result_code := "1";
     result_msg := None;
     result_data := Some [("1_1_1_1", [("p2", Some dataArray)])] |}.

(** The run of 8 March 2024 at noon in UTC, day 19790 of the count: the
    window is 1 March to 8 March. *)
Definition march8 : Calendar.Date := 19790 * Calendar.msPerDay + 43200000.

(** Zones: UTC, India (UTC+05:30) and New York in winter (UTC-05:00). *)
Definition utc : Calendar.zone := 0.
Definition kolkata : Calendar.zone := 330.
Definition new_york : Calendar.zone := -300.

Definition rahul : Cron.inverter :=
  {| Cron.serialNo := "49";
     Cron.inverterId := "I2492100573";
     Cron.beneficiaryName := "RAHUL SHARMA";
     Cron.capacity := of_Z 3 |}.

Definition rahul_weekly : Weekly.inverter :=
  {| Weekly.id := 1;
     Weekly.serialNo := Some "49";
     Weekly.inverterId := "I2492100573";
     Weekly.beneficiaryName := "RAHUL SHARMA";
     Weekly.capacity := of_Z 3;
     Weekly.selected := true |}.

Definition first_week : Weekly.date_range :=
  {| Weekly.startDate := "2024-03-01"; Weekly.endDate := "2024-03-08" |}.

(** Two readings, 1234 watt-hours apart, inside the window. *)
Definition two_readings : list item :=
  [ reading "20240301" "0"; reading "20240302" "1234" ].

(** Two readings, 600 watt-hours apart, inside the window. *)
Definition two_readings_600 : list item :=
  [ reading "20240301" "0"; reading "20240302" "600" ].

(** A seed reading of 1000 watt-hours on 29 February 2024 and a reading of
    3000 watt-hours on 1 March, as the vendor may send them. *)
Definition seeded : list item :=
  [ reading "20240301" "3000"; reading "20240229" "1000" ].

(** A single reading of 5000 watt-hours. *)
Definition one_reading : list item := [ reading "20240302" "5000" ].

Definition answer {A : Type} (body : A) : Http.fetched A :=
  Ok {| Http.ok := true; Http.status := 200; Http.json := Ok body |}.

(** A history endpoint that cannot be reached. *)
Definition no_history : Request.history_api := fun _ => Throw "Failed to fetch".

(** A device answer that is accepted and holds no key. *)
Definition no_key : Device.device_response :=
  {| Device.result_code := "1";
     Device.result_msg := None;
     Device.device_point_list := Some [] |}.

(** A device answer with the key of the sample device. *)
Definition with_key : Device.device_response :=
  {| Device.result_code := "1";
     Device.result_msg := None;
     Device.device_point_list :=
       Some [ Some (Some {| Device.ps_key := Some "1_1_1_1";
                            Device.sn := None;
                            Device.serial_number := None;
                            Device.device_sn := None;
                            Device.device_name := None |}) ] |}.

Definition credentials : Login.credentials :=
  {| Login.SOLAR_APPKEY := "appkey";
     Login.SOLAR_SECRET_KEY := "secret";
     Login.USER_ACCOUNT := "account";
     Login.USER_PASSWORD := "password" |}.

(** A server that never answers: every [fetch] rejects. *)
Definition offline : Login.server := fun _ => Login.NetworkFailure "Failed to fetch".

(** A server whose failures mention the network. *)
Definition unreachable : Login.server :=
  fun _ => Login.NetworkFailure "network error".

(** A server that is always busy. *)
Definition busy : Login.server :=
  fun _ => Login.Answer true 200 "0" (Some "server busy") None.

(** A record that failed and a record that succeeded. *)
Definition failed_result : Weekly.result :=
  Weekly.errorRecord rahul_weekly None "No PS Key found" 8.

Definition good_result : Weekly.result :=
  Weekly.successRecord rahul_weekly "1_1_1_1" 8
    (Weekly.energyTotals first_week [("1_1_1_1", [("p2", Some two_readings)])]).

(** A sheet endpoint that accepts what it is sent. *)
Definition accepting : Weekly.sheet_api :=
  fun _ => answer {| Weekly.answer_success := true;
                     Weekly.newRows := 1;
                     Weekly.updatedRows := 0;
                     Weekly.totalRows := 1;
                     Weekly.answer_error := None;
                     Weekly.answer_message := None |}.

End Samples.

(* ================================================================== *)
(** * Facts about the primitives *)

Module JSFacts.
Import JS.

Section SortFacts.
Context {A : Type} (le : A -> A -> bool).

Lemma insert_perm (x : A) (l : list A) : Permutation (insert le x l) (x :: l).
Proof.
  induction l as [|y r IH]; simpl.
  - apply Permutation_refl.
  - destruct (le x y).
    + apply Permutation_refl.
    + eapply perm_trans; [apply perm_skip, IH | apply perm_swap].
Qed.

Lemma sort_perm (l : list A) : Permutation (sort le l) l.
Proof.
  induction l as [|x r IH]; simpl.
  - apply perm_nil.
  - eapply perm_trans; [apply insert_perm | apply perm_skip, IH].
Qed.

Lemma sort_length (l : list A) : List.length (sort le l) = List.length l.
Proof. apply Permutation_length, sort_perm. Qed.

(** A sorted array is left as it is. *)
Lemma sort_sorted (l : list A) : sorted le l = true -> sort le l = l.
Proof.
  induction l as [|x r IH]; simpl; intros H.
  - reflexivity.
  - destruct r as [|y r'].
    + reflexivity.
    + apply andb_prop in H as [Hxy Hr].
      change (insert le x (sort le (y :: r')) = x :: y :: r').
      rewrite (IH Hr). simpl. now rewrite Hxy.
Qed.

(** With a total comparison the result of [sort] is in order. *)
Lemma insert_sorted (x : A) (l : list A) :
  (forall a b : A, le a b = true \/ le b a = true) ->
  sorted le l = true -> sorted le (insert le x l) = true.
Proof.
  intros Htot. induction l as [|y r IH]; intros Hs.
  - reflexivity.
  - simpl insert. destruct (le x y) eqn:Hxy.
    + change (le x y && sorted le (y :: r) = true). now rewrite Hxy, Hs.
    + assert (Hyx : le y x = true) by (destruct (Htot x y); congruence).
      destruct r as [|z r'].
      * simpl. now rewrite Hyx.
      * apply andb_prop in Hs as [Hyz Hr]. specialize (IH Hr).
        simpl insert in *. destruct (le x z).
        -- change (le y x && sorted le (x :: z :: r') = true).
           now rewrite Hyx, IH.
        -- change (le y z && sorted le (z :: insert le x r') = true).
           now rewrite Hyz, IH.
Qed.

Lemma sort_is_sorted (l : list A) :
  (forall a b : A, le a b = true \/ le b a = true) ->
  sorted le (sort le l) = true.
Proof.
  intros Htot. induction l as [|x r IH].
  - reflexivity.
  - simpl. now apply insert_sorted.
Qed.

Lemma sorted_cons2 (x y : A) (l : list A) :
  sorted le (x :: y :: l) = le x y && sorted le (y :: l).
Proof. reflexivity. Qed.

Lemma sorted_tail (x : A) (l : list A) :
  sorted le (x :: l) = true -> sorted le l = true.
Proof.
  destruct l as [|y r]; simpl; intros H.
  - reflexivity.
  - now apply andb_prop in H as [_ H].
Qed.

End SortFacts.

Lemma sort_nil_iff {A : Type} (le : A -> A -> bool) (l : list A) :
  sort le l = [] <-> l = [].
Proof.
  split; intros H.
  - pose proof (sort_perm le l) as P. rewrite H in P. now apply Permutation_nil.
  - now subst.
Qed.

(** [filter] and permutations. *)
Lemma filter_perm {A : Type} (f : A -> bool) (l l' : list A) :
  Permutation l l' -> Permutation (filter f l) (filter f l').
Proof.
  induction 1 as [| x l l' _ IH | x y l | l l' l'' _ IH1 _ IH2]; simpl.
  - apply perm_nil.
  - destruct (f x); [apply perm_skip|]; exact IH.
  - destruct (f x), (f y); try apply Permutation_refl. apply perm_swap.
  - eapply perm_trans; eassumption.
Qed.

Lemma filter_filter {A : Type} (f g : A -> bool) (l : list A) :
  filter f (filter g l) = filter (fun a => g a && f a) l.
Proof.
  induction l as [|a r IH]; simpl.
  - reflexivity.
  - destruct (g a); simpl; [destruct (f a)|]; now rewrite IH.
Qed.

(** ** Numbers *)

(** Decimal texts are read as the nearest number: 0.1 is
    [0x1999999999999A * 2^-56], and 0.1 + 0.2 is not 0.3. *)
Example parseFloat_tenth :
  parseFloat "0.1" = S754_finite false 7205759403792794 (-56)
  /\ add (parseFloat "0.1") (parseFloat "0.2") <> parseFloat "0.3"
  /\ parseFloat "1e400" = S754_infinity false
  /\ parseFloat "-0" = S754_zero true
  /\ parseFloat " 3.5 kW" = parseFloat "3.5"
  /\ parseFloat "kW" = NaN.
Proof. vm_compute. repeat split; discriminate. Qed.

Lemma toFixed_zero (d : nat) : toFixed d zero = zero.
Proof. reflexivity. Qed.

(** The integer that [toFixed] writes for a finite number below [10^21]
    is the nearest one to the exact value of the number times [10^d], the
    larger one when two are as near. *)
Lemma toFixed_nearest (d : nat) (s : bool) (m : positive) (e : Z) :
  let num := if 0 <=? e then Zpos m * 2 ^ e else Zpos m in
  let den := if 0 <=? e then 1 else 2 ^ (- e) in
  (pow10 21 * den <=? num) = false ->
  exists n : Z,
    0 <= n
    /\ (2 * n - 1) * den <= 2 * num * pow10 (Z.of_nat d) < (2 * n + 1) * den
    /\ toFixed d (S754_finite s m e)
       = match n with
         | Zpos p => ratio10 s p (Z.of_nat d)
         | _ => S754_zero s
         end.
Proof.
  intros num den Hlt.
  assert (Hden : 0 < den).
  { subst den. destruct (0 <=? e) eqn:He; [lia|].
    apply Z.pow_pos_nonneg; lia. }
  assert (Hnum : 0 < num).
  { subst num. destruct (0 <=? e) eqn:He; [|lia].
    apply Z.leb_le in He.
    assert (0 < 2 ^ e) by (apply Z.pow_pos_nonneg; lia). nia. }
  assert (Hs : 0 < pow10 (Z.of_nat d))
    by (unfold pow10; apply Z.pow_pos_nonneg; lia).
  exists ((2 * num * pow10 (Z.of_nat d) + den) / (2 * den)).
  split; [apply Z.div_pos; nia|].
  split.
  - pose proof (Z.div_mod (2 * num * pow10 (Z.of_nat d) + den) (2 * den)) as Hd.
    pose proof (Z.mod_pos_bound (2 * num * pow10 (Z.of_nat d) + den) (2 * den)) as Hm.
    nia.
  - unfold toFixed. fold num den. now rewrite Hlt.
Qed.

(** What [toFixed] gives for numbers that lie next to a tie: 1.005 and
    1.45 are stored below the decimal that names them, 0.125 and 2.5 are
    exact. *)
Example toFixed_near_ties :
  toFixed 2 (parseFloat "1.005") = of_Z 1
  /\ toFixed 1 (parseFloat "1.45") = parseFloat "1.4"
  /\ toFixed 2 (parseFloat "0.125") = parseFloat "0.13"
  /\ toFixed 0 (parseFloat "2.5") = of_Z 3
  /\ toFixed 2 (parseFloat "-1.005") = of_Z (-1)
  /\ toFixed 2 (parseFloat "-0.001") = S754_zero true
  /\ toFixed 2 (parseFloat "1e21") = parseFloat "1e21"
  /\ toFixed 2 NaN = NaN.
Proof. vm_compute. repeat split. Qed.

(** A number that is at most zero is not greater than zero. *)
Lemma le0_not_gt0 (x : number) : le x zero = true -> gt0 x = false.
Proof.
  unfold le, gt0, lt, SFleb, SFltb, zero.
  destruct x as [s|s| |s m e]; try destruct s; simpl; congruence.
Qed.

Lemma gt0_not_le0 (x : number) : gt0 x = true -> le x zero = false.
Proof.
  intros H. destruct (le x zero) eqn:E; [|reflexivity].
  apply le0_not_gt0 in E. congruence.
Qed.

(** [Math.max(0, x)] is [x] when [x] is positive and [0] when it is a
    number that is not. *)
Lemma max0_positive (x : number) : gt0 x = true -> max0 x = x.
Proof.
  unfold max0, gt0. intros H. rewrite H. now destruct x.
Qed.

Lemma max0_not_positive (x : number) :
  x <> NaN -> gt0 x = false -> max0 x = zero.
Proof.
  unfold max0, gt0. intros Hn H. rewrite H.
  destruct x; try reflexivity. now destruct Hn.
Qed.

(** The sum of [reduce] over a field is the sum of the values of the
    field. *)
Lemma fold_sum_from {A : Type} (f : A -> number) (l : list A) (acc : number) :
  fold_left (fun sum a => add sum (f a)) l acc = fold_left add (map f l) acc.
Proof.
  revert acc. induction l as [|a r IH]; intros acc; simpl.
  - reflexivity.
  - apply IH.
Qed.

Lemma fold_sum {A : Type} (f : A -> number) (l : list A) :
  fold_left (fun sum a => add sum (f a)) l zero = Daily.sumOf (map f l).
Proof. apply fold_sum_from. Qed.

(** [forEach] over an appended array. *)
Lemma forEachFrom_app {A St : Type} (f : St -> A -> nat -> St)
  (l1 l2 : list A) (i : nat) (s : St) :
  forEachFrom f (l1 ++ l2) i s
  = forEachFrom f l2 (i + List.length l1) (forEachFrom f l1 i s).
Proof.
  revert i s. induction l1 as [|a r IH]; intros i s; simpl.
  - now rewrite Nat.add_0_r.
  - rewrite IH. f_equal. lia.
Qed.

Lemma truthy_str_eqb (s : str) : truthy_str s = negb (String.eqb s "").
Proof. now destruct s. Qed.

Lemma lastOf_app {A : Type} (l : list A) (a : A) : lastOf (l ++ [a]) = Some a.
Proof.
  unfold lastOf. rewrite map_app. simpl. now rewrite last_last.
Qed.

Lemma last_cons {A : Type} (l : list A) (x d : A) : last (x :: l) d = last l x.
Proof.
  revert x d. induction l as [|y r IH]; intros x d.
  - reflexivity.
  - change (last (x :: y :: r) d) with (last (y :: r) d).
    rewrite IH. symmetry. apply IH.
Qed.

Lemma lastOf_nil {A : Type} : @lastOf A [] = None.
Proof. reflexivity. Qed.

Lemma lastOf_cons {A : Type} (a b : A) (l : list A) :
  lastOf (a :: b :: l) = lastOf (b :: l).
Proof. reflexivity. Qed.

End JSFacts.

(* ================================================================== *)
(** * The delta engines *)

Module DeltaFacts.
Import JS Vendor JSFacts.

Lemma cumulative_valued (it : item) (key : str) :
  valueKey it = Some key -> kwhOf it key = cumulative it.
Proof. intros H. unfold cumulative. now rewrite H. Qed.

(** The walk after the first reading: every reading adds one point and
    becomes the previous value. *)
Lemma walk_from (l : list item) :
  Forall hasValue l ->
  forall (i : nat) (st : Daily.walk_state),
    (0 < i)%nat ->
    forEachFrom Daily.step l i st
    = {| Daily.previousValue := last (map cumulative l) (Daily.previousValue st);
         Daily.dailyData :=
           Daily.dailyData st ++ Daily.deltasFrom (Daily.previousValue st) l |}.
Proof.
  induction 1 as [|it r Hit _ IH]; intros i st Hi.
  - simpl. rewrite app_nil_r. now destruct st.
  - simpl forEachFrom. rewrite IH by lia.
    unfold Daily.step. unfold hasValue in Hit.
    destruct (valueKey it) as [key|] eqn:Hk; [|congruence].
    rewrite (cumulative_valued it key Hk).
    destruct i as [|i]; [lia|]. simpl.
    rewrite <- app_assoc. simpl app. f_equal.
    symmetry. apply last_cons.
Qed.

(** The walk of a whole series. *)
Lemma walk_series (l : list item) :
  Forall hasValue l ->
  Daily.walk l
  = {| Daily.previousValue := last (map cumulative l) zero;
       Daily.dailyData := Daily.deltaSeries l |}.
Proof.
  intros H. destruct l as [|it r].
  - reflexivity.
  - inversion H as [|? ? Hit Hr]; subst.
    unfold Daily.walk, forEachIdx. simpl forEachFrom.
    rewrite walk_from by (assumption || lia).
    unfold Daily.step. unfold hasValue in Hit.
    destruct (valueKey it) as [key|] eqn:Hk; [|congruence].
    rewrite (cumulative_valued it key Hk). simpl.
    f_equal. symmetry. apply last_cons.
Qed.

Lemma deltasFrom_length (prev : number) (l : list item) :
  List.length (Daily.deltasFrom prev l) = List.length l.
Proof.
  revert prev. induction l as [|it r IH]; intros prev; simpl; [|rewrite IH]; reflexivity.
Qed.

Lemma deltaSeries_length (l : list item) :
  List.length (Daily.deltaSeries l) = (List.length l - 1)%nat.
Proof.
  destruct l as [|it r]; simpl.
  - reflexivity.
  - rewrite deltasFrom_length. lia.
Qed.

Lemma deltasFrom_head (prev : number) (l : list item) (b : item) :
  nth_error l 0 = Some b ->
  nth_error (Daily.deltasFrom prev l) 0
  = Some {| Daily.date := time_stamp b;
            Daily.dailyKwh := max0 (sub (cumulative b) prev);
            Daily.cumulativeKwh := cumulative b |}.
Proof.
  destruct l as [|it r]; simpl; intros H; [discriminate|].
  now inversion H.
Qed.

Lemma deltasFrom_nth (l : list item) :
  forall (prev : number) (i : nat) (a b : item),
    nth_error l i = Some a -> nth_error l (S i) = Some b ->
    nth_error (Daily.deltasFrom prev l) (S i)
    = Some {| Daily.date := time_stamp b;
              Daily.dailyKwh := max0 (sub (cumulative b) (cumulative a));
              Daily.cumulativeKwh := cumulative b |}.
Proof.
  induction l as [|it r IH]; intros prev i a b Ha Hb.
  - destruct i; discriminate.
  - destruct i as [|i]; simpl in *.
    + inversion Ha; subst. now apply deltasFrom_head.
    + now apply IH.
Qed.

(** The i-th delta compares the readings i and i+1. *)
Lemma deltaSeries_nth (l : list item) (i : nat) (a b : item) :
  nth_error l i = Some a -> nth_error l (S i) = Some b ->
  nth_error (Daily.deltaSeries l) i
  = Some {| Daily.date := time_stamp b;
            Daily.dailyKwh := max0 (sub (cumulative b) (cumulative a));
            Daily.cumulativeKwh := cumulative b |}.
Proof.
  destruct l as [|it r]; intros Ha Hb.
  - destruct i; discriminate.
  - destruct i as [|i]; simpl in *.
    + inversion Ha; subst. now apply deltasFrom_head.
    + now apply deltasFrom_nth with (a := a).
Qed.

(** The last point of the delta series carries the last reading. *)
Lemma deltasFrom_last (l : list item) :
  forall (prev : number) (it : item),
    lastOf (Daily.deltasFrom prev (l ++ [it]))
    = Some {| Daily.date := time_stamp it;
              Daily.dailyKwh := max0 (sub (cumulative it) (last (map cumulative l) prev));
              Daily.cumulativeKwh := cumulative it |}.
Proof.
  induction l as [|x r IH]; intros prev it.
  - reflexivity.
  - simpl app. simpl Daily.deltasFrom.
    destruct (Daily.deltasFrom (cumulative x) (r ++ [it])) as [|p ps] eqn:E.
    + apply (f_equal (@List.length _)) in E.
      rewrite deltasFrom_length, length_app in E. simpl in E. lia.
    + rewrite lastOf_cons, <- E, IH.
      simpl map. now rewrite last_cons.
Qed.

(** ** The yearly walk of the multi-year page *)

Lemma yearly_fold (serialNumber : str) (range : AllGraph.year_range)
  (l : list item) :
  Forall hasValue l ->
  Forall (fun it => Spec.yearInRange range it = true) l ->
  forall (result : list AllGraph.year_point) (prev : number),
    fold_left (AllGraph.step serialNumber range) l (result, prev)
    = (result ++ Spec.yearlyFrom serialNumber prev l,
       last (map cumulative l) prev).
Proof.
  induction 1 as [|it r Hit _ IH]; intros Hr result prev.
  - simpl. now rewrite app_nil_r.
  - inversion Hr as [|? ? Hy Hr']; subst.
    simpl fold_left. unfold AllGraph.step at 1.
    unfold hasValue in Hit.
    destruct (valueKey it) as [key|] eqn:Hk; [|congruence].
    rewrite (cumulative_valued it key Hk).
    unfold Spec.yearInRange in Hy.
    destruct (parseInt (time_stamp it)) as [n|] eqn:Hn; [|discriminate].
    rewrite Hy, IH by assumption.
    simpl. rewrite Hn, <- app_assoc. simpl. f_equal.
    symmetry. apply last_cons.
Qed.

Lemma yearlyFrom_length (serialNumber : str) (prev : number) (l : list item) :
  List.length (Spec.yearlyFrom serialNumber prev l) = List.length l.
Proof.
  revert prev. induction l as [|it r IH]; intros prev; simpl; [|rewrite IH]; reflexivity.
Qed.

Lemma yearlyFrom_sorted (serialNumber : str) (range : AllGraph.year_range)
  (l : list item) :
  Forall (fun it => Spec.yearInRange range it = true) l ->
  sorted AllGraph.by_year l = true ->
  forall prev : number,
    sorted (fun a b => AllGraph.yearNum a <=? AllGraph.yearNum b)
      (Spec.yearlyFrom serialNumber prev l) = true.
Proof.
  induction 1 as [|it r Hy Hr IH]; intros Hs prev; [reflexivity|].
  destruct r as [|it' r']; [reflexivity|].
  rewrite sorted_cons2 in Hs. apply andb_prop in Hs as [Hle Hs].
  specialize (IH Hs (cumulative it)).
  simpl Spec.yearlyFrom in *.
  rewrite sorted_cons2, IH, andb_true_r.
  cbn [AllGraph.yearNum].
  inversion Hr as [|? ? Hy' _]; subst.
  unfold Spec.yearInRange in Hy, Hy'. unfold AllGraph.by_year in Hle.
  destruct (parseInt (time_stamp it)); [|discriminate].
  destruct (parseInt (time_stamp it')); [|discriminate].
  exact Hle.
Qed.

Lemma yearlyFrom_head (serialNumber : str) (prev : number) (l : list item) (a : item) :
  nth_error l 0 = Some a ->
  nth_error (Spec.yearlyFrom serialNumber prev l) 0
  = Some {| AllGraph.year := time_stamp a;
            AllGraph.yearNum := match parseInt (time_stamp a) with
                                | Some n => n
                                | None => 0
                                end;
            AllGraph.yearlyKwh := max0 (sub (cumulative a) prev);
            AllGraph.cumulativeKwh := cumulative a;
            AllGraph.serialNumber := serialNumber |}.
Proof.
  destruct l as [|it r]; simpl; intros H; [discriminate|].
  now inversion H.
Qed.

Lemma yearlyFrom_nth (serialNumber : str) (l : list item) :
  forall (prev : number) (i : nat) (a b : item),
    nth_error l i = Some a -> nth_error l (S i) = Some b ->
    nth_error (Spec.yearlyFrom serialNumber prev l) (S i)
    = Some {| AllGraph.year := time_stamp b;
              AllGraph.yearNum := match parseInt (time_stamp b) with
                                  | Some n => n
                                  | None => 0
                                  end;
              AllGraph.yearlyKwh := max0 (sub (cumulative b) (cumulative a));
              AllGraph.cumulativeKwh := cumulative b;
              AllGraph.serialNumber := serialNumber |}.
Proof.
  induction l as [|it r IH]; intros prev i a b Ha Hb.
  - destruct i; discriminate.
  - destruct i as [|i]; simpl in *.
    + inversion Ha; subst. now apply yearlyFrom_head.
    + now apply IH.
Qed.

(** What the multi-year page shows for a sorted series that lies in its
    range. *)
Lemma formatted_in_range (psKey dataPoint serialNumber : str)
  (range : AllGraph.year_range) (l : list item) :
  l <> [] ->
  sorted AllGraph.by_year l = true ->
  Forall hasValue l ->
  Forall (fun it => Spec.yearInRange range it = true) l ->
  AllGraph.formatted psKey [(dataPoint, Some l)] serialNumber range
  = Ok (Spec.yearlyFrom serialNumber zero l).
Proof.
  intros Hne Hs Hv Hr.
  destruct l as [|it r]; [congruence|].
  unfold AllGraph.formatted, AllGraph.formatYearlyData.
  cbn [AllGraph.api_result_data firstEntry].
  rewrite (sort_sorted _ _ Hs), yearly_fold by assumption.
  cbn [app]. f_equal.
  apply sort_sorted. now apply yearlyFrom_sorted with (range := range).
Qed.

End DeltaFacts.

Module DeltaClaims.
Import JS Vendor JSFacts DeltaFacts.

(** C1, as it is written, fails on the multi-year page: a series of a single
    reading in range gives one point, its delta taken against zero. *)
Lemma yearly_seed_point_is_emitted :
  ~ (forall (dataArray : list item) (range : AllGraph.year_range)
            (pts : list AllGraph.year_point),
        sorted AllGraph.by_year dataArray = true ->
        Forall hasValue dataArray ->
        AllGraph.formatted "1_1_1_1" [("p2", Some dataArray)] "I1" range = Ok pts ->
        List.length pts = (List.length dataArray - 1)%nat).
Proof.
  intros H.
  specialize (H [ {| time_stamp := "2020"; fields := [("p2", "5000000")] |} ]
                {| AllGraph.startYear := 2015; AllGraph.endYear := 2024 |}
                [ {| AllGraph.year := "2020"; AllGraph.yearNum := 2020;
                     AllGraph.yearlyKwh := of_Z 5000;
                     AllGraph.cumulativeKwh := of_Z 5000;
                     AllGraph.serialNumber := "I1" |} ]).
  cbn [List.length Nat.sub] in H. discriminate H.
  - reflexivity.
  - repeat constructor. unfold hasValue. discriminate.
  - vm_compute. reflexivity.
Qed.

(** C1 (amended).  In the handler and on the weekly page a sorted series of
    n+1 valued readings gives n points: the first reading only seeds the
    previous value, the i-th delta is max(0, c[i+1] - c[i]), and the
    previous value ends as the last reading whatever the signs.  On the
    multi-year page a sorted series in range gives a point for every
    reading, the first against zero and the others against their
    predecessor. *)
Theorem delta_series_of_each_path :
  forall (daily yearly : list item) (psKey dataPoint serialNumber : str)
         (range : AllGraph.year_range),
    (sorted Daily.by_time_stamp daily = true ->
     Forall hasValue daily ->
     let st := Daily.walk (Daily.sortedData daily) in
     List.length (Daily.dailyData st) = (List.length daily - 1)%nat
     /\ (forall (i : nat) (a b : item),
           nth_error daily i = Some a -> nth_error daily (S i) = Some b ->
           nth_error (Daily.dailyData st) i
           = Some {| Daily.date := time_stamp b;
                     Daily.dailyKwh := max0 (sub (cumulative b) (cumulative a));
                     Daily.cumulativeKwh := cumulative b |})
     /\ Daily.previousValue st = last (map cumulative daily) zero)
    /\ (yearly <> [] ->
        sorted AllGraph.by_year yearly = true ->
        Forall hasValue yearly ->
        Forall (fun it => Spec.yearInRange range it = true) yearly ->
        exists pts : list AllGraph.year_point,
          AllGraph.formatted psKey [(dataPoint, Some yearly)] serialNumber range
          = Ok pts
          /\ List.length pts = List.length yearly
          /\ (forall a : item,
                nth_error yearly 0 = Some a ->
                exists p, nth_error pts 0 = Some p
                          /\ AllGraph.year p = time_stamp a
                          /\ AllGraph.yearlyKwh p = max0 (sub (cumulative a) zero)
                          /\ AllGraph.cumulativeKwh p = cumulative a)
          /\ (forall (i : nat) (a b : item),
                nth_error yearly i = Some a -> nth_error yearly (S i) = Some b ->
                exists p, nth_error pts (S i) = Some p
                          /\ AllGraph.year p = time_stamp b
                          /\ AllGraph.yearlyKwh p
                             = max0 (sub (cumulative b) (cumulative a))
                          /\ AllGraph.cumulativeKwh p = cumulative b)).
Proof.
  intros daily yearly psKey dataPoint serialNumber range.
  split.
  - intros Hds Hdv. cbv zeta.
    unfold Daily.sortedData. rewrite (sort_sorted _ _ Hds).
    rewrite (walk_series _ Hdv). cbn [Daily.dailyData Daily.previousValue].
    split; [apply deltaSeries_length|]. split; [|reflexivity].
    intros i a b Ha Hb. now apply deltaSeries_nth.
  - intros Hne Hys Hyv Hyr.
    exists (Spec.yearlyFrom serialNumber zero yearly).
    split; [now apply formatted_in_range|].
    split; [apply yearlyFrom_length|]. split.
    + intros a Ha. eexists. split; [apply yearlyFrom_head; exact Ha|].
      repeat split.
    + intros i a b Ha Hb. eexists.
      split; [apply yearlyFrom_nth with (a := a); eassumption|]. repeat split.
Qed.

Lemma delta_series_of_each_path_witness :
  List.length (Daily.dailyData (Daily.walk (Daily.sortedData Samples.daily)))
  = 2%nat
  /\ exists pts,
       AllGraph.formatted "1_1_1_1" [("p2", Some Samples.yearly)] "I1"
         Samples.decade = Ok pts
       /\ List.length pts = 2%nat.
Proof.
  destruct (delta_series_of_each_path Samples.daily Samples.yearly "1_1_1_1"
              "p2" "I1" Samples.decade) as [Hd Hy].
  destruct Hd as [Hlen _].
  - reflexivity.
  - repeat constructor; unfold hasValue; discriminate.
  - destruct Hy as [pts [Hf [Hl _]]].
    + discriminate.
    + reflexivity.
    + repeat constructor; unfold hasValue; discriminate.
    + repeat constructor.
    + split; [exact Hlen|]. exists pts. split; [exact Hf | exact Hl].
Defined.

(** The series of the specification: readings of 0, 5000 and 12000
    watt-hours give deltas of 5 and 7 kWh. *)
Example deltas_of_the_specification :
  map (fun p => (Daily.date p, Daily.dailyKwh p, Daily.cumulativeKwh p))
      (Daily.dailyData (Daily.walk (Daily.sortedData Samples.daily)))
  = [ ("20240102", of_Z 5, of_Z 5); ("20240103", of_Z 7, of_Z 12) ].
Proof. vm_compute. reflexivity. Qed.

End DeltaClaims.

(* ================================================================== *)
(** * The calendar *)

Module CalendarFacts.
Import JS Calendar.

(** Going to the civil date and back gives the day, and the civil date is
    well formed. *)
Lemma civil_roundtrip (z : Z) :
  let '(y, m, d) := civil_from_days z in
  days_from_civil y m d = z /\ 1 <= m <= 12 /\ 1 <= d <= 31.
Proof.
  unfold civil_from_days, days_from_civil. cbv zeta.
  repeat match goal with
         | |- context [?a <=? ?b] => destruct (Z.leb_spec a b)
         | |- context [?a <? ?b] => destruct (Z.ltb_spec a b)
         end;
    Z.to_euclidean_division_equations; lia.
Qed.

Lemma days_from_civil_day (y m d : Z) :
  days_from_civil y m d = days_from_civil y m 1 + d - 1.
Proof. unfold days_from_civil. cbv zeta. ring. Qed.

(** [MakeDay] of the civil date of a day, its date moved by [k], is the
    day moved by [k]. *)
Lemma MakeDay_shift (day k : Z) :
  MakeDay (YearFromDay day) (MonthFromDay day) (DateFromDay day + k) = day + k.
Proof.
  unfold MakeDay, YearFromDay, MonthFromDay, DateFromDay.
  pose proof (civil_roundtrip day) as H.
  destruct (civil_from_days day) as [[y m] d].
  destruct H as [Ht [Hm _]].
  replace ((m - 1) / 12) with 0 by (symmetry; apply Z.div_small; lia).
  replace ((m - 1) mod 12) with (m - 1) by (symmetry; apply Z.mod_small; lia).
  rewrite (days_from_civil_day y m d) in Ht.
  replace (y + 0) with y by ring.
  replace (m - 1 + 1) with m by ring.
  lia.
Qed.

(** [setDate(getDate() + k)] moves a date by [k] days, in every zone. *)
Lemma setDate_shift (tz : zone) (t : Date) (k : Z) :
  setDate tz t (getDate tz t + k) = t + k * msPerDay.
Proof.
  unfold setDate, getFullYear, getMonth, getDate.
  rewrite MakeDay_shift.
  unfold localDay, Day, TimeWithinDay, LocalTime, msPerDay, msPerMinute.
  Z.to_euclidean_division_equations; lia.
Qed.

Lemma setDate_back (tz : zone) (t : Date) (k : Z) :
  setDate tz t (getDate tz t - k) = t - k * msPerDay.
Proof. unfold Z.sub. rewrite setDate_shift. unfold msPerDay. lia. Qed.

Lemma localDay_back (tz : zone) (t : Date) (k : Z) :
  localDay tz (t - k * msPerDay) = localDay tz t - k.
Proof.
  unfold localDay, Day, LocalTime, msPerDay, msPerMinute.
  Z.to_euclidean_division_equations; lia.
Qed.

Lemma localDay_shift (tz : zone) (t : Date) (k : Z) :
  localDay tz (t + k * msPerDay) = localDay tz t + k.
Proof.
  unfold localDay, Day, LocalTime, msPerDay, msPerMinute.
  Z.to_euclidean_division_equations; lia.
Qed.

(** The local day of a midnight in UTC: the same day in a zone at or
    ahead of UTC, the day before in a zone behind it. *)
Lemma localDay_midnight (tz : zone) (day : Z) :
  localDay tz (day * msPerDay) = day + tz / 1440.
Proof.
  unfold localDay, Day, LocalTime, msPerDay, msPerMinute.
  Z.to_euclidean_division_equations; lia.
Qed.

Lemma localDay_midnight_ahead (tz : zone) (day : Z) :
  0 <= tz < 1440 -> localDay tz (day * msPerDay) = day.
Proof.
  intros H. rewrite localDay_midnight.
  rewrite Z.div_small by lia. lia.
Qed.

Lemma localDay_midnight_behind (tz : zone) (day : Z) :
  - 1440 <= tz < 0 -> localDay tz (day * msPerDay) = day - 1.
Proof.
  intros H. rewrite localDay_midnight.
  Z.to_euclidean_division_equations; lia.
Qed.

Lemma formatDateForAPI_dayText (tz : zone) (t : Date) :
  formatDateForAPI tz t = Spec.dayText (localDay tz t).
Proof.
  unfold formatDateForAPI, Spec.dayText, getFullYear, getMonth, getDate,
    YearFromDay, MonthFromDay, DateFromDay.
  destruct (civil_from_days (localDay tz t)) as [[y m] d].
  now replace (m - 1 + 1) with m by ring.
Qed.

(** The year of the era that the formula finds is the one whose days hold
    the day of the era. *)
Lemma yoe_bounds (doe : Z) :
  0 <= doe < 146097 ->
  let yoe := (doe - doe / 1460 + doe / 36524 - doe / 146096) / 365 in
  0 <= yoe <= 399
  /\ 365 * yoe + yoe / 4 - yoe / 100 <= doe
  /\ doe < 365 * (yoe + 1) + (yoe + 1) / 4 - (yoe + 1) / 100 + (yoe + 1) / 400.
Proof.
  intros H yoe. subst yoe. Z.to_euclidean_division_equations; lia.
Qed.

(** The day of a date is a day of its month. *)
Lemma civil_day_in_month (z : Z) :
  let '(y, m, d) := civil_from_days z in d <= days_in_month y m.
Proof.
  unfold civil_from_days, days_in_month. cbv zeta.
  generalize (z + 719468). clear z. intro z.
  assert (Hdoe : 0 <= z - z / 146097 * 146097 < 146097)
    by (Z.to_euclidean_division_equations; lia).
  generalize dependent (z / 146097). intros era Hdoe.
  generalize dependent (z - era * 146097). clear z. intros doe Hdoe.
  pose proof (yoe_bounds doe Hdoe) as Hb. cbv zeta in Hb.
  set (yoe := (doe - doe / 1460 + doe / 36524 - doe / 146096) / 365) in *.
  clearbody yoe.
  set (doy := doe - (365 * yoe + yoe / 4 - yoe / 100)).
  assert (Hmp : 0 <= (5 * doy + 2) / 153 <= 11).
  { subst doy. Z.to_euclidean_division_equations; lia. }
  assert (Hcase : exists mp, (5 * doy + 2) / 153 = mp /\
            (mp = 0 \/ mp = 1 \/ mp = 2 \/ mp = 3 \/ mp = 4 \/ mp = 5 \/ mp = 6
                  \/ mp = 7 \/ mp = 8 \/ mp = 9 \/ mp = 10 \/ mp = 11)).
  { exists ((5 * doy + 2) / 153). split; [reflexivity | lia]. }
  destruct Hcase as (mp & Hmpe & Hcase). rewrite Hmpe. clear Hmp.
  repeat (destruct Hcase as [Hk | Hcase]); try (rename Hcase into Hk);
    rewrite Hk in *; clear Hk;
    match goal with
    | |- context [if ?k <? 10 then ?a else ?b] =>
        let v := eval vm_compute in (if k <? 10 then a else b) in
        change (if k <? 10 then a else b) with v
    end;
    match goal with
    | |- context [if ?k <=? 2 then ?a else ?b] =>
        let c := eval vm_compute in (k <=? 2) in
        change (k <=? 2) with c
    end; cbv iota;
    match goal with
    | |- context [if ?k =? 12 then _ else _] =>
        let c := eval vm_compute in (k =? 12) in
        change (k =? 12) with c
    end; cbv iota;
    unfold days_from_civil; cbv zeta;
    repeat match goal with
    | |- context [?k <=? 2] =>
        let c := eval vm_compute in (k <=? 2) in
        change (k <=? 2) with c
    | |- context [2 <? ?k] =>
        let c := eval vm_compute in (2 <? k) in
        change (2 <? k) with c
    end; cbv iota;
    [ clear Hb; clearbody doy .. | subst doy ];
    Z.to_euclidean_division_equations; lia.
Qed.

End CalendarFacts.

(* ================================================================== *)
(** * The order of the calendar *)

Module OrderFacts.
Import JS Calendar CalendarFacts.

(** Every month has from 28 to 31 days. *)
Lemma month_length (y m : Z) : 1 <= m <= 12 -> 28 <= days_in_month y m <= 31.
Proof.
  intros Hm.
  assert (Hc : m = 1 \/ m = 2 \/ m = 3 \/ m = 4 \/ m = 5 \/ m = 6 \/ m = 7
               \/ m = 8 \/ m = 9 \/ m = 10 \/ m = 11 \/ m = 12) by lia.
  clear Hm.
  repeat (destruct Hc as [Hc | Hc]); subst m;
    unfold days_in_month, days_from_civil; cbv zeta;
    repeat match goal with
           | |- context [?a =? ?b] =>
               let c := eval vm_compute in (a =? b) in change (a =? b) with c
           end; cbv iota;
    repeat match goal with
           | |- context [?a <=? ?b] =>
               let c := eval vm_compute in (a <=? b) in change (a <=? b) with c
           | |- context [?a <? ?b] =>
               let c := eval vm_compute in (a <? b) in change (a <? b) with c
           end; cbv iota;
    Z.to_euclidean_division_equations; lia.
Qed.

Lemma monthStart_civil (y m : Z) :
  1 <= m <= 12 -> Spec.monthStart (12 * y + m - 1) = days_from_civil y m 1.
Proof.
  intros Hm. unfold Spec.monthStart.
  replace ((12 * y + m - 1) / 12) with y
    by (Z.to_euclidean_division_equations; lia).
  replace ((12 * y + m - 1) mod 12 + 1) with m
    by (Z.to_euclidean_division_equations; lia).
  reflexivity.
Qed.

(** The month after the month [m] of the year [y] starts when its days
    are over. *)
Lemma monthStart_next (y m : Z) :
  1 <= m <= 12 ->
  Spec.monthStart (12 * y + m) = days_from_civil y m 1 + days_in_month y m.
Proof.
  intros Hm. unfold days_in_month.
  destruct (Z.eqb_spec m 12) as [->|Hne].
  - replace (12 * y + 12) with (12 * (y + 1) + 1 - 1) by ring.
    rewrite monthStart_civil by lia. ring.
  - replace (12 * y + m) with (12 * y + (m + 1) - 1) by ring.
    rewrite monthStart_civil by lia. ring.
Qed.

Lemma monthStart_step (k : Z) : Spec.monthStart k < Spec.monthStart (k + 1).
Proof.
  assert (Hk : k = 12 * (k / 12) + (k mod 12 + 1) - 1)
    by (Z.to_euclidean_division_equations; lia).
  assert (Hm : 1 <= k mod 12 + 1 <= 12)
    by (Z.to_euclidean_division_equations; lia).
  rewrite Hk at 2.
  replace (12 * (k / 12) + (k mod 12 + 1) - 1 + 1)
    with (12 * (k / 12) + (k mod 12 + 1)) by ring.
  rewrite (monthStart_next _ _ Hm).
  pose proof (month_length (k / 12) _ Hm).
  unfold Spec.monthStart. lia.
Qed.

Lemma monthStart_mono (k k' : Z) :
  k <= k' -> Spec.monthStart k <= Spec.monthStart k'.
Proof.
  intros H.
  assert (Hn : forall n : nat,
             Spec.monthStart k <= Spec.monthStart (k + Z.of_nat n)).
  { induction n as [|n IH].
    - replace (k + Z.of_nat 0) with k by lia. lia.
    - pose proof (monthStart_step (k + Z.of_nat n)).
      replace (k + Z.of_nat (S n)) with (k + Z.of_nat n + 1) by lia. lia. }
  specialize (Hn (Z.to_nat (k' - k))).
  now replace (k + Z.of_nat (Z.to_nat (k' - k))) with k' in Hn by lia.
Qed.

(** A date of an earlier month has a smaller day number. *)
Lemma days_from_civil_month_lt (y m d y' m' d' : Z) :
  1 <= m <= 12 -> 1 <= m' <= 12 ->
  d <= days_in_month y m -> 1 <= d' ->
  12 * y + m < 12 * y' + m' ->
  days_from_civil y m d < days_from_civil y' m' d'.
Proof.
  intros Hm Hm' Hd Hd' Hlt.
  rewrite (days_from_civil_day y m d), (days_from_civil_day y' m' d').
  pose proof (monthStart_next y m Hm) as Hn.
  pose proof (monthStart_mono (12 * y + m) (12 * y' + m' - 1)) as Hmono.
  rewrite (monthStart_civil y' m' Hm') in Hmono.
  lia.
Qed.

(** Written as numbers YYYYMMDD, two dates of the calendar are in the
    order of their day numbers. *)
Lemma date_order (y m d y' m' d' : Z) :
  1 <= m <= 12 -> 1 <= d <= days_in_month y m ->
  1 <= m' <= 12 -> 1 <= d' <= days_in_month y' m' ->
  days_from_civil y m d <= days_from_civil y' m' d' ->
  Spec.dateNumber y m d <= Spec.dateNumber y' m' d'.
Proof.
  intros Hm Hd Hm' Hd' Hle.
  pose proof (month_length y m Hm). pose proof (month_length y' m' Hm').
  unfold Spec.dateNumber.
  destruct (Z_lt_le_dec (12 * y' + m') (12 * y + m)) as [Hlt|Hge].
  - pose proof (days_from_civil_month_lt y' m' d' y m d Hm' Hm (proj2 Hd')
                  (proj1 Hd) Hlt).
    lia.
  - destruct (Z_lt_le_dec (12 * y + m) (12 * y' + m')) as [Hlt|Hle'].
    + lia.
    + assert (y = y' /\ m = m') as [-> ->] by lia.
      rewrite (days_from_civil_day y' m' d) in Hle.
      rewrite (days_from_civil_day y' m' d') in Hle.
      lia.
Qed.

(** The date of a later day is not earlier. *)
Lemma civil_order (z z' : Z) :
  z <= z' ->
  forall y m d y' m' d' : Z,
    civil_from_days z = (y, m, d) -> civil_from_days z' = (y', m', d') ->
    Spec.dateNumber y m d <= Spec.dateNumber y' m' d'.
Proof.
  intros Hz y m d y' m' d' Hc Hc'.
  pose proof (civil_roundtrip z) as Hr. rewrite Hc in Hr.
  pose proof (civil_roundtrip z') as Hr'. rewrite Hc' in Hr'.
  pose proof (civil_day_in_month z) as Hd. rewrite Hc in Hd.
  pose proof (civil_day_in_month z') as Hd'. rewrite Hc' in Hd'.
  destruct Hr as [Ht [Hm Hdd]]. destruct Hr' as [Ht' [Hm' Hdd']].
  apply date_order; lia.
Qed.

End OrderFacts.

(* ================================================================== *)
(** * Numbers and dates as text *)

Module TextFacts.
Import JS Calendar CalendarFacts OrderFacts.

(** ** Texts of digits *)

Lemma digit_of_code (c : ascii) (d : Z) :
  digit_of c = Some d -> 0 <= d <= 9 /\ Z.of_N (N_of_ascii c) = d + 48.
Proof.
  unfold digit_of, nat_of_ascii.
  destruct (Nat.leb_spec 48 (N.to_nat (N_of_ascii c))) as [Hlo|];
    [|discriminate].
  destruct (Nat.leb_spec (N.to_nat (N_of_ascii c)) 57) as [Hhi|];
    [|discriminate].
  simpl. intros E. injection E as <-. lia.
Qed.

Lemma digit_compare (c c' : ascii) (d d' : Z) :
  digit_of c = Some d -> digit_of c' = Some d' ->
  Ascii.compare c c' = (d ?= d').
Proof.
  intros H H'. apply digit_of_code in H as [_ H].
  apply digit_of_code in H' as [_ H'].
  unfold Ascii.compare. rewrite <- N2Z.inj_compare, H, H'.
  rewrite (Z.add_comm d 48), (Z.add_comm d' 48).
  apply Z.add_compare_mono_l.
Qed.

Lemma length_app (a b : str) :
  String.length (a ++ b)%string = (String.length a + String.length b)%nat.
Proof. induction a as [|c r IH]; simpl; congruence. Qed.

Lemma numeric_app (a b : str) :
  Spec.numeric (a ++ b)%string = Spec.numeric a && Spec.numeric b.
Proof.
  induction a as [|c r IH]; simpl.
  - reflexivity.
  - destruct (digit_of c); [exact IH | reflexivity].
Qed.

Lemma valueFrom_app (a b : str) :
  Spec.numeric a = true ->
  forall acc : Z, Spec.valueFrom (a ++ b)%string acc = Spec.valueFrom b (Spec.valueFrom a acc).
Proof.
  induction a as [|c r IH]; simpl; intros H acc.
  - reflexivity.
  - destruct (digit_of c); [now apply IH | discriminate].
Qed.

(** The value of a text of digits after [acc], and its size. *)
Lemma valueFrom_bounds (s : str) :
  Spec.numeric s = true ->
  forall acc : Z,
    acc * 10 ^ Z.of_nat (String.length s) <= Spec.valueFrom s acc
    < (acc + 1) * 10 ^ Z.of_nat (String.length s).
Proof.
  induction s as [|c r IH]; intros H acc.
  - simpl. lia.
  - cbn [Spec.numeric Spec.valueFrom String.length] in *.
    destruct (digit_of c) as [d|] eqn:Hd; [|discriminate].
    apply digit_of_code in Hd as [Hd _].
    specialize (IH H (10 * acc + d)).
    rewrite Nat2Z.inj_succ, Z.pow_succ_r by lia.
    assert (0 < 10 ^ Z.of_nat (String.length r))
      by (apply Z.pow_pos_nonneg; lia).
    nia.
Qed.

(** Two texts of digits of the same length are in the order of their
    values. *)
Lemma compare_numeric (a : str) :
  forall (b : str) (acc : Z),
    Spec.numeric a = true -> Spec.numeric b = true ->
    String.length a = String.length b ->
    String.compare a b = (Spec.valueFrom a acc ?= Spec.valueFrom b acc).
Proof.
  induction a as [|c r IH]; intros [|c' r'] acc Ha Hb Hl; try discriminate.
  - simpl. symmetry. apply Z.compare_refl.
  - cbn [Spec.numeric Spec.valueFrom String.length String.compare] in *.
    destruct (digit_of c) as [d|] eqn:Hd; [|discriminate].
    destruct (digit_of c') as [d'|] eqn:Hd'; [|discriminate].
    rewrite (digit_compare c c' d d' Hd Hd').
    apply digit_of_code in Hd as [Hd _]. apply digit_of_code in Hd' as [Hd' _].
    injection Hl as Hl.
    pose proof (valueFrom_bounds r Ha (10 * acc + d)) as Hv.
    pose proof (valueFrom_bounds r' Hb (10 * acc + d')) as Hv'.
    rewrite Hl in Hv.
    assert (Hp : 0 < 10 ^ Z.of_nat (String.length r'))
      by (apply Z.pow_pos_nonneg; lia).
    destruct (Z.compare_spec d d') as [->|Hlt|Hgt].
    + now apply IH.
    + symmetry. apply Z.compare_lt_iff. nia.
    + symmetry. apply Z.compare_gt_iff. nia.
Qed.

Lemma leb_numeric (a b : str) :
  Spec.numeric a = true -> Spec.numeric b = true ->
  String.length a = String.length b ->
  Spec.valueFrom a 0 <= Spec.valueFrom b 0 ->
  String.leb a b = true.
Proof.
  intros Ha Hb Hl Hv. unfold String.leb.
  rewrite (compare_numeric a b 0 Ha Hb Hl).
  destruct (Z.compare_spec (Spec.valueFrom a 0) (Spec.valueFrom b 0));
    (reflexivity || lia).
Qed.

(** What [digits] reads when it reads the whole text. *)
Lemma digits_acc_whole (s : str) :
  forall (acc : Z) (len : nat) (v : Z) (n : nat) (rest : str),
    digits_acc s acc len = (v, n, rest) ->
    n = (len + String.length s)%nat ->
    Spec.numeric s = true /\ Spec.valueFrom s acc = v.
Proof.
  induction s as [|c r IH]; intros acc len v n rest H Hn.
  - simpl in *. injection H as <- _ _. now split.
  - cbn [digits_acc Spec.numeric Spec.valueFrom String.length] in *.
    destruct (digit_of c) as [d|].
    + apply (IH _ _ _ _ _ H). lia.
    + injection H as _ <- _. lia.
Qed.

Lemma digits_whole (s : str) (v : Z) (rest : str) :
  digits s = (v, String.length s, rest) ->
  Spec.numeric s = true /\ Spec.valueFrom s 0 = v.
Proof.
  intros H. apply (digits_acc_whole s 0 O v _ rest H). reflexivity.
Qed.

(** A text of digits holds no hyphen. *)
Lemma removeHyphens_numeric (s : str) :
  Spec.numeric s = true -> removeHyphens s = s.
Proof.
  induction s as [|c r IH]; simpl; intros H.
  - reflexivity.
  - destruct (digit_of c) as [d|] eqn:Hd; [|discriminate].
    apply digit_of_code in Hd as [Hd Hc].
    unfold nat_of_ascii.
    destruct (Nat.eqb_spec (N.to_nat (N_of_ascii c)) 45) as [E|E]; [lia|].
    now rewrite IH.
Qed.

Lemma removeHyphens_app (a b : str) :
  removeHyphens (a ++ b)%string = (removeHyphens a ++ removeHyphens b)%string.
Proof.
  induction a as [|c r IH]; simpl.
  - reflexivity.
  - destruct (nat_of_ascii c =? 45)%nat; simpl; now rewrite IH.
Qed.

(** ** Decimal digits *)

Ltac digit_step k :=
  cbn [digits_acc];
  match goal with
  | |- context [digit_of ?c] => change (digit_of c) with (Some k)
  end;
  cbv iota; rewrite <- Nat.add_succ_comm.

Lemma digits_acc_pos (d : Decimal.uint) :
  forall (acc : positive) (len : nat),
    digits_acc (NilEmpty.string_of_uint d) (Z.pos acc) len
    = (Z.pos (Pos.of_uint_acc d acc), (len + Decimal.nb_digits d)%nat,
       EmptyString).
Proof.
  induction d; intros acc len; cbn [NilEmpty.string_of_uint Decimal.nb_digits];
    [ cbn; rewrite Nat.add_0_r; reflexivity
    | digit_step 0 | digit_step 1 | digit_step 2 | digit_step 3 | digit_step 4
    | digit_step 5 | digit_step 6 | digit_step 7 | digit_step 8 | digit_step 9 ];
    cbn [Pos.of_uint_acc];
    match goal with
    | |- digits_acc _ ?a _ = (Z.pos (Pos.of_uint_acc _ ?b), _, _) =>
        replace a with (Z.pos b) by lia; apply IHd
    end.
Qed.

Lemma digits_uint (d : Decimal.uint) :
  forall len : nat,
    digits_acc (NilEmpty.string_of_uint d) 0 len
    = (Z.of_N (Pos.of_uint d), (len + Decimal.nb_digits d)%nat, EmptyString).
Proof.
  induction d; intro len; cbn [NilEmpty.string_of_uint Decimal.nb_digits];
    [ cbn; rewrite Nat.add_0_r; reflexivity
    | digit_step 0; cbn [Pos.of_uint]; apply IHd
    | digit_step 1; apply (digits_acc_pos d 1)
    | digit_step 2; apply (digits_acc_pos d 2)
    | digit_step 3; apply (digits_acc_pos d 3)
    | digit_step 4; apply (digits_acc_pos d 4)
    | digit_step 5; apply (digits_acc_pos d 5)
    | digit_step 6; apply (digits_acc_pos d 6)
    | digit_step 7; apply (digits_acc_pos d 7)
    | digit_step 8; apply (digits_acc_pos d 8)
    | digit_step 9; apply (digits_acc_pos d 9) ].
Qed.

Lemma length_uint (d : Decimal.uint) :
  String.length (NilEmpty.string_of_uint d) = Decimal.nb_digits d.
Proof. induction d; cbn; congruence. Qed.


(** [digits] reads back the decimal text of a positive number. *)
Lemma digits_pos (p : positive) :
  digits (string_of_Z (Z.pos p))
  = (Z.pos p, Decimal.nb_digits (Pos.to_uint p), EmptyString)
  /\ String.length (string_of_Z (Z.pos p)) = Decimal.nb_digits (Pos.to_uint p).
Proof.
  unfold string_of_Z, digits. cbn [Z.to_int NilEmpty.string_of_int].
  rewrite digits_uint, length_uint, DecimalPos.Unsigned.of_to.
  split; reflexivity.
Qed.

(** The value that a number and its digits after it stand for. *)
Lemma of_uint_acc_bounds (d : Decimal.uint) :
  forall acc : positive,
    Z.pos acc * 10 ^ Z.of_nat (Decimal.nb_digits d)
    <= Z.pos (Pos.of_uint_acc d acc)
    < (Z.pos acc + 1) * 10 ^ Z.of_nat (Decimal.nb_digits d).
Proof.
  induction d; intro acc; cbn [Decimal.nb_digits Pos.of_uint_acc];
    [ cbn [Z.of_nat]; rewrite Z.pow_0_r; lia | .. ];
    rewrite Nat2Z.inj_succ, Z.pow_succ_r by lia;
    match goal with
    | |- _ <= Z.pos (Pos.of_uint_acc _ ?b) < _ =>
        specialize (IHd b)
    end;
    assert (0 < 10 ^ Z.of_nat (Decimal.nb_digits d)) by (apply Z.pow_pos_nonneg; lia);
    nia.
Qed.

(** The decimal text of a positive number has no leading zero. *)
Lemma to_uint_head (p : positive) :
  exists (k : positive) (d : Decimal.uint),
    1 <= Z.pos k <= 9
    /\ Decimal.nb_digits (Pos.to_uint p) = S (Decimal.nb_digits d)
    /\ Z.pos p = Z.pos (Pos.of_uint_acc d k).
Proof.
  pose proof (DecimalPos.Unsigned.of_to p) as Hof.
  pose proof (DecimalPos.Unsigned.to_of (Pos.to_uint p)) as Hto.
  rewrite Hof in Hto. cbn [N.to_uint] in Hto.
  pose proof (DecimalPos.Unsigned.to_uint_nonnil p) as Hnil.
  pose proof (DecimalPos.Unsigned.to_uint_nonzero p) as Hzero.
  destruct (Pos.to_uint p) as [|d|d|d|d|d|d|d|d|d|d] eqn:Hd;
    [ congruence
    | exfalso
    | exists 1%positive, d | exists 2%positive, d | exists 3%positive, d
    | exists 4%positive, d | exists 5%positive, d | exists 6%positive, d
    | exists 7%positive, d | exists 8%positive, d | exists 9%positive, d ];
    try (cbn [Pos.of_uint] in Hof; injection Hof as Hof;
         split; [lia | split; [reflexivity | congruence]]).
  unfold Decimal.unorm in Hto. cbn [Decimal.nzhead] in Hto.
  destruct (Decimal.nzhead d) eqn:Hnz;
    try (symmetry in Hto; apply (DecimalFacts.nzhead_nonzero d d));
    try congruence.
Qed.

Lemma pos_size (p : positive) :
  10 ^ (Z.of_nat (Decimal.nb_digits (Pos.to_uint p)) - 1)
  <= Z.pos p
  < 10 ^ Z.of_nat (Decimal.nb_digits (Pos.to_uint p)).
Proof.
  destruct (to_uint_head p) as (k & d & Hk & Hn & Hp).
  rewrite Hn, Hp. pose proof (of_uint_acc_bounds d k) as Hb.
  rewrite Nat2Z.inj_succ, Z.pow_succ_r by lia.
  replace (Z.succ (Z.of_nat (Decimal.nb_digits d)) - 1)
    with (Z.of_nat (Decimal.nb_digits d)) by lia.
  assert (0 < 10 ^ Z.of_nat (Decimal.nb_digits d)) by (apply Z.pow_pos_nonneg; lia).
  nia.
Qed.

(** The number of digits of a number between two powers of ten. *)
Lemma nb_digits_between (p : positive) (n : nat) :
  10 ^ Z.of_nat n <= Z.pos p < 10 ^ Z.of_nat (S n) ->
  Decimal.nb_digits (Pos.to_uint p) = S n.
Proof.
  intros [Hlo Hhi]. pose proof (pos_size p) as [Hl Hh].
  set (m := Decimal.nb_digits (Pos.to_uint p)) in *.
  destruct (Nat.lt_trichotomy m (S n)) as [Hlt | [Heq | Hgt]]; [exfalso | exact Heq | exfalso].
  - assert (10 ^ Z.of_nat m <= 10 ^ Z.of_nat n) by (apply Z.pow_le_mono_r; lia).
    lia.
  - assert (10 ^ Z.of_nat (S n) <= 10 ^ (Z.of_nat m - 1))
      by (apply Z.pow_le_mono_r; lia).
    lia.
Qed.

(** A year of four digits. *)
Lemma year_text (y : Z) :
  1000 <= y <= 9999 ->
  digits (string_of_Z y) = (y, 4%nat, EmptyString)
  /\ String.length (string_of_Z y) = 4%nat.
Proof.
  intro Hy. destruct y as [|p|p]; try lia.
  destruct (digits_pos p) as [Hd Hl].
  assert (Hn : Decimal.nb_digits (Pos.to_uint p) = 4%nat).
  { apply (nb_digits_between p 3). cbn. lia. }
  rewrite Hd, Hl, Hn. split; reflexivity.
Qed.

(** A month or a day, padded to two digits. *)
Lemma padded_text (n : Z) :
  1 <= n <= 99 ->
  digits (padStart2 (string_of_Z n)) = (n, 2%nat, EmptyString)
  /\ String.length (padStart2 (string_of_Z n)) = 2%nat.
Proof.
  intro Hn. destruct n as [|p|p]; try lia.
  destruct (digits_pos p) as [Hd Hl].
  destruct (Z_lt_le_dec (Z.pos p) 10) as [Hs | Hb].
  - assert (Hk : Decimal.nb_digits (Pos.to_uint p) = 1%nat).
    { apply (nb_digits_between p 0). cbn. lia. }
    rewrite Hk in *. unfold padStart2. rewrite Hl. cbv iota.
    split; [|cbn [String.length]; rewrite Hl; reflexivity].
    unfold digits in *. cbn [digits_acc].
    change (digit_of "0"%char) with (Some 0). cbv iota.
    destruct (string_of_Z (Z.pos p)) as [|c [|c' r]]; try discriminate.
    cbn [digits_acc] in *. destruct (digit_of c); [|discriminate].
    cbn [digits_acc] in *. injection Hd as Hd. subst. reflexivity.
  - assert (Hk : Decimal.nb_digits (Pos.to_uint p) = 2%nat).
    { apply (nb_digits_between p 1). cbn. lia. }
    rewrite Hk in *. unfold padStart2. rewrite Hl. cbv iota. split; assumption.
Qed.

(** ** The text of a date *)

Lemma valueFrom_linear (s : str) :
  Spec.numeric s = true ->
  forall acc : Z,
    Spec.valueFrom s acc
    = acc * 10 ^ Z.of_nat (String.length s) + Spec.valueFrom s 0.
Proof.
  induction s as [|c r IH]; intros H acc.
  - simpl. lia.
  - cbn [Spec.numeric Spec.valueFrom String.length] in *.
    destruct (digit_of c) as [d|]; [|discriminate].
    rewrite (IH H (10 * acc + d)), (IH H (10 * 0 + d)).
    rewrite Nat2Z.inj_succ, Z.pow_succ_r by lia. ring.
Qed.

(** Three texts of digits, of four, two and two characters, one after the
    other. *)
Lemma date_text (Y M D : str) (y m d : Z) :
  Spec.numeric Y = true -> String.length Y = 4%nat -> Spec.valueFrom Y 0 = y ->
  Spec.numeric M = true -> String.length M = 2%nat -> Spec.valueFrom M 0 = m ->
  Spec.numeric D = true -> String.length D = 2%nat -> Spec.valueFrom D 0 = d ->
  Spec.numeric (Y ++ M ++ D)%string = true
  /\ String.length (Y ++ M ++ D)%string = 8%nat
  /\ Spec.valueFrom (Y ++ M ++ D)%string 0 = Spec.dateNumber y m d.
Proof.
  intros HY LY VY HM LM VM HD LD VD.
  rewrite !numeric_app, !length_app, HY, HM, HD, LY, LM, LD.
  split; [reflexivity|]. split; [reflexivity|].
  rewrite (valueFrom_app Y _ HY), (valueFrom_app M _ HM).
  rewrite (valueFrom_linear D HD), (valueFrom_linear M HM), LD, LM, VY, VM, VD.
  unfold Spec.dateNumber. change (10 ^ Z.of_nat 2) with 100. ring.
Qed.

(** The text of a day of a year of four digits. *)
Lemma dayText_number (z y m d : Z) :
  civil_from_days z = (y, m, d) ->
  1000 <= y <= 9999 ->
  Spec.numeric (Spec.dayText z) = true
  /\ String.length (Spec.dayText z) = 8%nat
  /\ Spec.valueFrom (Spec.dayText z) 0 = Spec.dateNumber y m d.
Proof.
  intros Hc Hy. unfold Spec.dayText. rewrite Hc.
  pose proof (civil_roundtrip z) as Hr. rewrite Hc in Hr.
  destruct Hr as [_ [Hm Hd]].
  destruct (year_text y Hy) as [Ey Ly].
  destruct (padded_text m) as [Em Lm]; [lia|].
  destruct (padded_text d) as [Ed Ld]; [lia|].
  rewrite <- Ly in Ey. rewrite <- Lm in Em. rewrite <- Ld in Ed.
  apply digits_whole in Ey as [Ny Vy].
  apply digits_whole in Em as [Nm Vm].
  apply digits_whole in Ed as [Nd Vd].
  now apply date_text.
Qed.

(** The texts of two days of years of four digits are in the order of the
    days. *)
Lemma dayText_le (z z' : Z) :
  z <= z' ->
  1000 <= YearFromDay z <= 9999 -> 1000 <= YearFromDay z' <= 9999 ->
  String.leb (Spec.dayText z) (Spec.dayText z') = true.
Proof.
  unfold YearFromDay. intros Hz Hy Hy'.
  destruct (civil_from_days z) as [[y m] d] eqn:Hc.
  destruct (civil_from_days z') as [[y' m'] d'] eqn:Hc'.
  destruct (dayText_number z y m d Hc Hy) as [Hn [Hl Hv]].
  destruct (dayText_number z' y' m' d' Hc' Hy') as [Hn' [Hl' Hv']].
  apply leb_numeric; [assumption | assumption | congruence |].
  rewrite Hv, Hv'. now apply (civil_order z z').
Qed.

(** ** The text of a date of the page *)

(** A text of ten characters, cut as [new Date] cuts it. *)
Lemma ten_characters (s : str) :
  String.length s = 10%nat ->
  String.substring 4 1 s = "-" ->
  String.substring 7 1 s = "-" ->
  s = (String.substring 0 4 s ++ "-" ++ String.substring 5 2 s ++ "-"
       ++ String.substring 8 2 s)%string
  /\ String.length (String.substring 0 4 s) = 4%nat
  /\ String.length (String.substring 5 2 s) = 2%nat
  /\ String.length (String.substring 8 2 s) = 2%nat.
Proof.
  intros Hl H4 H7.
  destruct s as [|c0 [|c1 [|c2 [|c3 [|c4 [|c5 [|c6 [|c7 [|c8 [|c9 [|c10 r]]]]]]]]]]];
    try discriminate.
  cbn in H4, H7. injection H4 as ->. injection H7 as ->.
  cbn. repeat split.
Qed.

Lemma all_digits_whole (s : str) :
  all_digits s = true ->
  Spec.numeric s = true
  /\ (let '(v, _, _) := digits s in v) = Spec.valueFrom s 0.
Proof.
  unfold all_digits.
  destruct (digits s) as [[v n] rest] eqn:E.
  intros H. apply andb_prop in H as [Hn _].
  apply Nat.eqb_eq in Hn. subst n.
  apply digits_whole in E as [Hnum Hv]. now split.
Qed.

(** What [new Date] accepts: a year of four digits, a month and a day of
    two digits between hyphens, which name a day of the calendar; its value
    is the midnight of that day in UTC. *)
Lemma newDate_inv (s : str) (t : Date) :
  newDate s = Some t ->
  exists (Y M D : str),
    s = (Y ++ "-" ++ M ++ "-" ++ D)%string
    /\ Spec.numeric Y = true /\ String.length Y = 4%nat
    /\ Spec.numeric M = true /\ String.length M = 2%nat
    /\ Spec.numeric D = true /\ String.length D = 2%nat
    /\ 1 <= Spec.valueFrom M 0 <= 12
    /\ 1 <= Spec.valueFrom D 0
         <= days_in_month (Spec.valueFrom Y 0) (Spec.valueFrom M 0)
    /\ t = days_from_civil (Spec.valueFrom Y 0) (Spec.valueFrom M 0)
              (Spec.valueFrom D 0) * msPerDay.
Proof.
  unfold newDate. intros H.
  destruct ((String.length s =? 10)%nat
            && String.eqb (String.substring 4 1 s) "-"
            && String.eqb (String.substring 7 1 s) "-"
            && all_digits (String.substring 0 4 s)
            && all_digits (String.substring 5 2 s)
            && all_digits (String.substring 8 2 s)) eqn:Hc; [|discriminate].
  repeat match type of Hc with
         | _ && _ = true => apply andb_prop in Hc as [Hc ?]
         end.
  apply Nat.eqb_eq in Hc.
  match goal with
  | H4 : String.eqb (String.substring 4 1 s) "-" = true,
    H7 : String.eqb (String.substring 7 1 s) "-" = true |- _ =>
      apply String.eqb_eq in H4; apply String.eqb_eq in H7;
      destruct (ten_characters s Hc H4 H7) as [Hs [LY [LM LD]]]
  end.
  match goal with
  | HY : all_digits (String.substring 0 4 s) = true,
    HM : all_digits (String.substring 5 2 s) = true,
    HD : all_digits (String.substring 8 2 s) = true |- _ =>
      apply all_digits_whole in HY as [NY VY];
      apply all_digits_whole in HM as [NM VM];
      apply all_digits_whole in HD as [ND VD]
  end.
  destruct (digits (String.substring 0 4 s)) as [[y ?] ?].
  destruct (digits (String.substring 5 2 s)) as [[m ?] ?].
  destruct (digits (String.substring 8 2 s)) as [[d ?] ?].
  subst y m d.
  destruct ((1 <=? Spec.valueFrom (String.substring 5 2 s) 0)
            && (Spec.valueFrom (String.substring 5 2 s) 0 <=? 12)
            && (1 <=? Spec.valueFrom (String.substring 8 2 s) 0)
            && (Spec.valueFrom (String.substring 8 2 s) 0
                <=? days_in_month (Spec.valueFrom (String.substring 0 4 s) 0)
                      (Spec.valueFrom (String.substring 5 2 s) 0))) eqn:Hv;
    [|discriminate].
  injection H as <-.
  repeat match type of Hv with
         | _ && _ = true => apply andb_prop in Hv as [Hv ?]
         end.
  exists (String.substring 0 4 s), (String.substring 5 2 s),
    (String.substring 8 2 s).
  repeat match goal with
         | H : (_ <=? _) = true |- _ => apply Z.leb_le in H
         end.
  repeat split; try assumption; lia.
Qed.

(** The window of the page without its hyphens: eight digits, in the order
    of the days that the two texts name. *)
Lemma removeHyphens_date (s : str) (t : Date) :
  newDate s = Some t ->
  exists y m d : Z,
    Spec.numeric (removeHyphens s) = true
    /\ String.length (removeHyphens s) = 8%nat
    /\ Spec.valueFrom (removeHyphens s) 0 = Spec.dateNumber y m d
    /\ 1 <= m <= 12 /\ 1 <= d <= days_in_month y m
    /\ t = days_from_civil y m d * msPerDay.
Proof.
  intros H.
  destruct (newDate_inv s t H)
    as (Y & M & D & -> & NY & LY & NM & LM & ND & LD & Hm & Hd & Ht).
  exists (Spec.valueFrom Y 0), (Spec.valueFrom M 0), (Spec.valueFrom D 0).
  rewrite !removeHyphens_app.
  rewrite (removeHyphens_numeric Y NY), (removeHyphens_numeric M NM),
    (removeHyphens_numeric D ND).
  change (removeHyphens "-") with EmptyString. cbn [String.append].
  destruct (date_text Y M D _ _ _ NY LY eq_refl NM LM eq_refl ND LD eq_refl)
    as [Hn [Hl Hv]].
  repeat split; try assumption; lia.
Qed.

Lemma removeHyphens_le (a b : str) (ta tb : Date) :
  newDate a = Some ta -> newDate b = Some tb -> ta <= tb ->
  String.leb (removeHyphens a) (removeHyphens b) = true.
Proof.
  intros Ha Hb Hle.
  destruct (removeHyphens_date a ta Ha)
    as (y & m & d & Hn & Hl & Hv & Hm & Hd & ->).
  destruct (removeHyphens_date b tb Hb)
    as (y' & m' & d' & Hn' & Hl' & Hv' & Hm' & Hd' & ->).
  apply leb_numeric; [assumption | assumption | congruence |].
  rewrite Hv, Hv'. apply date_order; try assumption.
  unfold msPerDay in Hle. lia.
Qed.

End TextFacts.

(* ================================================================== *)
(** * The window of a request *)

Module WindowFacts.
Import JS Vendor Calendar Request JSFacts DeltaFacts CalendarFacts OrderFacts
  TextFacts.

Lemma substring_all (s : str) (n : nat) :
  (String.length s <= n)%nat -> String.substring 0 n s = s.
Proof.
  revert n. induction s as [|c r IH]; intros n H.
  - now destruct n.
  - destruct n as [|n]; simpl in *; [lia|].
    f_equal. apply IH. lia.
Qed.

Lemma compare_refl (s : str) : String.compare s s = Eq.
Proof.
  induction s as [|c r IH]; simpl.
  - reflexivity.
  - unfold Ascii.compare. now rewrite N.compare_refl.
Qed.

Lemma leb_refl (s : str) : String.leb s s = true.
Proof. unfold String.leb. now rewrite compare_refl. Qed.

(** When the sorted series starts with a reading before the window and
    its next reading is that of the first day of the window, the delta of
    that day is in the filtered output. *)
Lemma first_window_day_kept (startStr endStr : str) (dataArray : list item)
  (p0 p1 : item) (rest : list item) :
  Daily.sortedData dataArray = p0 :: p1 :: rest ->
  Forall hasValue dataArray ->
  time_stamp p1 = startStr ->
  (String.length startStr <= 8)%nat ->
  str_le startStr endStr = true ->
  In {| Daily.date := startStr;
        Daily.dailyKwh := max0 (sub (cumulative p1) (cumulative p0));
        Daily.cumulativeKwh := cumulative p1 |}
     (Daily.filteredDailyData startStr endStr
        (Daily.dailyData (Daily.walk (Daily.sortedData dataArray)))).
Proof.
  intros Hs Hv Hts Hlen Hle.
  assert (Hv' : Forall hasValue (Daily.sortedData dataArray)).
  { eapply Permutation_Forall; [|exact Hv]. apply Permutation_sym, sort_perm. }
  rewrite (walk_series _ Hv'), Hs.
  cbn [Daily.dailyData Daily.deltaSeries Daily.deltasFrom].
  unfold Daily.filteredDailyData. apply filter_In. split.
  - left. now rewrite Hts.
  - unfold Daily.inWindow. cbn [Daily.date].
    unfold slice0. rewrite (substring_all _ _ Hlen).
    unfold str_ge. rewrite leb_refl. exact Hle.
Qed.

(** The year of a later day is not earlier. *)
Lemma YearFromDay_mono (z z' : Z) : z <= z' -> YearFromDay z <= YearFromDay z'.
Proof.
  intros Hz. unfold YearFromDay.
  destruct (civil_from_days z) as [[y m] d] eqn:Hc.
  destruct (civil_from_days z') as [[y' m'] d'] eqn:Hc'.
  pose proof (civil_order z z' Hz _ _ _ _ _ _ Hc Hc') as Ho.
  pose proof (civil_roundtrip z) as Hr. rewrite Hc in Hr.
  pose proof (civil_roundtrip z') as Hr'. rewrite Hc' in Hr'.
  unfold Spec.dateNumber in Ho. lia.
Qed.

(** ** The window of the handler *)

Lemma cron_window (tz : zone) (now : Date) :
  let w := Cron.windowOf tz now in
  let today := localDay tz now in
  Cron.dateRangeStartStr w = Spec.dayText (today - 7)
  /\ Cron.dateRangeEndStr w = Spec.dayText today
  /\ Cron.apiStartDate w = Spec.dayText (today - 7 - 1)
  /\ Cron.apiEndDate w = Spec.dayText today.
Proof.
  cbv zeta. unfold Cron.windowOf, Cron.apiStartOf.
  cbn [Cron.dateRangeStartStr Cron.dateRangeEndStr Cron.apiStartDate
       Cron.apiEndDate].
  rewrite !formatDateForAPI_dayText.
  rewrite !setDate_back, !localDay_back. repeat split.
Qed.

(** The two bounds of the window of the handler are texts of eight digits
    in order, for years of four digits. *)
Lemma cron_window_bounds (tz : zone) (now : Date) :
  1000 <= YearFromDay (localDay tz now - 7) ->
  YearFromDay (localDay tz now) <= 9999 ->
  let w := Cron.windowOf tz now in
  String.length (Cron.dateRangeStartStr w) = 8%nat
  /\ str_le (Cron.dateRangeStartStr w) (Cron.dateRangeEndStr w) = true.
Proof.
  intros Hlo Hhi. cbv zeta.
  destruct (cron_window tz now) as [Hs [He _]]. rewrite Hs, He. clear Hs He.
  pose proof (YearFromDay_mono (localDay tz now - 7) (localDay tz now)) as Hy.
  split.
  - unfold YearFromDay in *.
    destruct (civil_from_days (localDay tz now - 7)) as [[y m] d] eqn:Hc.
    destruct (dayText_number _ y m d Hc) as [_ [Hl _]]; [lia | exact Hl].
  - unfold str_le. apply dayText_le; lia.
Qed.

(** ** The window of the weekly page *)

Lemma weekly_apiDates (tz : zone) (dateRange : Weekly.date_range)
  (s e : Date) :
  newDate (Weekly.startDate dateRange) = Some s ->
  newDate (Weekly.endDate dateRange) = Some e ->
  Weekly.apiDates tz dateRange
  = Ok {| Weekly.apiStartDate := Spec.dayText (Day s + tz / 1440 - 1);
          Weekly.apiEndDate := Spec.dayText (Day e + tz / 1440) |}.
Proof.
  intros Hs He. unfold Weekly.apiDates, Weekly.apiStartOf. rewrite Hs, He.
  rewrite !formatDateForAPI_dayText, setDate_back, localDay_back.
  destruct (newDate_inv _ _ Hs)
    as (Y & M & D & _ & _ & _ & _ & _ & _ & _ & _ & _ & Es).
  destruct (newDate_inv _ _ He)
    as (Y' & M' & D' & _ & _ & _ & _ & _ & _ & _ & _ & _ & Ee).
  rewrite Es, Ee.
  rewrite !localDay_midnight.
  unfold Day, msPerDay. rewrite !Z.div_mul by lia.
  reflexivity.
Qed.

(** In a zone behind UTC the request of the weekly page starts two days
    before the window and ends a day before its end. *)
Lemma weekly_request_behind_utc (tz : zone) (dateRange : Weekly.date_range)
  (s e : Date) :
  newDate (Weekly.startDate dateRange) = Some s ->
  newDate (Weekly.endDate dateRange) = Some e ->
  - 1440 <= tz < 0 ->
  Weekly.apiDates tz dateRange
  = Ok {| Weekly.apiStartDate := Spec.dayText (Day s - 2);
          Weekly.apiEndDate := Spec.dayText (Day e - 1) |}.
Proof.
  intros Hs He Htz. rewrite (weekly_apiDates tz dateRange s e Hs He).
  replace (tz / 1440) with (-1) by (Z.to_euclidean_division_equations; lia).
  do 3 f_equal; lia.
Qed.

Example weekly_request_in_new_york :
  Weekly.apiDates Samples.new_york Samples.first_week
  = Ok {| Weekly.apiStartDate := "20240228"; Weekly.apiEndDate := "20240307" |}.
Proof. vm_compute. reflexivity. Qed.

End WindowFacts.

Module WindowClaims.
Import JS Vendor Calendar Request JSFacts DeltaFacts CalendarFacts OrderFacts
  TextFacts WindowFacts.

(** C3, as it is written, fails on the multi-year page: the request starts
    at the first year of the range itself. *)
Lemma yearly_request_is_not_shifted :
  ~ (forall (yearRange : AllGraph.year_range) (batchPsKeyList : list str),
        start_time (AllGraph.historyRequest yearRange batchPsKeyList)
        = string_of_Z (AllGraph.startYear yearRange - 1)).
Proof.
  intros H.
  specialize (H {| AllGraph.startYear := 2015; AllGraph.endYear := 2024 |}
                ["1_1_1_1"]).
  vm_compute in H. discriminate H.
Qed.

(** C3 (amended).  The handler asks the vendor for a window that starts on
    the calendar day before the first day of its window and ends on its
    last day, in every zone; for years of four digits, when the sorted
    series starts with a seed reading followed by the reading of the first
    day of the window, the delta of that day is in the output.  The weekly
    page does the same for the window of the caller in a zone at or ahead
    of UTC, for a window that is not empty.  The multi-year page asks for
    the range of years as it is, without a shift. *)
Theorem fetch_window_of_each_path :
  forall (tz : zone) (now : Date) (psKey : str)
         (dateRange : Weekly.date_range)
         (yearRange : AllGraph.year_range) (batchPsKeyList : list str),
    (let w := Cron.windowOf tz now in
     let today := localDay tz now in
     Cron.dateRangeStartStr w = Spec.dayText (today - 7)
     /\ Cron.dateRangeEndStr w = Spec.dayText today
     /\ start_time (Cron.energyRequest w psKey) = Spec.dayText (today - 7 - 1)
     /\ end_time (Cron.energyRequest w psKey) = Spec.dayText today
     /\ (1000 <= YearFromDay (today - 7) ->
         YearFromDay today <= 9999 ->
         forall (dataArray : list item) (p0 p1 : item) (rest : list item),
           Daily.sortedData dataArray = p0 :: p1 :: rest ->
           Forall hasValue dataArray ->
           time_stamp p1 = Cron.dateRangeStartStr w ->
           In {| Daily.date := Cron.dateRangeStartStr w;
                 Daily.dailyKwh := max0 (sub (cumulative p1) (cumulative p0));
                 Daily.cumulativeKwh := cumulative p1 |}
              (Daily.filteredDailyData (Cron.dateRangeStartStr w)
                 (Cron.dateRangeEndStr w)
                 (Daily.dailyData (Daily.walk (Daily.sortedData dataArray))))))
    /\ (forall s e : Date,
          newDate (Weekly.startDate dateRange) = Some s ->
          newDate (Weekly.endDate dateRange) = Some e ->
          0 <= tz < 1440 ->
          exists dates : Weekly.api_dates,
            Weekly.apiDates tz dateRange = Ok dates
            /\ start_time (Weekly.energyRequest dates psKey)
               = Spec.dayText (Day s - 1)
            /\ end_time (Weekly.energyRequest dates psKey) = Spec.dayText (Day e)
            /\ (s <= e ->
                forall (dataArray : list item) (p0 p1 : item) (rest : list item),
                  Daily.sortedData dataArray = p0 :: p1 :: rest ->
                  Forall hasValue dataArray ->
                  time_stamp p1 = removeHyphens (Weekly.startDate dateRange) ->
                  In {| Daily.date := removeHyphens (Weekly.startDate dateRange);
                        Daily.dailyKwh :=
                          max0 (sub (cumulative p1) (cumulative p0));
                        Daily.cumulativeKwh := cumulative p1 |}
                     (Daily.filteredDailyData
                        (removeHyphens (Weekly.startDate dateRange))
                        (removeHyphens (Weekly.endDate dateRange))
                        (Daily.dailyData
                           (Daily.walk (Daily.sortedData dataArray))))))
    /\ start_time (AllGraph.historyRequest yearRange batchPsKeyList)
       = string_of_Z (AllGraph.startYear yearRange)
    /\ end_time (AllGraph.historyRequest yearRange batchPsKeyList)
       = string_of_Z (AllGraph.endYear yearRange).
Proof.
  intros tz now psKey dateRange yearRange batchPsKeyList.
  split; [|split; [|split; reflexivity]].
  - cbv zeta. destruct (cron_window tz now) as [Hs [He [Has Hae]]].
    split; [exact Hs|]. split; [exact He|].
    split; [exact Has|]. split; [exact Hae|].
    intros Hlo Hhi dataArray p0 p1 rest Hsort Hv Hts.
    destruct (cron_window_bounds tz now Hlo Hhi) as [Hlen Hle].
    apply first_window_day_kept with (rest := rest); try assumption. lia.
  - intros s e Hs He Htz.
    rewrite (weekly_apiDates tz dateRange s e Hs He).
    rewrite (Z.div_small tz 1440) by lia.
    eexists. split; [reflexivity|].
    cbn [Weekly.energyRequest start_time end_time Weekly.apiStartDate
         Weekly.apiEndDate].
    split; [f_equal; lia|]. split; [f_equal; lia|].
    intros Hse dataArray p0 p1 rest Hsort Hv Hts.
    destruct (removeHyphens_date _ _ Hs) as (y & m & d & _ & Hlen & _).
    apply first_window_day_kept with (rest := rest); try assumption; [lia|].
    unfold str_le. now apply (removeHyphens_le _ _ s e).
Qed.

(** The run of 8 March 2024 in India, with a seed reading of 1 kWh on
    29 February and a reading of 3 kWh on 1 March: both paths ask from
    29 February on and keep the 2 kWh of 1 March. *)
Lemma fetch_window_of_each_path_witness :
  start_time
    (Cron.energyRequest (Cron.windowOf Samples.kolkata Samples.march8) "1_1_1_1")
  = "20240229"
  /\ Cron.dateRangeStartStr (Cron.windowOf Samples.kolkata Samples.march8)
     = "20240301"
  /\ In {| Daily.date := "20240301";
           Daily.dailyKwh := of_Z 2;
           Daily.cumulativeKwh := of_Z 3 |}
        (Daily.filteredDailyData
           (Cron.dateRangeStartStr (Cron.windowOf Samples.kolkata Samples.march8))
           (Cron.dateRangeEndStr (Cron.windowOf Samples.kolkata Samples.march8))
           (Daily.dailyData (Daily.walk (Daily.sortedData Samples.seeded))))
  /\ exists dates : Weekly.api_dates,
       Weekly.apiDates Samples.kolkata Samples.first_week = Ok dates
       /\ start_time (Weekly.energyRequest dates "1_1_1_1") = "20240229"
       /\ In {| Daily.date := "20240301";
                Daily.dailyKwh := of_Z 2;
                Daily.cumulativeKwh := of_Z 3 |}
             (Daily.filteredDailyData
                (removeHyphens (Weekly.startDate Samples.first_week))
                (removeHyphens (Weekly.endDate Samples.first_week))
                (Daily.dailyData (Daily.walk (Daily.sortedData Samples.seeded)))).
Proof.
  destruct (fetch_window_of_each_path Samples.kolkata Samples.march8 "1_1_1_1"
              Samples.first_week Samples.decade ["1_1_1_1"])
    as [[Hstart [_ [Hreq [_ Hkept]]]] [Hweek _]].
  assert (Hv : Forall hasValue Samples.seeded)
    by (repeat constructor; unfold hasValue; discriminate).
  split; [rewrite Hreq; vm_compute; reflexivity|].
  split; [rewrite Hstart; vm_compute; reflexivity|].
  split.
  - apply (Hkept ltac:(apply Z.leb_le; vm_compute; reflexivity)
                 ltac:(apply Z.leb_le; vm_compute; reflexivity)
                 Samples.seeded (Samples.reading "20240229" "1000")
                 (Samples.reading "20240301" "3000") [] eq_refl Hv).
    rewrite Hstart. vm_compute. reflexivity.
  - destruct (Hweek (19783 * msPerDay) (19790 * msPerDay) eq_refl eq_refl)
      as [dates [Hd [Hs [_ Hk]]]]; [unfold Samples.kolkata; lia|].
    exists dates. split; [exact Hd|].
    split; [rewrite Hs; vm_compute; reflexivity|].
    apply (Hk ltac:(unfold msPerDay; lia)
              Samples.seeded (Samples.reading "20240229" "1000")
              (Samples.reading "20240301" "3000") [] eq_refl Hv eq_refl).
Defined.

End WindowClaims.

(* ================================================================== *)
(** * The roster loaders *)

Module RosterFacts.
Import JS JSFacts.

Lemma capacity_default (s : str) :
  num_or (parseFloat s) (of_Z 1) = Spec.capacityOf s.
Proof. unfold num_or, Spec.capacityOf. now destruct (parseFloat s). Qed.

Lemma cron_loadRow (acc : list Cron.inverter) (row : Sheet.row) (index : nat) :
  Cron.loadRow acc row index = acc ++ Spec.rosterRecord index row.
Proof.
  unfold Cron.loadRow, Spec.rosterRecord.
  destruct index as [|n]; simpl Nat.eqb; cbv iota.
  - now rewrite app_nil_r.
  - rewrite !truthy_str_eqb, capacity_default.
    destruct (String.eqb (Sheet.column (Sheet.rowValues row) 1) "");
      destruct (String.eqb (Sheet.column (Sheet.rowValues row) 2) "");
      simpl; try now rewrite app_nil_r.
    now destruct (String.eqb (Sheet.column (Sheet.rowValues row) 0) "").
Qed.

Lemma weekly_loadRow (acc : list Weekly.inverter) (row : Sheet.row) (index : nat) :
  Weekly.loadRow acc row index
  = acc ++ map (Spec.weeklyOf index) (Spec.rosterRecord index row).
Proof.
  unfold Weekly.loadRow, Spec.rosterRecord.
  destruct index as [|n]; simpl Nat.eqb; cbv iota.
  - now rewrite app_nil_r.
  - rewrite !truthy_str_eqb, capacity_default.
    destruct (String.eqb (Sheet.column (Sheet.rowValues row) 1) "");
      destruct (String.eqb (Sheet.column (Sheet.rowValues row) 2) "");
      simpl; try now rewrite app_nil_r.
    unfold Spec.weeklyOf. simpl.
    now destruct (String.eqb (Sheet.column (Sheet.rowValues row) 0) "").
Qed.

Lemma graph_loadRow (acc : list AllGraph.inverter) (row : Sheet.row) (index : nat) :
  AllGraph.loadRow acc row index = acc ++ Spec.graphRecord index row.
Proof.
  unfold AllGraph.loadRow, Spec.graphRecord.
  destruct index as [|n]; simpl Nat.eqb; cbv iota.
  - now rewrite app_nil_r.
  - rewrite !truthy_str_eqb.
    destruct (String.eqb (Sheet.column (Sheet.rowValues row) 1) "");
      simpl; try now rewrite app_nil_r.
    now destruct (String.eqb (Sheet.column (Sheet.rowValues row) 0) "").
Qed.

(** A loader that appends the records of each row gives the records of all
    rows, in order. *)
Lemma forEach_rows {A B : Type} (f : list B -> A -> nat -> list B)
  (g : nat -> A -> list B) :
  (forall acc a i, f acc a i = acc ++ g i a) ->
  forall (l : list A) (i : nat) (acc : list B),
    forEachFrom f l i acc
    = acc ++ flat_map (fun ia => g (fst ia) (snd ia)) (Spec.indexedFrom i l).
Proof.
  intros Hf. induction l as [|a r IH]; intros i acc; simpl.
  - now rewrite app_nil_r.
  - rewrite IH, Hf. now rewrite <- app_assoc.
Qed.

End RosterFacts.

Module RosterClaims.
Import JS JSFacts RosterFacts.

(** C5, as it is written, fails on the multi-year page: its loader accepts
    a row whose beneficiary name is blank and names it by the bare index.
    In the handler a capacity that parses as zero is replaced by 1. *)
Lemma graph_loader_accepts_blank_name :
  ~ (forall (rows : list Sheet.row) (r : AllGraph.inverter),
        In r (AllGraph.fetchInverterDataFromSheet rows) ->
        AllGraph.beneficiaryName r <> "")
  /\ AllGraph.fetchInverterDataFromSheet
       [ Sheet.RowArray [];
         Sheet.RowArray [Sheet.VStr ""; Sheet.VStr "I2492100573"; Sheet.VStr ""] ]
     = [ {| AllGraph.serialNo := "1";
            AllGraph.inverterId := "I2492100573";
            AllGraph.beneficiaryName := "" |} ]
  /\ parseFloat "0" = zero
  /\ Cron.loadRoster
       [ Sheet.RowArray [];
         Sheet.RowArray [ Sheet.VStr "49"; Sheet.VStr "I2492100573";
                          Sheet.VStr "RAHUL SHARMA"; Sheet.VStr "0" ] ]
     = Ok [ {| Cron.serialNo := "49";
               Cron.inverterId := "I2492100573";
               Cron.beneficiaryName := "RAHUL SHARMA";
               Cron.capacity := of_Z 1 |} ].
Proof.
  split; [|repeat split].
  intros H.
  apply (H [ Sheet.RowArray [];
             Sheet.RowArray [Sheet.VStr ""; Sheet.VStr "I2492100573"; Sheet.VStr ""] ]
           {| AllGraph.serialNo := "1";
              AllGraph.inverterId := "I2492100573";
              AllGraph.beneficiaryName := "" |}).
  - left. reflexivity.
  - reflexivity.
Qed.

(** C5 (amended).  The handler and the weekly page load, for every row
    after the header, the record that the specification describes: columns
    by position, both the trimmed inverter id and the trimmed beneficiary
    name required, "S" and the row index for a blank serial number, the
    capacity parsed as a float with 1 for a blank, unreadable or zero one;
    the row of the example loads to the record of the example.  The multi-year page
    reads the first three columns, requires the inverter id only and names
    a blank serial number by the row index. *)
Theorem roster_of_each_loader :
  forall (rows : list Sheet.row) (header : Sheet.row),
    forEachIdx Cron.loadRow rows []
    = flat_map (fun ia => Spec.rosterRecord (fst ia) (snd ia)) (Spec.indexed rows)
    /\ Weekly.fetchInverterList rows
       = flat_map (fun ia => map (Spec.weeklyOf (fst ia))
                               (Spec.rosterRecord (fst ia) (snd ia)))
           (Spec.indexed rows)
    /\ AllGraph.fetchInverterDataFromSheet rows
       = flat_map (fun ia => Spec.graphRecord (fst ia) (snd ia)) (Spec.indexed rows)
    /\ Cron.loadRoster
         [ header;
           Sheet.RowArray [ Sheet.VStr "49"; Sheet.VStr "I2492100573";
                            Sheet.VStr "RAHUL SHARMA"; Sheet.VStr "3" ] ]
       = Ok [ {| Cron.serialNo := "49";
                 Cron.inverterId := "I2492100573";
                 Cron.beneficiaryName := "RAHUL SHARMA";
                 Cron.capacity := of_Z 3 |} ]
    /\ Cron.loadRoster
         (Sheet.rowsOf
            (Sheet.Values
               [ [ Sheet.VStr "Serial"; Sheet.VStr "Inverter";
                   Sheet.VStr "Name"; Sheet.VStr "kW" ];
                 [ Sheet.VNum 49; Sheet.VStr " I2492100573 ";
                   Sheet.VStr "RAHUL SHARMA"; Sheet.VNum 3 ] ]))
       = Ok [ {| Cron.serialNo := "49";
                 Cron.inverterId := "I2492100573";
                 Cron.beneficiaryName := "RAHUL SHARMA";
                 Cron.capacity := of_Z 3 |} ]
    /\ Weekly.fetchInverterList
         [ header;
           Sheet.RowArray [ Sheet.VStr "49"; Sheet.VStr "I2492100573";
                            Sheet.VStr "RAHUL SHARMA"; Sheet.VStr "3" ] ]
       = [ {| Weekly.id := 1;
              Weekly.serialNo := Some "49";
              Weekly.inverterId := "I2492100573";
              Weekly.beneficiaryName := "RAHUL SHARMA";
              Weekly.capacity := of_Z 3;
              Weekly.selected := true |} ].
Proof.
  intros rows header. repeat split.
  - unfold forEachIdx. now rewrite (forEach_rows _ _ cron_loadRow).
  - unfold Weekly.fetchInverterList, forEachIdx.
    now rewrite (forEach_rows _ _ weekly_loadRow).
  - unfold AllGraph.fetchInverterDataFromSheet, forEachIdx.
    now rewrite (forEach_rows _ _ graph_loadRow).
Qed.

End RosterClaims.

(* ================================================================== *)
(** * The records of the daily pipelines *)

Module RecordFacts.
Import JS Vendor Http Request JSFacts DeltaFacts.

Lemma inWindow_inside (startStr endStr : str) (p : Daily.daily_point) :
  Daily.inWindow startStr endStr p = Spec.inside startStr endStr p.
Proof. reflexivity. Qed.

Lemma hasValue_sorted (dataArray : list item) :
  Forall hasValue dataArray -> Forall hasValue (Daily.sortedData dataArray).
Proof.
  intros H. eapply Permutation_Forall; [|exact H].
  apply Permutation_sym, sort_perm.
Qed.

(** The totals of the handler for an accepted answer. *)
Lemma cron_energyTotals (w : Cron.window) (energyData : history_response)
  (psKeyData dataPoint : str) (dataArray : list item)
  (devRest : device_data) (rdRest : list (str * device_data)) :
  result_code energyData = "1" ->
  result_data energyData
  = Some ((psKeyData, (dataPoint, Some dataArray) :: devRest) :: rdRest) ->
  psKeyData <> "" ->
  Cron.energyTotals w energyData
  = (Daily.totalKwh
       (Daily.filteredDailyData (Cron.dateRangeStartStr w) (Cron.dateRangeEndStr w)
          (Daily.dailyData (Daily.walk (Daily.sortedData dataArray)))),
     Daily.lifetimeOf (Daily.dailyData (Daily.walk (Daily.sortedData dataArray)))).
Proof.
  intros Hc Hd Hk. unfold Cron.energyTotals. rewrite Hc, Hd. simpl.
  destruct psKeyData; [congruence | reflexivity].
Qed.

Lemma weekly_energyTotals (dateRange : Weekly.date_range)
  (psKeyData dataPoint : str) (dataArray : list item)
  (devRest : device_data) (rdRest : list (str * device_data)) :
  psKeyData <> "" ->
  Weekly.energyTotals dateRange
    ((psKeyData, (dataPoint, Some dataArray) :: devRest) :: rdRest)
  = (Daily.dailyData (Daily.walk (Daily.sortedData dataArray)),
     Daily.totalKwh
       (Daily.filteredDailyData (removeHyphens (Weekly.startDate dateRange))
          (removeHyphens (Weekly.endDate dateRange))
          (Daily.dailyData (Daily.walk (Daily.sortedData dataArray))))).
Proof.
  intros Hk. unfold Weekly.energyTotals. simpl.
  destruct psKeyData; [congruence | reflexivity].
Qed.

(** The total of [reduce] is the sum of the deltas, taken in the order of
    the series. *)
Lemma totalKwh_sumOf (l : list Daily.daily_point) :
  Daily.totalKwh l = Daily.sumOf (map Daily.dailyKwh l).
Proof. apply fold_sum. Qed.

(** The sorted series holds the readings of the answer, in the order of
    their time stamps. *)
Lemma by_time_stamp_total (a b : item) :
  Daily.by_time_stamp a b = true \/ Daily.by_time_stamp b a = true.
Proof. unfold Daily.by_time_stamp, str_le. apply String.leb_total. Qed.

Lemma sortedData_sorted (dataArray : list item) :
  sorted Daily.by_time_stamp (Daily.sortedData dataArray) = true.
Proof. apply sort_is_sorted, by_time_stamp_total. Qed.

Lemma sortedData_perm (dataArray : list item) :
  Permutation (Daily.sortedData dataArray) dataArray.
Proof. apply sort_perm. Qed.

(** The delta points of a series of valued readings. *)
Lemma dailyData_deltaSeries (dataArray : list item) :
  Forall hasValue dataArray ->
  Daily.dailyData (Daily.walk (Daily.sortedData dataArray))
  = Daily.deltaSeries (Daily.sortedData dataArray).
Proof.
  intros H. now rewrite (walk_series _ (hasValue_sorted _ H)).
Qed.

(** A series of one reading or none has no delta point. *)
Lemma single_reading_no_delta (sortedItems : list item) :
  (List.length sortedItems <= 1)%nat ->
  Daily.dailyData (Daily.walk sortedItems) = [].
Proof.
  destruct sortedItems as [|it [|it' r]]; simpl; intros H; try lia.
  - reflexivity.
  - unfold Daily.walk, forEachIdx. simpl. unfold Daily.step.
    now destruct (valueKey it).
Qed.

(** With two valued readings or more, the lifetime value is the last
    reading of the sorted series. *)
Lemma lifetime_last_reading (sortedItems front : list item) (it : item) :
  sortedItems = front ++ [it] ->
  front <> [] ->
  Forall hasValue sortedItems ->
  Daily.lifetimeOf (Daily.dailyData (Daily.walk sortedItems)) = cumulative it.
Proof.
  intros -> Hne Hv. rewrite (walk_series _ Hv). cbn [Daily.dailyData].
  destruct front as [|x r]; [congruence|].
  simpl app. cbn [Daily.deltaSeries].
  unfold Daily.lifetimeOf. now rewrite deltasFrom_last.
Qed.

(** What the handler returns for an inverter was built from an answer of
    the history endpoint. *)
Lemma cron_record_inversion (deviceApi : device_api) (energyApi : history_api)
  (w : Cron.window) (inv : Cron.inverter) (rec : Cron.record) :
  Cron.processInverter deviceApi energyApi w inv = Some rec ->
  exists (key : str) (energyRes : response history_response)
         (energyData : history_response),
    energyApi (Cron.energyRequest w key) = Ok energyRes
    /\ json energyRes = Ok energyData
    /\ rec = Cron.makeRecord inv (Cron.energyTotals w energyData).
Proof.
  unfold Cron.processInverter. intros H.
  destruct (deviceApi (Cron.deviceRequest inv)) as [deviceRes|]; [|discriminate].
  destruct (negb (ok deviceRes)); [discriminate|].
  destruct (json deviceRes) as [deviceData|]; [|discriminate].
  destruct (match Device.device_point_list deviceData with
            | Some l => Device.find_ps_key l
            | None => None
            end) as [key|]; [|discriminate].
  destruct (truthy_str key); [|discriminate].
  destruct (energyApi (Cron.energyRequest w key)) as [energyRes|] eqn:He;
    [|discriminate].
  destruct (negb (ok energyRes)); [discriminate|].
  destruct (json energyRes) as [energyData|] eqn:Hj; [|discriminate].
  inversion H; subst. exists key, energyRes, energyData. now repeat split.
Qed.

End RecordFacts.

Module RecordClaims.
Import JS Vendor Http Request JSFacts DeltaFacts RecordFacts.

(** C2, as it is written, fails where the total has more than two
    decimals: two readings 1234 watt-hours apart give a delta of 1.234 kWh
    and a reported total of 1.23.  It also fails where the series has a
    single reading, of 5 kWh here: no delta point remains and the lifetime
    value is 0. *)
Lemma reported_total_is_rounded :
  let w := Cron.windowOf Samples.utc Samples.march8 in
  let deltas :=
    Daily.dailyData (Daily.walk (Daily.sortedData Samples.two_readings)) in
  let rec :=
    Cron.makeRecord Samples.rahul
      (Cron.energyTotals w (Samples.history Samples.two_readings)) in
  Daily.sumOf
    (map Daily.dailyKwh
       (filter (Spec.inside (Cron.dateRangeStartStr w) (Cron.dateRangeEndStr w))
          deltas))
  = parseFloat "1.234"
  /\ Cron.totalKwh rec = parseFloat "1.23"
  /\ Cron.totalKwh rec
     <> Daily.sumOf
          (map Daily.dailyKwh
             (filter (Spec.inside (Cron.dateRangeStartStr w)
                        (Cron.dateRangeEndStr w)) deltas))
  /\ Cron.lifetimeGeneration
       (Cron.makeRecord Samples.rahul
          (Cron.energyTotals w (Samples.history Samples.one_reading))) = zero
  /\ cumulative (Samples.reading "20240302" "5000") = of_Z 5.
Proof.
  vm_compute. repeat split; discriminate.
Qed.

(** C2 (amended).  For an accepted answer the series that is walked holds
    the readings of the answer in the order of their time stamps.  The
    reported total is the sum, taken from 0 in the order of the series, of
    the deltas of exactly the delta points whose date, cut to eight
    characters, lies in the window of the caller under string comparison,
    rounded by [toFixed(2)].  The lifetime value is the cumulative value of
    the last point of the unfiltered delta series, whatever the window:
    for two valued readings or more the last reading of the sorted series,
    and 0 for a series of one reading or none. *)
Theorem totals_of_a_fetched_series :
  forall (w : Cron.window) (inv : Cron.inverter) (energyData : history_response)
         (dateRange : Weekly.date_range) (inverter : Weekly.inverter)
         (key : str) (daysInRange : Z)
         (psKeyData dataPoint : str) (dataArray : list item)
         (devRest : device_data) (rdRest : list (str * device_data)),
    result_code energyData = "1" ->
    result_data energyData
    = Some ((psKeyData, (dataPoint, Some dataArray) :: devRest) :: rdRest) ->
    psKeyData <> "" ->
    let series := Daily.sortedData dataArray in
    let deltas := Daily.dailyData (Daily.walk series) in
    let rec := Cron.makeRecord inv (Cron.energyTotals w energyData) in
    let res :=
      Weekly.successRecord inverter key daysInRange
        (Weekly.energyTotals dateRange
           ((psKeyData, (dataPoint, Some dataArray) :: devRest) :: rdRest)) in
    Permutation series dataArray
    /\ sorted Daily.by_time_stamp series = true
    /\ (Forall hasValue dataArray -> deltas = Daily.deltaSeries series)
    /\ Cron.totalKwh rec
       = toFixed 2
           (Daily.sumOf
              (map Daily.dailyKwh
                 (filter (Spec.inside (Cron.dateRangeStartStr w)
                            (Cron.dateRangeEndStr w)) deltas)))
    /\ Weekly.totalKwh res
       = toFixed 2
           (Daily.sumOf
              (map Daily.dailyKwh
                 (filter (Spec.inside (removeHyphens (Weekly.startDate dateRange))
                            (removeHyphens (Weekly.endDate dateRange)))
                    deltas)))
    /\ (forall p : Daily.daily_point,
          lastOf deltas = Some p ->
          Cron.lifetimeGeneration rec = Daily.cumulativeKwh p
          /\ Weekly.lifetimeGeneration res = Some (Daily.cumulativeKwh p))
    /\ (forall (front : list item) (it : item),
          series = front ++ [it] ->
          front <> [] ->
          Forall hasValue dataArray ->
          Cron.lifetimeGeneration rec = cumulative it
          /\ Weekly.lifetimeGeneration res = Some (cumulative it))
    /\ ((List.length dataArray <= 1)%nat ->
        Cron.lifetimeGeneration rec = zero
        /\ Weekly.lifetimeGeneration res = Some zero).
Proof.
  intros w inv energyData dateRange inverter key daysInRange psKeyData dataPoint
    dataArray devRest rdRest Hc Hd Hk series deltas rec res.
  subst rec res.
  rewrite (cron_energyTotals w energyData psKeyData dataPoint dataArray devRest
             rdRest Hc Hd Hk).
  rewrite (weekly_energyTotals dateRange psKeyData dataPoint dataArray devRest
             rdRest Hk).
  fold series. fold deltas.
  cbn [Cron.makeRecord Cron.totalKwh Cron.lifetimeGeneration
       Weekly.successRecord Weekly.totalKwh Weekly.lifetimeGeneration].
  split; [apply sortedData_perm|].
  split; [apply sortedData_sorted|].
  split; [apply dailyData_deltaSeries|].
  split; [now rewrite totalKwh_sumOf|].
  split; [now rewrite totalKwh_sumOf|].
  split; [|split].
  - intros p Hp. unfold Daily.lifetimeOf. now rewrite Hp.
  - intros front it Hs Hne Hv. subst deltas.
    rewrite (lifetime_last_reading _ front it Hs Hne (hasValue_sorted _ Hv)).
    now split.
  - intros Hlen. subst deltas.
    rewrite single_reading_no_delta.
    + now split.
    + subst series. unfold Daily.sortedData. now rewrite sort_length.
Qed.

Lemma totals_of_a_fetched_series_witness :
  Cron.totalKwh
    (Cron.makeRecord Samples.rahul
       (Cron.energyTotals (Cron.windowOf Samples.utc Samples.march8)
          (Samples.history Samples.two_readings)))
  = parseFloat "1.23"
  /\ Cron.lifetimeGeneration
       (Cron.makeRecord Samples.rahul
          (Cron.energyTotals (Cron.windowOf Samples.utc Samples.march8)
             (Samples.history Samples.two_readings)))
     = parseFloat "1.234".
Proof.
  destruct (totals_of_a_fetched_series
              (Cron.windowOf Samples.utc Samples.march8) Samples.rahul
              (Samples.history Samples.two_readings) Samples.first_week
              Samples.rahul_weekly "1_1_1_1" 8 "1_1_1_1" "p2"
              Samples.two_readings [] [] eq_refl eq_refl)
    as [_ [_ [_ [Ht [_ [_ [Hl _]]]]]]].
  - discriminate.
  - split.
    + rewrite Ht. vm_compute. reflexivity.
    + destruct (Hl [Samples.reading "20240301" "0"]
                  (Samples.reading "20240302" "1234")) as [H _].
      * reflexivity.
      * discriminate.
      * repeat constructor; unfold hasValue; discriminate.
      * rewrite H. vm_compute. reflexivity.
Defined.

(** A delta of 1005 watt-hours is reported as 1: the number nearest to
    1.005 lies below it. *)
Example total_of_1005_watt_hours :
  Cron.totalKwh
    (Cron.makeRecord Samples.rahul
       (Cron.energyTotals (Cron.windowOf Samples.utc Samples.march8)
          (Samples.history
             [ Samples.reading "20240301" "0";
               Samples.reading "20240302" "1005" ])))
  = of_Z 1.
Proof. vm_compute. reflexivity. Qed.

(** C4.  The specific yield that each daily pipeline computes for a record
    is the average daily energy divided by the capacity when the capacity
    is greater than 0, and it is 0 otherwise, thus when the capacity is at
    most 0; the average is the total of the window divided by the days of
    the range.  The record stores that value through [toFixed(3)], which
    leaves a 0 as it is; the error records of the weekly page carry 0. *)
Theorem specific_yield_of_a_record :
  forall (inv : Cron.inverter) (totalKwh lifetimeGeneration : number)
         (inverter : Weekly.inverter) (key : str) (daysInRange : Z)
         (dailyData : list Daily.daily_point) (weeklyTotal : number)
         (psKey : option str) (message : str),
    let l := Cron.localsOf inv totalKwh in
    let rec := Cron.makeRecord inv (totalKwh, lifetimeGeneration) in
    let wl := Weekly.localsOf inverter daysInRange weeklyTotal in
    let res :=
      Weekly.successRecord inverter key daysInRange (dailyData, weeklyTotal) in
    ((gt0 (Cron.capacity inv) = true ->
      Cron.local_specYield l
      = div (Cron.local_avgDailyKwh l) (Cron.capacity inv))
     /\ (gt0 (Cron.capacity inv) = false ->
         Cron.local_specYield l = zero /\ Cron.specYield rec = zero)
     /\ (le (Cron.capacity inv) zero = true -> gt0 (Cron.capacity inv) = false)
     /\ Cron.local_avgDailyKwh l = div totalKwh (of_Z 8)
     /\ Cron.specYield rec = toFixed 3 (Cron.local_specYield l))
    /\ ((gt0 (Weekly.capacity inverter) = true ->
         Weekly.local_specYield wl
         = div (Weekly.local_avgDailyKwh wl) (Weekly.capacity inverter))
        /\ (gt0 (Weekly.capacity inverter) = false ->
            Weekly.local_specYield wl = zero /\ Weekly.specYield res = zero)
        /\ (le (Weekly.capacity inverter) zero = true ->
            gt0 (Weekly.capacity inverter) = false)
        /\ Weekly.local_avgDailyKwh wl
           = (if 0 <? daysInRange then div weeklyTotal (of_Z daysInRange)
              else zero)
        /\ Weekly.specYield res = toFixed 3 (Weekly.local_specYield wl))
    /\ Weekly.specYield (Weekly.errorRecord inverter psKey message daysInRange)
       = zero.
Proof.
  intros inv totalKwh lifetimeGeneration inverter key daysInRange dailyData
    weeklyTotal psKey message l rec wl res.
  subst l rec wl res.
  cbn [Cron.makeRecord Cron.localsOf Cron.specYield Cron.local_specYield
       Cron.local_avgDailyKwh Weekly.successRecord Weekly.localsOf
       Weekly.specYield Weekly.local_specYield Weekly.local_avgDailyKwh
       Weekly.errorRecord].
  split; [|split; [|reflexivity]].
  - split; [now intros ->|]. split; [intros ->; now split|].
    split; [apply le0_not_gt0|]. now split.
  - split; [now intros ->|]. split; [intros ->; now split|].
    split; [apply le0_not_gt0|]. now split.
Qed.

(** With 1.1 kWh in the window and 3 kW the yield is 1.1 / 8 / 3, stored as
    0.046; with a capacity of -3 kW it is 0. *)
Lemma specific_yield_of_a_record_witness :
  Cron.local_specYield (Cron.localsOf Samples.rahul (parseFloat "1.1"))
  = div (div (parseFloat "1.1") (of_Z 8)) (of_Z 3)
  /\ Cron.specYield (Cron.makeRecord Samples.rahul (parseFloat "1.1", zero))
     = parseFloat "0.046"
  /\ Cron.specYield
       (Cron.makeRecord
          {| Cron.serialNo := "49";
             Cron.inverterId := "I2492100573";
             Cron.beneficiaryName := "RAHUL SHARMA";
             Cron.capacity := parseFloat "-3" |} (parseFloat "1.1", zero))
     = zero.
Proof.
  destruct (specific_yield_of_a_record Samples.rahul (parseFloat "1.1") zero
              Samples.rahul_weekly "1_1_1_1" 8 [] (parseFloat "1.1") None "none")
    as [[Hpos [_ [_ [Havg Hrec]]]] _].
  destruct (specific_yield_of_a_record
              {| Cron.serialNo := "49";
                 Cron.inverterId := "I2492100573";
                 Cron.beneficiaryName := "RAHUL SHARMA";
                 Cron.capacity := parseFloat "-3" |} (parseFloat "1.1") zero
              Samples.rahul_weekly "1_1_1_1" 8 [] (parseFloat "1.1") None "none")
    as [[_ [Hneg [Hle _]]] _].
  split; [|split].
  - rewrite (Hpos eq_refl), Havg. reflexivity.
  - rewrite Hrec, (Hpos eq_refl), Havg. vm_compute. reflexivity.
  - apply Hneg. apply Hle. reflexivity.
Defined.

(** C10.  Every record of the handler has 8 days in range, whatever the
    vendor returned, and the average that the handler computes is the total
    of the window divided by 8; the record stores the total and the average
    through [toFixed(2)]. *)
Theorem cron_days_in_range_is_eight :
  forall (deviceApi : device_api) (energyApi : history_api) (w : Cron.window)
         (inv : Cron.inverter) (rec : Cron.record),
    Cron.processInverter deviceApi energyApi w inv = Some rec ->
    Cron.daysInRange rec = 8
    /\ exists (key : str) (energyRes : response history_response)
              (energyData : history_response),
         energyApi (Cron.energyRequest w key) = Ok energyRes
         /\ json energyRes = Ok energyData
         /\ Cron.local_daysInRange
              (Cron.localsOf inv (fst (Cron.energyTotals w energyData))) = 8
         /\ Cron.local_avgDailyKwh
              (Cron.localsOf inv (fst (Cron.energyTotals w energyData)))
            = div (fst (Cron.energyTotals w energyData)) (of_Z 8)
         /\ Cron.totalKwh rec = toFixed 2 (fst (Cron.energyTotals w energyData))
         /\ Cron.avgDailyKwh rec
            = toFixed 2 (div (fst (Cron.energyTotals w energyData)) (of_Z 8)).
Proof.
  intros deviceApi energyApi w inv rec H.
  destruct (cron_record_inversion _ _ _ _ _ H)
    as [key [energyRes [energyData [He [Hj ->]]]]].
  destruct (Cron.energyTotals w energyData) as [total lifetime] eqn:Et.
  split; [reflexivity|].
  exists key, energyRes, energyData. rewrite Et.
  repeat split; assumption.
Qed.

(** A window total of 0.6 kWh gives an average that is stored as 0.07: the
    quotient 0.6 / 8 lies below 0.075. *)
Lemma cron_days_in_range_is_eight_witness :
  exists rec : Cron.record,
    Cron.processInverter (fun _ => Samples.answer Samples.with_key)
      (fun _ => Samples.answer (Samples.history Samples.two_readings_600))
      (Cron.windowOf Samples.utc Samples.march8) Samples.rahul = Some rec
    /\ Cron.daysInRange rec = 8
    /\ Cron.avgDailyKwh rec = parseFloat "0.07".
Proof.
  eexists. split; [vm_compute; reflexivity|].
  destruct (cron_days_in_range_is_eight
              (fun _ => Samples.answer Samples.with_key)
              (fun _ => Samples.answer (Samples.history Samples.two_readings_600))
              (Cron.windowOf Samples.utc Samples.march8) Samples.rahul _ eq_refl)
    as [Hd _].
  split; [exact Hd|]. vm_compute. reflexivity.
Defined.

End RecordClaims.

(* ================================================================== *)
(** * An inverter without a device key *)

Module KeyFacts.
Import JS Vendor Http Request JSFacts.

(** The weekly page, for an accepted device answer without a key. *)
Lemma weekly_no_key (deviceApi : device_api) (energyApi : history_api)
  (inverters : list Weekly.inverter) (psKeyCache : Weekly.cache)
  (dates : Weekly.api_dates) (dateRange : Weekly.date_range) (daysInRange : Z)
  (i : nat) (inverterId : str) (inverter : Weekly.inverter)
  (deviceRes : response Device.device_response)
  (deviceData : Device.device_response) (l : list Device.entry) :
  find (fun inv => String.eqb (Weekly.inverterId inv) inverterId) inverters
  = Some inverter ->
  Weekly.cached psKeyCache inverterId = None ->
  deviceApi (Weekly.deviceRequest inverterId) = Ok deviceRes ->
  ok deviceRes = true ->
  json deviceRes = Ok deviceData ->
  Device.result_code deviceData = "1" ->
  Device.device_point_list deviceData = Some l ->
  Device.find_ps_key l = None ->
  Weekly.processInverter deviceApi energyApi inverters psKeyCache dates dateRange
    daysInRange i inverterId
  = (Some (Weekly.errorRecord inverter None "No PS Key found" daysInRange), None).
Proof.
  intros Hf Hc Hd Hok Hj Hrc Hl Hk.
  unfold Weekly.processInverter, Weekly.tryInverter.
  now rewrite Hf, Hc, Hd, Hok, Hj, Hrc, Hl, Hk.
Qed.

Lemma cached_cons (c : Weekly.cache) (k v inverterId : str) :
  k <> inverterId ->
  Weekly.cached ((k, v) :: c) inverterId = Weekly.cached c inverterId.
Proof.
  intros H. unfold Weekly.cached. simpl.
  destruct (String.eqb_spec k inverterId); [contradiction | reflexivity].
Qed.

Lemma storeKeys_other (inverterId : str) (kws : list (str * option str)) :
  (forall k w, In (k, Some w) kws -> k <> inverterId) ->
  forall c : Weekly.cache,
    Weekly.cached c inverterId = None ->
    Weekly.cached
      (fold_left (fun c kw => match kw with
                              | (k, Some key) => (k, key) :: c
                              | (_, None) => c
                              end) kws c) inverterId = None.
Proof.
  induction kws as [|[k [w|]] r IH]; intros H c Hc; simpl.
  - exact Hc.
  - apply IH.
    + intros k' w' Hin. apply (H k' w'). now right.
    + rewrite cached_cons; [exact Hc|]. apply (H k w). now left.
  - apply IH; [|exact Hc].
    intros k' w' Hin. apply (H k' w'). now right.
Qed.

Lemma combine_map_In {A B : Type} (f : A -> B) (l : list A) (a : A) (b : B) :
  In (a, b) (combine l (map f l)) -> b = f a.
Proof.
  induction l as [|x r IH]; simpl; intros H.
  - contradiction.
  - destruct H as [H|H]; [now inversion H | now apply IH].
Qed.

Lemma somes_In {A : Type} (l : list (option A)) (a : A) :
  In (Some a) l -> In a (Weekly.somes l).
Proof.
  intros H. unfold Weekly.somes. apply in_flat_map.
  exists (Some a). split; [exact H | now left].
Qed.

Section Loop.
Context (deviceApi : device_api) (energyApi : history_api)
  (inverters : list Weekly.inverter) (dates : Weekly.api_dates)
  (dateRange : Weekly.date_range) (selectedInverters : list str).

(** What is in the results stays in the results. *)
Lemma fetchLoop_keeps (fuel : nat) :
  forall (i : nat) (psKeyCache : Weekly.cache) (results : list Weekly.result)
         (r : Weekly.result),
    In r results ->
    In r (fst (Weekly.fetchLoop fuel deviceApi energyApi inverters dates
                 dateRange selectedInverters i psKeyCache results)).
Proof.
  induction fuel as [|fuel IH]; intros i psKeyCache results r H; simpl.
  - exact H.
  - destruct (i <? List.length selectedInverters)%nat; [|exact H].
    apply IH. apply in_or_app. now left.
Qed.

(** An inverter whose every device call ends without a key and with the
    same entry has that entry in the results. *)
Lemma fetchLoop_contains (inverterId : str) (r : Weekly.result) :
  (forall (i : nat) (psKeyCache : Weekly.cache),
      Weekly.cached psKeyCache inverterId = None ->
      Weekly.processInverter deviceApi energyApi inverters psKeyCache dates
        dateRange (Weekly.calculateDaysInRange dateRange) i inverterId
      = (Some r, None)) ->
  forall (fuel i : nat) (psKeyCache : Weekly.cache) (results : list Weekly.result),
    Weekly.cached psKeyCache inverterId = None ->
    In inverterId (skipn i selectedInverters) ->
    (List.length selectedInverters < fuel + i)%nat ->
    In r (fst (Weekly.fetchLoop fuel deviceApi energyApi inverters dates
                 dateRange selectedInverters i psKeyCache results)).
Proof.
  intros Hp. induction fuel as [|fuel IH]; intros i psKeyCache results Hc Hin Hfuel.
  - simpl in Hfuel.
    rewrite skipn_all2 in Hin by lia. contradiction.
  - cbn [Weekly.fetchLoop].
    destruct (i <? List.length selectedInverters)%nat eqn:Hi.
    + rewrite <- (firstn_skipn 10 (skipn i selectedInverters)) in Hin.
      apply in_app_or in Hin as [Hin|Hin].
      * apply fetchLoop_keeps. apply in_or_app. right.
        apply somes_In. rewrite map_map.
        apply in_map_iff. exists inverterId. split; [|exact Hin].
        now rewrite (Hp i psKeyCache Hc).
      * apply IH.
        -- unfold Weekly.storeKeys. apply storeKeys_other; [|exact Hc].
           intros k w Hkw Heq. subst k.
           rewrite map_map in Hkw.
           apply combine_map_In in Hkw.
           rewrite (Hp i psKeyCache Hc) in Hkw. discriminate.
        -- rewrite skipn_skipn in Hin. now rewrite Nat.add_comm.
        -- lia.
    + apply Nat.ltb_ge in Hi.
      rewrite skipn_all2 in Hin by lia. contradiction.
Qed.

End Loop.

(** The handler, for a device answer without a key. *)
Lemma cron_no_key (deviceApi : device_api) (energyApi : history_api)
  (w : Cron.window) (inv : Cron.inverter)
  (deviceRes : response Device.device_response)
  (deviceData : Device.device_response) (l : list Device.entry) :
  deviceApi (Cron.deviceRequest inv) = Ok deviceRes ->
  json deviceRes = Ok deviceData ->
  Device.device_point_list deviceData = Some l ->
  Device.find_ps_key l = None ->
  Cron.processInverter deviceApi energyApi w inv = None.
Proof.
  intros Hd Hj Hl Hk. unfold Cron.processInverter.
  rewrite Hd, Hj, Hl, Hk. now destruct (negb (ok deviceRes)).
Qed.

End KeyFacts.

Module KeyClaims.
Import JS Vendor Http Request JSFacts KeyFacts.

(** C7, as it is written, fails in the handler: an inverter whose device
    answer holds no key gives no record at all. *)
Lemma cron_drops_inverter_without_key :
  Cron.processInverter (fun _ => Samples.answer Samples.no_key)
    Samples.no_history (Cron.windowOf Samples.utc Samples.march8) Samples.rahul = None
  /\ Cron.collect (fun _ => Samples.answer Samples.no_key) Samples.no_history
       (Cron.windowOf Samples.utc Samples.march8) [Samples.rahul] = [].
Proof.
  split; reflexivity.
Qed.

(** C7 (amended).  On the weekly page an inverter of the roster whose
    device answer is accepted and holds no key has, in the results, a
    record with the error "No PS Key found" and zero metrics; nothing is
    thrown and the inverter is not dropped.  In the handler such an
    inverter gives no record: it is left out of the collected data,
    without a thrown error. *)
Theorem missing_key_of_each_path :
  forall (tz : Calendar.zone) (deviceApi : device_api) (energyApi : history_api)
         (inverters : list Weekly.inverter) (cachedPsKeys : Weekly.cache)
         (dateRange : Weekly.date_range) (selectedInverters : list str)
         (inverter : Weekly.inverter) (w : Cron.window) (inv : Cron.inverter)
         (rest : list Cron.inverter)
         (deviceRes : response Device.device_response)
         (deviceData : Device.device_response) (l : list Device.entry),
    find (fun i => String.eqb (Weekly.inverterId i) (Cron.inverterId inv))
         inverters = Some inverter ->
    Weekly.cached cachedPsKeys (Cron.inverterId inv) = None ->
    In (Cron.inverterId inv) selectedInverters ->
    Calendar.newDate (Weekly.startDate dateRange) <> None ->
    Calendar.newDate (Weekly.endDate dateRange) <> None ->
    deviceApi {| sn_list := [Cron.inverterId inv] |} = Ok deviceRes ->
    ok deviceRes = true ->
    json deviceRes = Ok deviceData ->
    Device.result_code deviceData = "1" ->
    Device.device_point_list deviceData = Some l ->
    Device.find_ps_key l = None ->
    (exists (results : list Weekly.result) (cache : Weekly.cache)
            (r : Weekly.result),
        Weekly.fetchPerformanceData tz deviceApi energyApi inverters dateRange
          selectedInverters cachedPsKeys = Ok (results, cache)
        /\ In r results
        /\ Weekly.inv r = inverter
        /\ Weekly.error r = Some "No PS Key found"
        /\ Weekly.totalKwh r = zero
        /\ Weekly.avgDailyKwh r = zero
        /\ Weekly.specYield r = zero
        /\ Weekly.dailyData r = [])
    /\ Cron.processInverter deviceApi energyApi w inv = None
    /\ Cron.collect deviceApi energyApi w (inv :: rest)
       = Cron.collect deviceApi energyApi w rest.
Proof.
  intros tz deviceApi energyApi inverters cachedPsKeys dateRange
    selectedInverters inverter w inv rest deviceRes deviceData l
    Hf Hc Hin Hsd Hed Hd Hok Hj Hrc Hl Hk.
  assert (Hcron : Cron.processInverter deviceApi energyApi w inv = None)
    by now apply cron_no_key with (deviceRes := deviceRes)
                                  (deviceData := deviceData) (l := l).
  split; [|split; [exact Hcron | cbn [Cron.collect]; now rewrite Hcron]].
  unfold Weekly.fetchPerformanceData, Weekly.apiDates.
  destruct (Calendar.newDate (Weekly.startDate dateRange)) as [s|]; [|congruence].
  destruct (Calendar.newDate (Weekly.endDate dateRange)) as [e|]; [|congruence].
  set (dates := {| Weekly.apiStartDate := _; Weekly.apiEndDate := _ |}).
  set (r := Weekly.errorRecord inverter None "No PS Key found"
              (Weekly.calculateDaysInRange dateRange)).
  destruct (Weekly.fetchLoop (S (List.length selectedInverters)) deviceApi
              energyApi inverters dates dateRange selectedInverters 0
              cachedPsKeys []) as [results cache] eqn:E.
  exists results, cache, r.
  split; [reflexivity|]. split; [|now repeat split].
  change results with (fst (results, cache)). rewrite <- E.
  apply fetchLoop_contains with (inverterId := Cron.inverterId inv).
  - intros i psKeyCache Hcache.
    now apply weekly_no_key with (deviceRes := deviceRes)
                                 (deviceData := deviceData) (l := l).
  - exact Hc.
  - exact Hin.
  - lia.
Qed.

Lemma missing_key_of_each_path_witness :
  exists (results : list Weekly.result) (cache : Weekly.cache),
    Weekly.fetchPerformanceData Samples.utc
      (fun _ => Samples.answer Samples.no_key)
      Samples.no_history [Samples.rahul_weekly] Samples.first_week
      ["I2492100573"] [] = Ok (results, cache)
    /\ In Samples.failed_result results.
Proof.
  destruct (missing_key_of_each_path Samples.utc
              (fun _ => Samples.answer Samples.no_key)
              Samples.no_history [Samples.rahul_weekly] []
              Samples.first_week ["I2492100573"] Samples.rahul_weekly
              (Cron.windowOf Samples.utc Samples.march8) Samples.rahul []
              {| ok := true; status := 200; json := Ok Samples.no_key |}
              Samples.no_key [])
    as [[results [cache [r [Hr [Hin _]]]]] _];
    try reflexivity; try discriminate.
  - now left.
  - exists results, cache. split; [exact Hr|].
    vm_compute in Hr. inversion Hr; subst. now left.
Defined.

End KeyClaims.

(* ================================================================== *)
(** * The sync writer *)

Module SyncFacts.
Import JS Http JSFacts.

Lemma pushRow_rowOf (dateRange : Weekly.date_range)
  (syncData : list Weekly.sync_row) (item : Weekly.result) :
  Weekly.pushRow dateRange syncData item
  = syncData ++ (if negb (Weekly.hasError item)
                 then [Spec.rowOf dateRange item] else []).
Proof.
  unfold Weekly.pushRow.
  destruct (negb (Weekly.hasError item)); [reflexivity | now rewrite app_nil_r].
Qed.

Lemma fold_pushRow (dateRange : Weekly.date_range) (l : list Weekly.result) :
  forall syncData : list Weekly.sync_row,
    fold_left (Weekly.pushRow dateRange) l syncData
    = syncData
      ++ map (Spec.rowOf dateRange)
           (filter (fun item => negb (Weekly.hasError item)) l).
Proof.
  induction l as [|item r IH]; intros syncData; simpl.
  - now rewrite app_nil_r.
  - rewrite IH, pushRow_rowOf.
    destruct (negb (Weekly.hasError item)); simpl.
    + now rewrite <- app_assoc.
    + now rewrite app_nil_r.
Qed.

(** The payload holds the rows of the records without an error, in order. *)
Lemma syncDataOf_rows (dateRange : Weekly.date_range)
  (performanceData : list Weekly.result) :
  Weekly.syncDataOf dateRange performanceData
  = map (Spec.rowOf dateRange)
      (filter (fun item => negb (Weekly.hasError item)) performanceData).
Proof. unfold Weekly.syncDataOf. now rewrite fold_pushRow. Qed.

Lemma posts_app (t1 t2 : list Weekly.effect) :
  Weekly.posts (t1 ++ t2) = Weekly.posts t1 ++ Weekly.posts t2.
Proof. unfold Weekly.posts. apply flat_map_app. Qed.

(** Every path of the writer that reaches the endpoint sends one request,
    with the payload computed before. *)
Lemma sync_posts (sheetApi : Weekly.sheet_api)
  (performanceData : list Weekly.result) (dateRange : Weekly.date_range) :
  Weekly.posts (snd (Weekly.handleSyncCSVFormat sheetApi performanceData dateRange))
  = match Weekly.syncDataOf dateRange performanceData with
    | [] => []
    | syncData =>
        [ {| Weekly.action := "syncCSVFormat";
             Weekly.sheetName := "Weekly_Performance_Logs";
             Weekly.dateRangeStart :=
               Weekly.formatDateToDDMMYYYY (Weekly.startDate dateRange);
             Weekly.dateRangeEnd :=
               Weekly.formatDateToDDMMYYYY (Weekly.endDate dateRange);
             Weekly.data := syncData |} ]
    end.
Proof.
  unfold Weekly.handleSyncCSVFormat.
  destruct performanceData as [|item r]; [reflexivity|].
  destruct (Weekly.syncDataOf dateRange (item :: r)) as [|row rows];
    [reflexivity|].
  match goal with
  | |- context [sheetApi ?req] => destruct (sheetApi req) as [response|m]
  end; [|reflexivity].
  destruct (negb (ok response)); [reflexivity|].
  destruct (json response) as [result|m]; [|reflexivity].
  destruct (Weekly.answer_success result); reflexivity.
Qed.

(** With nothing left to send the writer fails and shows an error. *)
Lemma sync_nothing_left (sheetApi : Weekly.sheet_api)
  (performanceData : list Weekly.result) (dateRange : Weekly.date_range) :
  Weekly.syncDataOf dateRange performanceData = [] ->
  Weekly.handleSyncCSVFormat sheetApi performanceData dateRange
  = match performanceData with
    | [] =>
        ({| Weekly.success := false; Weekly.sync_error := None |},
         [Weekly.Toast "No performance data available to sync" "error"])
    | _ =>
        ({| Weekly.success := false;
            Weekly.sync_error :=
              Some "No valid data to sync (all records have errors)" |},
         [Weekly.Toast "Syncing data in CSV format to Google Sheets..." "info";
          Weekly.Toast
            "CSV Sync Failed: No valid data to sync (all records have errors)"
            "error"])
    end.
Proof.
  intros H. unfold Weekly.handleSyncCSVFormat.
  destruct performanceData as [|item r]; [reflexivity|].
  now rewrite H.
Qed.

End SyncFacts.

Module SyncClaims.
Import JS Http JSFacts SyncFacts.

(** C6.  The payload of a request to the sheet endpoint holds the rows of
    exactly the records without an error, in order.  When no record is
    left the sync fails, an error is shown and no request is made; when
    all records carry errors the error says that there is no valid data
    to sync. *)
Theorem sync_excludes_errors_and_fails_fast :
  forall (sheetApi : Weekly.sheet_api) (performanceData : list Weekly.result)
         (dateRange : Weekly.date_range),
    let out := Weekly.handleSyncCSVFormat sheetApi performanceData dateRange in
    let kept := filter (fun item => negb (Weekly.hasError item)) performanceData in
    (forall request : Weekly.sync_request,
        In request (Weekly.posts (snd out)) ->
        Weekly.data request = map (Spec.rowOf dateRange) kept)
    /\ (List.length (Weekly.posts (snd out)) <= 1)%nat
    /\ (kept = [] ->
        Weekly.success (fst out) = false
        /\ Weekly.posts (snd out) = []
        /\ (performanceData = [] ->
            Weekly.errorToasts (snd out)
            = ["No performance data available to sync"])
        /\ (performanceData <> [] ->
            Weekly.sync_error (fst out)
            = Some "No valid data to sync (all records have errors)"
            /\ Weekly.errorToasts (snd out)
               = ["CSV Sync Failed: No valid data to sync (all records have errors)"])).
Proof.
  intros sheetApi performanceData dateRange out kept.
  assert (Hp := sync_posts sheetApi performanceData dateRange).
  fold out in Hp. rewrite syncDataOf_rows in Hp. fold kept in Hp.
  split; [|split].
  - intros request Hin. rewrite Hp in Hin.
    destruct (map (Spec.rowOf dateRange) kept) as [|row rows] eqn:E.
    + contradiction.
    + destruct Hin as [<-|[]]. reflexivity.
  - rewrite Hp. destruct (map (Spec.rowOf dateRange) kept); simpl; lia.
  - intros Hk.
    assert (Hs : Weekly.syncDataOf dateRange performanceData = []).
    { rewrite syncDataOf_rows. fold kept. now rewrite Hk. }
    subst out. rewrite (sync_nothing_left sheetApi _ _ Hs).
    destruct performanceData as [|item r]; simpl.
    + repeat split; congruence.
    + repeat split; congruence.
Qed.

Lemma sync_excludes_errors_and_fails_fast_witness :
  Weekly.success
    (fst (Weekly.handleSyncCSVFormat Samples.accepting [Samples.failed_result]
            Samples.first_week)) = false
  /\ Weekly.posts
       (snd (Weekly.handleSyncCSVFormat Samples.accepting [Samples.failed_result]
               Samples.first_week)) = [].
Proof.
  destruct (sync_excludes_errors_and_fails_fast Samples.accepting
              [Samples.failed_result] Samples.first_week)
    as [_ [_ H]].
  destruct (H eq_refl) as [Hs [Hp _]].
  split; [exact Hs | exact Hp].
Defined.

End SyncClaims.

(* ================================================================== *)
(** * The summary *)

Module SummaryFacts.
Import JS JSFacts.

(** The records that the summary counts are, up to their order, the
    records that qualify. *)
Lemma validData_perm (performanceData : list Weekly.result) (searchTerm : str)
  (sortBy : Weekly.sort_column) (desc : bool) :
  Permutation
    (filter (fun item => gt0 (Weekly.totalKwh item))
       (Weekly.filteredData performanceData searchTerm sortBy desc))
    (filter (Spec.qualifies searchTerm) performanceData).
Proof.
  unfold Weekly.filteredData.
  eapply perm_trans; [apply filter_perm, sort_perm|].
  replace (filter (Spec.qualifies searchTerm) performanceData)
    with (filter (fun item => gt0 (Weekly.totalKwh item))
            (if truthy_str searchTerm
             then filter (Weekly.matchesSearch (toLowerCase searchTerm))
                    (filter (fun item => negb (Weekly.hasError item))
                       performanceData)
             else filter (fun item => negb (Weekly.hasError item))
                    performanceData));
    [apply Permutation_refl|].
  unfold Spec.qualifies.
  destruct (truthy_str searchTerm); rewrite !filter_filter;
    apply filter_ext; intros item;
    destruct (negb (Weekly.hasError item)),
             (Weekly.matchesSearch (toLowerCase searchTerm) item),
             (gt0 (Weekly.totalKwh item)); reflexivity.
Qed.

Lemma reduceSum_sumOf (f : Weekly.result -> number) (l : list Weekly.result) :
  Weekly.reduceSum f l = Daily.sumOf (map f l).
Proof. apply fold_sum. Qed.

Lemma last_In {A : Type} (l : list A) (d : A) : l <> [] -> In (last l d) l.
Proof.
  induction l as [|a r IH]; intros H; [congruence|].
  destruct r as [|b r']; [now left|].
  right. apply IH. discriminate.
Qed.

Lemma hd_sort_In {A : Type} (le : A -> A -> bool) (l : list A) (d : A) :
  l <> [] -> In (hd d (sort le l)) l.
Proof.
  intros H. apply (Permutation_in _ (sort_perm le l)).
  destruct (sort le l) as [|b bs] eqn:E.
  - apply sort_nil_iff in E. contradiction.
  - now left.
Qed.

Lemma last_sort_In {A : Type} (le : A -> A -> bool) (l : list A) (d : A) :
  l <> [] -> In (last (sort le l) d) l.
Proof.
  intros H. apply (Permutation_in _ (sort_perm le l)). apply last_In.
  intros E. apply sort_nil_iff in E. contradiction.
Qed.

End SummaryFacts.

Module SummaryClaims.
Import JS JSFacts SummaryFacts.

(** C9.  The summary is computed over the records without an error and
    with a positive total that pass the search box, and over no other
    record: the list that the page sums holds every such record once and
    nothing else, and the figures are the sums and the means over that
    list, in the order of the page, each rounded by [toFixed].  When no
    record qualifies there is no summary, and a summary is never built from
    an empty selection. *)
Theorem summary_over_qualifying_records :
  forall (performanceData : list Weekly.result) (searchTerm : str)
         (sortBy : Weekly.sort_column) (desc : bool),
    let shown := Weekly.filteredData performanceData searchTerm sortBy desc in
    let stats := Weekly.summaryStats shown in
    let validData := filter (fun item => gt0 (Weekly.totalKwh item)) shown in
    let sel := filter (Spec.qualifies searchTerm) performanceData in
    Forall (fun item => Weekly.hasError item = false
                        /\ gt0 (Weekly.totalKwh item) = true) sel
    /\ (searchTerm = "" ->
        sel = filter (fun item => negb (Weekly.hasError item)
                                  && gt0 (Weekly.totalKwh item)) performanceData)
    /\ Permutation validData sel
    /\ (stats = None <-> sel = [])
    /\ ((forall item, In item performanceData ->
                      Weekly.hasError item = true
                      \/ gt0 (Weekly.totalKwh item) = false) ->
        stats = None)
    /\ (forall s : Weekly.summary,
          stats = Some s ->
          Weekly.totalInverters s = List.length sel
          /\ Weekly.sum_totalKwh s
             = toFixed 2 (Daily.sumOf (map Weekly.totalKwh validData))
          /\ Weekly.sum_avgDailyKwh s
             = toFixed 2 (div (Daily.sumOf (map Weekly.avgDailyKwh validData))
                            (of_Z (Z.of_nat (List.length sel))))
          /\ Weekly.sum_avgSpecYield s
             = toFixed 3 (div (Daily.sumOf (map Weekly.specYield validData))
                            (of_Z (Z.of_nat (List.length sel))))
          /\ Weekly.sum_totalCapacity s
             = toFixed 2
                 (Daily.sumOf
                    (map (fun item => Weekly.capacity (Weekly.inv item)) validData))
          /\ In (Weekly.bestPerformer s) sel
          /\ In (Weekly.worstPerformer s) sel).
Proof.
  intros performanceData searchTerm sortBy desc shown stats validData sel.
  pose proof (validData_perm performanceData searchTerm sortBy desc) as Hperm.
  fold shown in Hperm. fold validData in Hperm. fold sel in Hperm.
  assert (Hsel : Forall (fun item => Weekly.hasError item = false
                                     /\ gt0 (Weekly.totalKwh item) = true) sel).
  { apply Forall_forall. intros item Hin.
    apply filter_In in Hin as [_ Hq]. unfold Spec.qualifies in Hq.
    apply andb_prop in Hq as [Hq _]. apply andb_prop in Hq as [He Hg].
    split; [now destruct (Weekly.hasError item) | exact Hg]. }
  assert (Hnone : stats = None <-> sel = []).
  { subst stats. unfold Weekly.summaryStats. fold validData.
    destruct shown as [|x fd] eqn:Efd.
    - subst validData. simpl in Hperm. apply Permutation_nil in Hperm.
      now rewrite Hperm.
    - destruct validData as [|v vd] eqn:Ev.
      + apply Permutation_nil in Hperm. now rewrite Hperm.
      + split; [discriminate|]. intros Hs. rewrite Hs in Hperm.
        apply Permutation_sym, Permutation_nil in Hperm. discriminate. }
  split; [exact Hsel|].
  split; [|split; [exact Hperm | split; [exact Hnone | split]]].
  - intros ->. subst sel. apply filter_ext. intros item.
    unfold Spec.qualifies. simpl. now rewrite andb_true_r.
  - intros Hall. apply Hnone.
    destruct sel as [|item r] eqn:E; [reflexivity|].
    assert (Hin : In item (filter (Spec.qualifies searchTerm) performanceData))
      by (fold sel; rewrite E; now left).
    apply filter_In in Hin as [Hin _].
    inversion Hsel as [|? ? [He Hg] _]; subst.
    destruct (Hall item Hin) as [H|H]; congruence.
  - intros s Hs. subst stats. unfold Weekly.summaryStats in Hs.
    fold validData in Hs.
    destruct shown as [|x fd] eqn:Efd; [discriminate|].
    destruct validData as [|v vd] eqn:Ev; [discriminate|].
    inversion Hs; subst s; clear Hs.
    cbn [Weekly.totalInverters Weekly.sum_totalKwh Weekly.sum_avgDailyKwh
         Weekly.sum_avgSpecYield Weekly.sum_totalCapacity
         Weekly.bestPerformer Weekly.worstPerformer].
    assert (Hlen : List.length (v :: vd) = List.length sel)
      by exact (Permutation_length Hperm).
    unfold Weekly.count. rewrite !reduceSum_sumOf, Hlen.
    split; [exact Hlen|].
    do 4 (split; [reflexivity|]).
    split.
    + apply (Permutation_in _ Hperm).
      apply (hd_sort_In Weekly.by_yield (v :: vd) v). discriminate.
    + apply (Permutation_in _ Hperm).
      apply (last_sort_In Weekly.by_yield (v :: vd) v). discriminate.
Qed.

Lemma summary_over_qualifying_records_witness :
  Weekly.summaryStats
    (Weekly.filteredData [Samples.failed_result] "" Weekly.BySpecYield true)
  = None.
Proof.
  destruct (summary_over_qualifying_records [Samples.failed_result] ""
              Weekly.BySpecYield true) as [_ [_ [_ [_ [H _]]]]].
  apply H. intros item [<-|[]]. left. reflexivity.
Defined.

(** A failed record next to a record of 1.234 kWh over 8 days at 3 kW: the
    summary counts the second one only. *)
Example summary_of_one_good_record :
  option_map
    (fun s => (Weekly.totalInverters s, Weekly.sum_totalKwh s,
               Weekly.sum_avgDailyKwh s, Weekly.sum_avgSpecYield s,
               Weekly.sum_totalCapacity s))
    (Weekly.summaryStats
       (Weekly.filteredData [Samples.failed_result; Samples.good_result] ""
          Weekly.BySpecYield true))
  = Some (1%nat, parseFloat "1.23", parseFloat "0.15", parseFloat "0.051",
          of_Z 3).
Proof. vm_compute. reflexivity. Qed.

End SummaryClaims.

(* ================================================================== *)
(** * The login and its retries *)

Module LoginFacts.
Import JS JSFacts.

Lemma attempts_app (t1 t2 : list Login.event) :
  Login.attempts (t1 ++ t2) = (Login.attempts t1 + Login.attempts t2)%nat.
Proof. unfold Login.attempts. now rewrite filter_app, length_app. Qed.

Lemma waits_app (t1 t2 : list Login.event) :
  Login.waits (t1 ++ t2) = Login.waits t1 ++ Login.waits t2.
Proof. unfold Login.waits. apply flat_map_app. Qed.

(** The bounds of a trace that is known, and of a trace that goes on with
    the trace of the next call. *)
Ltac closed_trace :=
  split; [reflexivity|];
  split; [unfold Login.attempts; simpl; lia|];
  split; [simpl; lia | simpl; repeat constructor].

Ltac longer_trace Hw :=
  split; [reflexivity|];
  split; [unfold Login.attempts in *; simpl in *; lia|];
  split; [simpl; lia|];
  simpl; constructor; [auto | exact Hw].

(** ** The multi-year page *)

Lemma graph_retry_busy (r : Login.reply) (retryCount : nat) :
  AllGraph.tryLogin r retryCount = AllGraph.RetryBusy -> (retryCount < 2)%nat.
Proof.
  unfold AllGraph.tryLogin.
  destruct r as [m| |ok status code msg token]; try discriminate.
  destruct (negb ok); [discriminate|].
  destruct (String.eqb code "1"); [discriminate|].
  destruct (AllGraph.includes_opt msg "busy"); [|discriminate].
  simpl. destruct (retryCount <? 2)%nat eqn:E; [|discriminate].
  intros _. now apply Nat.ltb_lt.
Qed.

(** From the retry count [retryCount], with [k] retries left, the login
    ends after at most [k + 1] requests and [k] delays of two seconds. *)
Lemma graph_login_bounded (loginLoading : bool) (c : Login.credentials)
  (srv : Login.server) (k : nat) :
  forall fuel retryCount : nat,
    (retryCount + k = 2)%nat -> (k < fuel)%nat ->
    exists (e : Login.ending) (trace : list Login.event),
      AllGraph.handleAutoLogin fuel loginLoading c srv retryCount = Some (e, trace)
      /\ (Login.attempts trace <= S k)%nat
      /\ (List.length (Login.waits trace) <= k)%nat
      /\ Forall (fun ms => ms = 2000) (Login.waits trace).
Proof.
  induction k as [|k IH]; intros fuel retryCount Hk Hfuel;
    (destruct fuel as [|fuel]; [lia|]); cbn [AllGraph.handleAutoLogin];
    (destruct loginLoading;
     [exists Login.Skipped, []; closed_trace|]).
  - assert (Hrc : (retryCount <? 2)%nat = false) by (apply Nat.ltb_ge; lia).
    rewrite Hrc.
    destruct (negb (AllGraph.credentialsPresent c)).
    + eexists _, _. closed_trace.
    + destruct (AllGraph.tryLogin (srv retryCount) retryCount) eqn:Et.
      * eexists _, _. closed_trace.
      * apply graph_retry_busy in Et. lia.
      * eexists _, _. closed_trace.
  - assert (Hrc : (retryCount <? 2)%nat = true) by (apply Nat.ltb_lt; lia).
    rewrite Hrc.
    destruct (IH fuel (retryCount + 1)%nat) as [e [t [Hrun [Ha [Hl Hw]]]]];
      [lia | lia |].
    rewrite Hrun.
    destruct (negb (AllGraph.credentialsPresent c)).
    + exists e, ([] ++ Login.Wait 2000 :: t). longer_trace Hw.
    + destruct (AllGraph.tryLogin (srv retryCount) retryCount) eqn:Et.
      * eexists _, _. closed_trace.
      * exists e, ([Login.Post retryCount] ++ Login.Wait 2000 :: t).
        longer_trace Hw.
      * exists e, ([Login.Post retryCount] ++ Login.Wait 2000 :: t).
        longer_trace Hw.
Qed.

(** ** The weekly page *)

Lemma weekly_retry_busy (c : Login.credentials) (r : Login.reply)
  (retryCount : nat) :
  Weekly.tryLogin c r retryCount = Weekly.RetryBusy -> (retryCount < 2)%nat.
Proof.
  unfold Weekly.tryLogin.
  destruct r as [m| |ok status code msg token]; try discriminate.
  destruct (negb ok); [discriminate|].
  destruct (String.eqb code "1").
  - destruct (truthy_str (Login.str_or token "")); discriminate.
  - destruct (Weekly.lower_includes msg "busy"); [|discriminate].
    simpl. destruct (retryCount <? 2)%nat eqn:E; [|discriminate].
    intros _. now apply Nat.ltb_lt.
Qed.

(** The message about missing credentials never asks for a retry. *)
Lemma missing_message_plain (c : Login.credentials) (retryCount : nat) :
  Weekly.retryAfterError retryCount
    ("Missing API credentials: " ++ String.concat ", " (Weekly.missingVars c)
     ++ ". Please check environment configuration.")%string = false.
Proof.
  unfold Weekly.retryAfterError, Weekly.missingVars.
  destruct c as [a b u p]. cbn [Login.SOLAR_APPKEY Login.SOLAR_SECRET_KEY
                                Login.USER_ACCOUNT Login.USER_PASSWORD].
  destruct (truthy_str a), (truthy_str b), (truthy_str u), (truthy_str p);
    match goal with
    | |- (_ && ?x) || ?y = false =>
        let vx := eval vm_compute in x in
        let vy := eval vm_compute in y in
        change x with vx; change y with vy
    end; now rewrite andb_false_r.
Qed.

(** Without a failure that reads "Failed to fetch", the login of the weekly
    page ends after at most [k + 1] requests and [k] delays. *)
Lemma weekly_login_bounded (loginLoading : bool) (c : Login.credentials)
  (srv : Login.server) :
  (forall (n : nat) (m : str),
      Weekly.tryLogin c (srv n) n = Weekly.Thrown m ->
      includes m "Failed to fetch" = false) ->
  forall (k fuel retryCount : nat),
    (retryCount + k = 2)%nat -> (k < fuel)%nat ->
    exists (e : Login.ending) (trace : list Login.event),
      Weekly.handleAutoLogin fuel loginLoading c srv retryCount = Some (e, trace)
      /\ (Login.attempts trace <= S k)%nat
      /\ (List.length (Login.waits trace) <= k)%nat
      /\ Forall (fun ms => ms = 2000 \/ ms = 3000) (Login.waits trace).
Proof.
  intros Hsrv.
  induction k as [|k IH]; intros fuel retryCount Hk Hfuel;
    (destruct fuel as [|fuel]; [lia|]); cbn [Weekly.handleAutoLogin];
    (destruct loginLoading;
     [exists Login.Skipped, []; closed_trace|]).
  - assert (Hrc : (retryCount <? 2)%nat = false) by (apply Nat.ltb_ge; lia).
    destruct (Weekly.missingVars c) as [|x xs] eqn:Em.
    + destruct (Weekly.tryLogin c (srv retryCount) retryCount) as [tok| |m] eqn:Et.
      * eexists _, _. closed_trace.
      * apply weekly_retry_busy in Et. lia.
      * unfold Weekly.retryAfterError.
        rewrite Hrc, (Hsrv _ _ Et). simpl.
        eexists _, _. closed_trace.
    + rewrite <- Em, missing_message_plain.
      eexists _, _. closed_trace.
  - destruct (IH fuel (retryCount + 1)%nat) as [e [t [Hrun [Ha [Hl Hw]]]]];
      [lia | lia |].
    rewrite Hrun.
    destruct (Weekly.missingVars c) as [|x xs] eqn:Em.
    + destruct (Weekly.tryLogin c (srv retryCount) retryCount) as [tok| |m] eqn:Et.
      * eexists _, _. closed_trace.
      * exists e, ([Login.Post retryCount] ++ Login.Wait 2000 :: t).
        longer_trace Hw.
      * destruct (Weekly.retryAfterError retryCount m).
        -- exists e, ([Login.Post retryCount] ++ Login.Wait 3000 :: t).
           longer_trace Hw.
        -- eexists _, _. closed_trace.
    + rewrite <- Em, missing_message_plain.
      eexists _, _. closed_trace.
Qed.

(** On the weekly page a failure that reads "Failed to fetch" is retried
    whatever the retry count: against a server that cannot be reached the
    login never ends. *)
Lemma weekly_offline_never_ends (fuel : nat) :
  forall retryCount : nat,
    Weekly.handleAutoLogin fuel false Samples.credentials Samples.offline
      retryCount = None.
Proof.
  induction fuel as [|fuel IH]; intros retryCount.
  - reflexivity.
  - cbn [Weekly.handleAutoLogin].
    change (Weekly.missingVars Samples.credentials) with (@nil str).
    cbv iota.
    change (Weekly.tryLogin Samples.credentials (Samples.offline retryCount)
              retryCount) with (Weekly.Thrown "Failed to fetch").
    cbv iota beta.
    replace (Weekly.retryAfterError retryCount "Failed to fetch") with true.
    + now rewrite IH.
    + unfold Weekly.retryAfterError.
      change (includes "Failed to fetch" "Failed to fetch") with true.
      now rewrite orb_true_r.
Qed.

(** ** A busy answer

    An answer of the server that is not a success and whose message holds
    "busy" asks for a retry while the retry count is below 2. *)
Lemma graph_busy_answer (status : Z) (result_code result_msg : str)
  (token : option str) (retryCount : nat) :
  result_code <> "1" ->
  includes result_msg "busy" = true ->
  (retryCount < 2)%nat ->
  AllGraph.tryLogin
    (Login.Answer true status result_code (Some result_msg) token) retryCount
  = AllGraph.RetryBusy.
Proof.
  intros Hc Hb Hr. unfold AllGraph.tryLogin. cbn [negb].
  destruct (String.eqb_spec result_code "1"); [contradiction|].
  cbn [AllGraph.includes_opt]. rewrite Hb.
  apply Nat.ltb_lt in Hr. now rewrite Hr.
Qed.

Lemma weekly_busy_answer (c : Login.credentials) (status : Z)
  (result_code result_msg : str) (token : option str) (retryCount : nat) :
  result_code <> "1" ->
  includes (toLowerCase result_msg) "busy" = true ->
  (retryCount < 2)%nat ->
  Weekly.tryLogin c
    (Login.Answer true status result_code (Some result_msg) token) retryCount
  = Weekly.RetryBusy.
Proof.
  intros Hc Hb Hr. unfold Weekly.tryLogin. cbn [negb].
  destruct (String.eqb_spec result_code "1"); [contradiction|].
  cbn [Weekly.lower_includes]. rewrite Hb.
  apply Nat.ltb_lt in Hr. now rewrite Hr.
Qed.

(** ** One step of the login that asks for a retry *)

Lemma graph_step_busy (c : Login.credentials) (srv : Login.server)
  (fuel retryCount : nat) :
  AllGraph.credentialsPresent c = true ->
  AllGraph.tryLogin (srv retryCount) retryCount = AllGraph.RetryBusy ->
  AllGraph.handleAutoLogin (S fuel) false c srv retryCount
  = match AllGraph.handleAutoLogin fuel false c srv (retryCount + 1) with
    | Some (e, t) => Some (e, Login.Post retryCount :: Login.Wait 2000 :: t)
    | None => None
    end.
Proof.
  intros Hc Ht. cbn [AllGraph.handleAutoLogin]. rewrite Hc, Ht. simpl negb.
  cbv iota.
  now destruct (AllGraph.handleAutoLogin fuel false c srv (retryCount + 1))
    as [[e t]|].
Qed.

Lemma graph_step_thrown (c : Login.credentials) (srv : Login.server)
  (fuel retryCount : nat) (m : str) :
  AllGraph.credentialsPresent c = true ->
  AllGraph.tryLogin (srv retryCount) retryCount = AllGraph.Thrown m ->
  (retryCount < 2)%nat ->
  AllGraph.handleAutoLogin (S fuel) false c srv retryCount
  = match AllGraph.handleAutoLogin fuel false c srv (retryCount + 1) with
    | Some (e, t) => Some (e, Login.Post retryCount :: Login.Wait 2000 :: t)
    | None => None
    end.
Proof.
  intros Hc Ht Hr. cbn [AllGraph.handleAutoLogin]. rewrite Hc, Ht. simpl negb.
  cbv iota. apply Nat.ltb_lt in Hr. rewrite Hr.
  now destruct (AllGraph.handleAutoLogin fuel false c srv (retryCount + 1))
    as [[e t]|].
Qed.

Lemma weekly_step_busy (c : Login.credentials) (srv : Login.server)
  (fuel retryCount : nat) :
  Weekly.missingVars c = [] ->
  Weekly.tryLogin c (srv retryCount) retryCount = Weekly.RetryBusy ->
  Weekly.handleAutoLogin (S fuel) false c srv retryCount
  = match Weekly.handleAutoLogin fuel false c srv (retryCount + 1) with
    | Some (e, t) => Some (e, Login.Post retryCount :: Login.Wait 2000 :: t)
    | None => None
    end.
Proof.
  intros Hm Ht. cbn [Weekly.handleAutoLogin]. rewrite Hm, Ht.
  now destruct (Weekly.handleAutoLogin fuel false c srv (retryCount + 1))
    as [[e t]|].
Qed.

Lemma weekly_step_network (c : Login.credentials) (srv : Login.server)
  (fuel retryCount : nat) (m : str) :
  Weekly.missingVars c = [] ->
  Weekly.tryLogin c (srv retryCount) retryCount = Weekly.Thrown m ->
  (retryCount < 2)%nat ->
  includes m "network" = true ->
  Weekly.handleAutoLogin (S fuel) false c srv retryCount
  = match Weekly.handleAutoLogin fuel false c srv (retryCount + 1) with
    | Some (e, t) => Some (e, Login.Post retryCount :: Login.Wait 3000 :: t)
    | None => None
    end.
Proof.
  intros Hm Ht Hr Hn. cbn [Weekly.handleAutoLogin]. rewrite Hm, Ht.
  unfold Weekly.retryAfterError.
  apply Nat.ltb_lt in Hr. rewrite Hr, Hn. simpl.
  now destruct (Weekly.handleAutoLogin fuel false c srv (retryCount + 1))
    as [[e t]|].
Qed.

End LoginFacts.

Module LoginClaims.
Import JS JSFacts LoginFacts.

(** C8, as it is written, fails on the multi-year page: a failure of the
    network is retried after the same two seconds as a busy answer, not
    after a longer delay. *)
Lemma graph_retry_delays_are_equal :
  AllGraph.handleAutoLogin 3 false Samples.credentials Samples.offline 0
  = Some (Login.Failed "Failed to fetch",
          [ Login.Post 0; Login.Wait 2000; Login.Post 1; Login.Wait 2000;
            Login.Post 2 ])
  /\ AllGraph.handleAutoLogin 3 false Samples.credentials Samples.busy 0
     = Some (Login.Failed "server busy",
             [ Login.Post 0; Login.Wait 2000; Login.Post 1; Login.Wait 2000;
               Login.Post 2 ]).
Proof. split; reflexivity. Qed.

(** C8 (amended).  On the multi-year page the login ends after at most 3
    requests, with delays of two seconds between them, whatever the server
    answers; a busy answer is retried after two seconds while the retry
    count is below 2, and so is every thrown failure, of the network or
    not.  On the weekly page a busy answer is retried after two seconds
    while the retry count is below 2, a thrown failure whose message
    contains "network" is retried after three seconds while the retry count
    is below 2, and when no failure reads "Failed to fetch" the login ends
    after at most 3 requests. *)
Theorem login_retries_of_each_page :
  forall (loginLoading : bool) (c : Login.credentials) (srv : Login.server),
    (exists (e : Login.ending) (trace : list Login.event),
        AllGraph.handleAutoLogin 3 loginLoading c srv 0 = Some (e, trace)
        /\ (Login.attempts trace <= 3)%nat
        /\ (List.length (Login.waits trace) <= 2)%nat
        /\ Forall (fun ms => ms = 2000) (Login.waits trace))
    /\ (forall (fuel retryCount : nat) (status : Z)
                (result_code result_msg : str) (token : option str),
          AllGraph.credentialsPresent c = true ->
          srv retryCount
          = Login.Answer true status result_code (Some result_msg) token ->
          result_code <> "1" ->
          includes result_msg "busy" = true ->
          (retryCount < 2)%nat ->
          AllGraph.handleAutoLogin (S fuel) false c srv retryCount
          = match AllGraph.handleAutoLogin fuel false c srv (retryCount + 1) with
            | Some (e, t) =>
                Some (e, Login.Post retryCount :: Login.Wait 2000 :: t)
            | None => None
            end)
    /\ (forall (fuel retryCount : nat) (m : str),
          AllGraph.credentialsPresent c = true ->
          AllGraph.tryLogin (srv retryCount) retryCount = AllGraph.Thrown m ->
          (retryCount < 2)%nat ->
          AllGraph.handleAutoLogin (S fuel) false c srv retryCount
          = match AllGraph.handleAutoLogin fuel false c srv (retryCount + 1) with
            | Some (e, t) =>
                Some (e, Login.Post retryCount :: Login.Wait 2000 :: t)
            | None => None
            end)
    /\ (forall retryCount : nat,
          AllGraph.tryLogin (srv retryCount) retryCount = AllGraph.RetryBusy
          \/ Weekly.tryLogin c (srv retryCount) retryCount = Weekly.RetryBusy ->
          (retryCount < 2)%nat)
    /\ (forall (fuel retryCount : nat) (status : Z)
                (result_code result_msg : str) (token : option str),
          Weekly.missingVars c = [] ->
          srv retryCount
          = Login.Answer true status result_code (Some result_msg) token ->
          result_code <> "1" ->
          includes (toLowerCase result_msg) "busy" = true ->
          (retryCount < 2)%nat ->
          Weekly.handleAutoLogin (S fuel) false c srv retryCount
          = match Weekly.handleAutoLogin fuel false c srv (retryCount + 1) with
            | Some (e, t) =>
                Some (e, Login.Post retryCount :: Login.Wait 2000 :: t)
            | None => None
            end)
    /\ (forall (fuel retryCount : nat) (m : str),
          Weekly.missingVars c = [] ->
          Weekly.tryLogin c (srv retryCount) retryCount = Weekly.Thrown m ->
          (retryCount < 2)%nat ->
          includes m "network" = true ->
          Weekly.handleAutoLogin (S fuel) false c srv retryCount
          = match Weekly.handleAutoLogin fuel false c srv (retryCount + 1) with
            | Some (e, t) =>
                Some (e, Login.Post retryCount :: Login.Wait 3000 :: t)
            | None => None
            end)
    /\ ((forall (n : nat) (m : str),
           Weekly.tryLogin c (srv n) n = Weekly.Thrown m ->
           includes m "Failed to fetch" = false) ->
        exists (e : Login.ending) (trace : list Login.event),
          Weekly.handleAutoLogin 3 loginLoading c srv 0 = Some (e, trace)
          /\ (Login.attempts trace <= 3)%nat
          /\ (List.length (Login.waits trace) <= 2)%nat
          /\ Forall (fun ms => ms = 2000 \/ ms = 3000) (Login.waits trace)).
Proof.
  intros loginLoading c srv.
  split; [|split; [|split; [|split; [|split; [|split]]]]].
  - apply (graph_login_bounded loginLoading c srv 2 3 0); lia.
  - intros fuel retryCount status result_code result_msg token Hc Hs Hrc Hb Hr.
    apply graph_step_busy; [exact Hc|].
    rewrite Hs. now apply graph_busy_answer.
  - intros fuel retryCount m Hc Ht Hr. now apply graph_step_thrown with (m := m).
  - intros retryCount [H|H].
    + now apply graph_retry_busy in H.
    + now apply weekly_retry_busy in H.
  - intros fuel retryCount status result_code result_msg token Hm Hs Hrc Hb Hr.
    apply weekly_step_busy; [exact Hm|].
    rewrite Hs. now apply weekly_busy_answer.
  - intros fuel retryCount m Hm Ht Hr Hn.
    now apply weekly_step_network with (m := m).
  - intros Hsrv. apply (weekly_login_bounded loginLoading c srv Hsrv 2 3 0); lia.
Qed.

(** Against a server that is always busy both pages make three requests,
    two seconds apart; against a server that cannot be reached the
    multi-year page makes three requests as well. *)
Lemma login_retries_of_each_page_witness :
  (exists (e : Login.ending) (trace : list Login.event),
      AllGraph.handleAutoLogin 3 false Samples.credentials Samples.offline 0
      = Some (e, trace)
      /\ (Login.attempts trace <= 3)%nat)
  /\ AllGraph.handleAutoLogin 3 false Samples.credentials Samples.busy 0
     = match AllGraph.handleAutoLogin 2 false Samples.credentials Samples.busy 1 with
       | Some (e, t) => Some (e, Login.Post 0 :: Login.Wait 2000 :: t)
       | None => None
       end
  /\ Weekly.handleAutoLogin 3 false Samples.credentials Samples.busy 0
     = match Weekly.handleAutoLogin 2 false Samples.credentials Samples.busy 1 with
       | Some (e, t) => Some (e, Login.Post 0 :: Login.Wait 2000 :: t)
       | None => None
       end
  /\ (exists (e : Login.ending) (trace : list Login.event),
        Weekly.handleAutoLogin 3 false Samples.credentials Samples.busy 0
        = Some (e, trace)
        /\ (Login.attempts trace <= 3)%nat)
  /\ (exists (e : Login.ending) (trace : list Login.event),
        Weekly.handleAutoLogin 3 false Samples.credentials Samples.unreachable 0
        = Some (e, trace)
        /\ (Login.attempts trace <= 3)%nat).
Proof.
  destruct (login_retries_of_each_page false Samples.credentials Samples.offline)
    as [[e1 [t1 [Hrun1 [Ha1 _]]]] _].
  destruct (login_retries_of_each_page false Samples.credentials Samples.busy)
    as [_ [Hgb [_ [_ [Hwb [_ Hbound]]]]]].
  destruct (login_retries_of_each_page false Samples.credentials
              Samples.unreachable) as [_ [_ [_ [_ [_ [_ Hnet]]]]]].
  split; [exists e1, t1; split; [exact Hrun1 | exact Ha1]|].
  split; [apply (Hgb 2%nat 0%nat 200 "0" "server busy" None);
          [reflexivity | reflexivity | discriminate | reflexivity | lia]|].
  split; [apply (Hwb 2%nat 0%nat 200 "0" "server busy" None);
          [reflexivity | reflexivity | discriminate | reflexivity | lia]|].
  split.
  - destruct Hbound as [e [trace [Hrun [Ha _]]]].
    + intros n m H. unfold Weekly.tryLogin, Samples.busy in H.
      cbn [negb String.eqb Ascii.eqb Bool.eqb] in H.
      destruct (Weekly.lower_includes (Some "server busy") "busy"
                && (n <? 2)%nat); inversion H. reflexivity.
    + exists e, trace. split; [exact Hrun | exact Ha].
  - destruct Hnet as [e [trace [Hrun [Ha _]]]].
    + intros n m H. vm_compute in H. inversion H. reflexivity.
    + exists e, trace. split; [exact Hrun | exact Ha].
Defined.

End LoginClaims.

(* ================================================================== *)
(** * The days of the automatic sync *)

Module ScheduleFacts.
Import JS Calendar Schedule CalendarFacts.

Lemma getDay_range (tz : zone) (t : Date) : 0 <= getDay tz t < 7.
Proof. unfold getDay. apply Z.mod_pos_bound. lia. Qed.

Lemma getDay_shift (tz : zone) (t : Date) (k : Z) :
  getDay tz (t + k * msPerDay) = (getDay tz t + k) mod 7.
Proof.
  unfold getDay. rewrite localDay_shift, Zplus_mod_idemp_l. f_equal. lia.
Qed.

(** The number of days that [getNextAutoSyncDate] adds. *)
Lemma next_date_shift (tz : zone) (today : Date) :
  getNextAutoSyncDate tz today
  = today + (if getDay tz today =? 1 then 2
             else if getDay tz today =? 3 then 5
             else if getDay tz today =? 0 then 1
             else 8 - getDay tz today) * msPerDay.
Proof.
  unfold getNextAutoSyncDate. cbv zeta.
  pose proof (getDay_range tz today) as Hr.
  destruct (getDay tz today =? 1) eqn:H1; [apply setDate_shift|].
  destruct (getDay tz today =? 3) eqn:H3; [apply setDate_shift|].
  rewrite setDate_shift. do 2 f_equal.
  apply Z.eqb_neq in H1.
  destruct (getDay tz today =? 0) eqn:H0.
  - apply Z.eqb_eq in H0. rewrite H0. reflexivity.
  - apply Z.eqb_neq in H0.
    assert (Hrem : Z.rem (8 - getDay tz today) 7 = 8 - getDay tz today).
    { apply Z.rem_small. lia. }
    rewrite Hrem.
    destruct (8 - getDay tz today =? 0) eqn:H8;
      [apply Z.eqb_eq in H8; lia | reflexivity].
Qed.

(** X1.  The date that [getNextAutoSyncDate] returns is a day of the
    automatic sync, a Monday or a Wednesday, at the same time of day, from
    one to six days after the day it is given, in every zone. *)
Theorem next_auto_sync_date_is_a_sync_day :
  forall (tz : zone) (today : Date),
    isTodayAutoSyncDay tz (getNextAutoSyncDate tz today) = true
    /\ exists k : Z,
         1 <= k <= 6 /\ getNextAutoSyncDate tz today = today + k * msPerDay.
Proof.
  intros tz today. rewrite next_date_shift.
  pose proof (getDay_range tz today) as Hr.
  unfold isTodayAutoSyncDay. cbv zeta. rewrite getDay_shift.
  destruct (getDay tz today =? 1) eqn:H1.
  - apply Z.eqb_eq in H1. rewrite H1. split; [reflexivity|].
    exists 2. split; [lia | reflexivity].
  - destruct (getDay tz today =? 3) eqn:H3.
    + apply Z.eqb_eq in H3. rewrite H3. split; [reflexivity|].
      exists 5. split; [lia | reflexivity].
    + apply Z.eqb_neq in H1. apply Z.eqb_neq in H3.
      destruct (getDay tz today =? 0) eqn:H0.
      * apply Z.eqb_eq in H0. rewrite H0. split; [reflexivity|].
        exists 1. split; [lia | reflexivity].
      * apply Z.eqb_neq in H0.
        replace (getDay tz today + (8 - getDay tz today)) with 8 by lia.
        split; [reflexivity|].
        exists (8 - getDay tz today). split; [lia | reflexivity].
Qed.

(** X2.  On every day but a Tuesday no day of the automatic sync lies
    between the day given and the date returned.  On a Tuesday the date
    returned is the Monday six days later, although the next day, a
    Wednesday, is a day of the automatic sync. *)
Theorem next_auto_sync_date_skips_wednesday_on_tuesday :
  forall (tz : zone) (today : Date),
    (getDay tz today = 2 ->
     getNextAutoSyncDate tz today = today + 6 * msPerDay
     /\ isTodayAutoSyncDay tz (today + 1 * msPerDay) = true)
    /\ (getDay tz today <> 2 ->
        forall k : Z,
          0 < k ->
          today + k * msPerDay < getNextAutoSyncDate tz today ->
          isTodayAutoSyncDay tz (today + k * msPerDay) = false).
Proof.
  intros tz today. rewrite next_date_shift.
  pose proof (getDay_range tz today) as Hr.
  split.
  - intro H2. rewrite H2. cbn [Z.eqb]. split; [reflexivity|].
    unfold isTodayAutoSyncDay. cbv zeta. rewrite getDay_shift, H2. reflexivity.
  - intros H2 k Hk Hd.
    unfold isTodayAutoSyncDay. cbv zeta. rewrite getDay_shift.
    unfold msPerDay in Hd.
    destruct (getDay tz today =? 1) eqn:H1.
    + apply Z.eqb_eq in H1. rewrite H1.
      assert (k = 1) as -> by lia. reflexivity.
    + destruct (getDay tz today =? 3) eqn:H3.
      * apply Z.eqb_eq in H3. rewrite H3.
        assert (k = 1 \/ k = 2 \/ k = 3 \/ k = 4)
          as [-> | [-> | [-> | ->]]] by lia; reflexivity.
      * apply Z.eqb_neq in H1. apply Z.eqb_neq in H3.
        destruct (getDay tz today =? 0) eqn:H0.
        -- lia.
        -- apply Z.eqb_neq in H0.
           apply orb_false_iff. split; apply Z.eqb_neq;
             Z.to_euclidean_division_equations; lia.
Qed.

(** Tuesday 5 March 2024 and Thursday 7 March 2024, at noon in UTC. *)
Lemma next_auto_sync_date_skips_wednesday_on_tuesday_witness :
  getNextAutoSyncDate Samples.utc (Samples.march8 - 3 * msPerDay)
  = Samples.march8 - 3 * msPerDay + 6 * msPerDay
  /\ isTodayAutoSyncDay Samples.utc (Samples.march8 - 3 * msPerDay + 1 * msPerDay)
     = true
  /\ isTodayAutoSyncDay Samples.utc (Samples.march8 - 1 * msPerDay + 1 * msPerDay)
     = false.
Proof.
  pose proof (next_auto_sync_date_skips_wednesday_on_tuesday Samples.utc
                (Samples.march8 - 3 * msPerDay)) as [Htue _].
  pose proof (next_auto_sync_date_skips_wednesday_on_tuesday Samples.utc
                (Samples.march8 - 1 * msPerDay)) as [_ Hother].
  split; [apply Htue; reflexivity|].
  split; [apply Htue; reflexivity|].
  apply Hother; [vm_compute; discriminate | lia | vm_compute; reflexivity].
Defined.

End ScheduleFacts.

(* ================================================================== *)
(** * The first range of the page and the window of the handler *)

Module RangeFacts.
Import JS Calendar Schedule CalendarFacts OrderFacts TextFacts WindowFacts.

(** [new Date] of a text of the form year-month-day. *)
Lemma newDate_parts (Y M D : str) (y m d : Z) :
  String.length Y = 4%nat -> String.length M = 2%nat ->
  String.length D = 2%nat ->
  digits Y = (y, 4%nat, EmptyString) ->
  digits M = (m, 2%nat, EmptyString) ->
  digits D = (d, 2%nat, EmptyString) ->
  newDate (Y ++ "-" ++ M ++ "-" ++ D)%string
  = if (1 <=? m) && (m <=? 12) && (1 <=? d) && (d <=? days_in_month y m)
    then Some (days_from_civil y m d * msPerDay) else None.
Proof.
  intros HY HM HD Hy Hm Hd.
  assert (Hs : String.substring 0 4 (Y ++ "-" ++ M ++ "-" ++ D)%string = Y
               /\ String.substring 5 2 (Y ++ "-" ++ M ++ "-" ++ D)%string = M
               /\ String.substring 8 2 (Y ++ "-" ++ M ++ "-" ++ D)%string = D
               /\ String.substring 4 1 (Y ++ "-" ++ M ++ "-" ++ D)%string = "-"
               /\ String.substring 7 1 (Y ++ "-" ++ M ++ "-" ++ D)%string = "-"
               /\ String.length (Y ++ "-" ++ M ++ "-" ++ D)%string = 10%nat).
  { clear Hy Hm Hd.
    destruct Y as [|a1 [|a2 [|a3 [|a4 [|]]]]]; try discriminate.
    destruct M as [|b1 [|b2 [|]]]; try discriminate.
    destruct D as [|c1 [|c2 [|]]]; try discriminate.
    cbn. repeat split; reflexivity. }
  destruct Hs as (H1 & H2 & H3 & H4 & H5 & H6).
  unfold newDate. rewrite H1, H2, H3, H4, H5, H6.
  unfold all_digits. rewrite Hy, Hm, Hd, HY, HM, HD.
  reflexivity.
Qed.

(** The text that the page writes for a date is that of its local day. *)
Lemma formatDate_day (tz : zone) (t : Date) :
  formatDate tz t
  = (string_of_Z (YearFromDay (localDay tz t)) ++ "-"
     ++ padStart2 (string_of_Z (MonthFromDay (localDay tz t) + 1)) ++ "-"
     ++ padStart2 (string_of_Z (DateFromDay (localDay tz t))))%string.
Proof. reflexivity. Qed.

(** The text of a day, year-month-day, reads back as the midnight of that
    day in UTC, and without its hyphens it is the text YYYYMMDD. *)
Lemma day_text_round_trip (z : Z) :
  1000 <= YearFromDay z <= 9999 ->
  newDate (string_of_Z (YearFromDay z) ++ "-"
           ++ padStart2 (string_of_Z (MonthFromDay z + 1)) ++ "-"
           ++ padStart2 (string_of_Z (DateFromDay z)))%string
  = Some (z * msPerDay)
  /\ removeHyphens (string_of_Z (YearFromDay z) ++ "-"
                    ++ padStart2 (string_of_Z (MonthFromDay z + 1)) ++ "-"
                    ++ padStart2 (string_of_Z (DateFromDay z)))%string
     = Spec.dayText z.
Proof.
  unfold YearFromDay, MonthFromDay, DateFromDay, Spec.dayText.
  pose proof (civil_roundtrip z) as Hr.
  pose proof (civil_day_in_month z) as Hd.
  destruct (civil_from_days z) as [[y m] d].
  destruct Hr as (Hc & Hm & Hdd). intros Hy.
  replace (m - 1 + 1) with m by lia.
  destruct (year_text y Hy) as [Ey Ly].
  destruct (padded_text m) as [Em Lm]; [lia|].
  destruct (padded_text d) as [Ed Ld]; [lia|].
  split.
  - rewrite (newDate_parts _ _ _ _ _ _ Ly Lm Ld Ey Em Ed).
    replace ((1 <=? m) && (m <=? 12) && (1 <=? d) && (d <=? days_in_month y m))
      with true.
    + now rewrite Hc.
    + symmetry. repeat (apply andb_true_iff; split); apply Z.leb_le; lia.
  - rewrite <- Ly in Ey. rewrite <- Lm in Em. rewrite <- Ld in Ed.
    apply digits_whole in Ey as [Ny _].
    apply digits_whole in Em as [Nm _].
    apply digits_whole in Ed as [Nd _].
    rewrite !removeHyphens_app.
    rewrite (removeHyphens_numeric _ Ny), (removeHyphens_numeric _ Nm),
      (removeHyphens_numeric _ Nd).
    reflexivity.
Qed.

(** The number of days that the page counts between two midnights. *)
Lemma ceilDiv_days (a b : Z) :
  ceilDiv (Z.abs (b * msPerDay - a * msPerDay)) (1000 * 60 * 60 * 24)
  = Z.abs (b - a).
Proof.
  unfold ceilDiv, msPerDay. Z.to_euclidean_division_equations; lia.
Qed.

(** The first range of the page: its two texts, and what they read as. *)
Lemma defaultDateRange_parts (tz : zone) (now : Date) :
  1000 <= YearFromDay (localDay tz now - 7) ->
  YearFromDay (localDay tz now) <= 9999 ->
  let r := defaultDateRange tz now in
  newDate (Weekly.startDate r) = Some ((localDay tz now - 7) * msPerDay)
  /\ newDate (Weekly.endDate r) = Some (localDay tz now * msPerDay)
  /\ removeHyphens (Weekly.startDate r) = Spec.dayText (localDay tz now - 7)
  /\ removeHyphens (Weekly.endDate r) = Spec.dayText (localDay tz now)
  /\ Weekly.calculateDaysInRange r = 8.
Proof.
  intros Hlo Hhi.
  pose proof (YearFromDay_mono (localDay tz now - 7) (localDay tz now)) as Hy.
  cbv zeta. unfold defaultDateRange. cbn [Weekly.startDate Weekly.endDate].
  rewrite !formatDate_day, setDate_back, localDay_back.
  destruct (day_text_round_trip (localDay tz now - 7)) as [Hs Hsr]; [lia|].
  destruct (day_text_round_trip (localDay tz now)) as [He Her]; [lia|].
  split; [exact Hs|]. split; [exact He|].
  split; [exact Hsr|]. split; [exact Her|].
  unfold Weekly.calculateDaysInRange. cbn [Weekly.startDate Weekly.endDate].
  rewrite Hs, He, ceilDiv_days.
  destruct (string_of_Z (YearFromDay (localDay tz now - 7))) eqn:E1;
    [destruct (year_text (YearFromDay (localDay tz now - 7))) as [_ Hl];
       [lia | rewrite E1 in Hl; discriminate]|].
  destruct (string_of_Z (YearFromDay (localDay tz now))) eqn:E2;
    [destruct (year_text (YearFromDay (localDay tz now))) as [_ Hl];
       [lia | rewrite E2 in Hl; discriminate]|].
  cbn [String.append truthy_str negb orb]. lia.
Qed.

(** X3.  The text that the page writes for a date, year-month-day, reads
    back as the midnight in UTC of the local day of the date, and without
    its hyphens it is the text that [formatDateForAPI] sends to the
    vendor; the year has four digits. *)
Theorem date_text_round_trip :
  forall (tz : zone) (t : Date),
    1000 <= getFullYear tz t <= 9999 ->
    newDate (formatDate tz t) = Some (localDay tz t * msPerDay)
    /\ removeHyphens (formatDate tz t) = formatDateForAPI tz t.
Proof.
  intros tz t Hy. rewrite formatDate_day, formatDateForAPI_dayText.
  now apply day_text_round_trip.
Qed.

Lemma date_text_round_trip_witness :
  newDate (formatDate Samples.kolkata Samples.march8)
  = Some (localDay Samples.kolkata Samples.march8 * msPerDay)
  /\ removeHyphens (formatDate Samples.kolkata Samples.march8)
     = formatDateForAPI Samples.kolkata Samples.march8.
Proof.
  apply (date_text_round_trip Samples.kolkata Samples.march8).
  split; apply Z.leb_le; vm_compute; reflexivity.
Defined.

(** X4.  With the range that the page starts with, the last seven days,
    the page counts eight days, the constant of the handler, and filters
    the deltas with the window of the handler of the same moment; in a zone
    at or ahead of UTC it also sends the history request of the handler.
    The years have four digits. *)
Theorem default_range_is_the_handler_window :
  forall (tz : zone) (now : Date) (psKey : str) (inv : Cron.inverter)
         (totalKwh : number),
    1000 <= YearFromDay (localDay tz now - 7) ->
    YearFromDay (localDay tz now) <= 9999 ->
    let r := defaultDateRange tz now in
    let w := Cron.windowOf tz now in
    Weekly.calculateDaysInRange r
    = Cron.local_daysInRange (Cron.localsOf inv totalKwh)
    /\ removeHyphens (Weekly.startDate r) = Cron.dateRangeStartStr w
    /\ removeHyphens (Weekly.endDate r) = Cron.dateRangeEndStr w
    /\ (0 <= tz < 1440 ->
        exists dates : Weekly.api_dates,
          Weekly.apiDates tz r = Ok dates
          /\ Weekly.energyRequest dates psKey = Cron.energyRequest w psKey).
Proof.
  intros tz now psKey inv totalKwh Hlo Hhi r w. subst r w.
  destruct (defaultDateRange_parts tz now Hlo Hhi)
    as (Hs & He & Hsr & Her & Hdays).
  destruct (cron_window tz now) as (Hws & Hwe & Has & Hae).
  split; [exact Hdays|].
  split; [now rewrite Hsr, Hws|]. split; [now rewrite Her, Hwe|].
  intros Htz.
  rewrite (weekly_apiDates tz _ _ _ Hs He).
  eexists. split; [reflexivity|].
  unfold Weekly.energyRequest, Cron.energyRequest.
  cbn [Weekly.apiStartDate Weekly.apiEndDate]. rewrite Has, Hae.
  unfold Day, msPerDay. rewrite !Z.div_mul by lia.
  rewrite (Z.div_small tz 1440) by lia.
  replace (localDay tz now - 7 + 0 - 1) with (localDay tz now - 7 - 1) by lia.
  replace (localDay tz now + 0) with (localDay tz now) by lia.
  reflexivity.
Qed.

Lemma default_range_is_the_handler_window_witness :
  Weekly.calculateDaysInRange (defaultDateRange Samples.kolkata Samples.march8)
  = 8
  /\ removeHyphens
       (Weekly.startDate (defaultDateRange Samples.kolkata Samples.march8))
     = "20240301"
  /\ exists dates : Weekly.api_dates,
       Weekly.apiDates Samples.kolkata
         (defaultDateRange Samples.kolkata Samples.march8) = Ok dates
       /\ Weekly.energyRequest dates "1_1_1_1"
          = Cron.energyRequest (Cron.windowOf Samples.kolkata Samples.march8)
              "1_1_1_1".
Proof.
  destruct (default_range_is_the_handler_window Samples.kolkata Samples.march8
              "1_1_1_1" Samples.rahul zero)
    as (H1 & H2 & _ & H4);
    [apply Z.leb_le; vm_compute; reflexivity
    | apply Z.leb_le; vm_compute; reflexivity |].
  split; [exact H1|]. split; [rewrite H2; vm_compute; reflexivity|].
  apply H4. unfold Samples.kolkata. lia.
Defined.

(** X5.  In a zone behind UTC the page, with the range that it starts
    with, asks the vendor for the days from two days before its window to
    the day before the end of its window: the last day of the window, the
    day of the visit, is not asked for.  The years have four digits. *)
Theorem default_range_behind_utc :
  forall (tz : zone) (now : Date) (psKey : str),
    1000 <= YearFromDay (localDay tz now - 7) ->
    YearFromDay (localDay tz now) <= 9999 ->
    - 1440 <= tz < 0 ->
    let r := defaultDateRange tz now in
    removeHyphens (Weekly.startDate r) = Spec.dayText (localDay tz now - 7)
    /\ removeHyphens (Weekly.endDate r) = Spec.dayText (localDay tz now)
    /\ exists dates : Weekly.api_dates,
         Weekly.apiDates tz r = Ok dates
         /\ Request.start_time (Weekly.energyRequest dates psKey)
            = Spec.dayText (localDay tz now - 7 - 2)
         /\ Request.end_time (Weekly.energyRequest dates psKey)
            = Spec.dayText (localDay tz now - 1).
Proof.
  intros tz now psKey Hlo Hhi Htz r. subst r.
  destruct (defaultDateRange_parts tz now Hlo Hhi)
    as (Hs & He & Hsr & Her & _).
  split; [exact Hsr|]. split; [exact Her|].
  rewrite (weekly_request_behind_utc tz _ _ _ Hs He Htz).
  eexists. split; [reflexivity|].
  cbn [Weekly.energyRequest Request.start_time Request.end_time
       Weekly.apiStartDate Weekly.apiEndDate].
  unfold Day, msPerDay. rewrite !Z.div_mul by lia.
  split; reflexivity.
Qed.

(** New York on 8 March 2024 at noon in UTC: the window is 1 March to
    8 March and the request runs from 28 February to 7 March. *)
Lemma default_range_behind_utc_witness :
  removeHyphens (Weekly.endDate (defaultDateRange Samples.new_york Samples.march8))
  = "20240308"
  /\ exists dates : Weekly.api_dates,
       Weekly.apiDates Samples.new_york
         (defaultDateRange Samples.new_york Samples.march8) = Ok dates
       /\ Request.start_time (Weekly.energyRequest dates "1_1_1_1") = "20240228"
       /\ Request.end_time (Weekly.energyRequest dates "1_1_1_1") = "20240307".
Proof.
  destruct (default_range_behind_utc Samples.new_york Samples.march8 "1_1_1_1")
    as (_ & He & dates & Hd & Hs & Hl);
    [apply Z.leb_le; vm_compute; reflexivity
    | apply Z.leb_le; vm_compute; reflexivity
    | unfold Samples.new_york; lia |].
  split; [rewrite He; vm_compute; reflexivity|].
  exists dates. split; [exact Hd|].
  split; [rewrite Hs | rewrite Hl]; vm_compute; reflexivity.
Defined.

(** X6.  In every zone, for the same accepted history answer and the same
    capacity, the record that the page makes with the range that it starts
    with has the figures of the record that the handler makes at the same
    moment: total, daily average, specific yield, days and lifetime
    generation.  The years have four digits. *)
Theorem default_range_records_agree :
  forall (tz : zone) (now : Date) (inv : Cron.inverter)
         (inverter : Weekly.inverter) (key : str)
         (energyData : Vendor.history_response)
         (rd : list (str * Vendor.device_data)),
    1000 <= YearFromDay (localDay tz now - 7) ->
    YearFromDay (localDay tz now) <= 9999 ->
    Vendor.result_code energyData = "1" ->
    Vendor.result_data energyData = Some rd ->
    Cron.capacity inv = Weekly.capacity inverter ->
    let rec :=
      Cron.makeRecord inv (Cron.energyTotals (Cron.windowOf tz now) energyData) in
    let res :=
      Weekly.successRecord inverter key
        (Weekly.calculateDaysInRange (defaultDateRange tz now))
        (Weekly.energyTotals (defaultDateRange tz now) rd) in
    Weekly.totalKwh res = Cron.totalKwh rec
    /\ Weekly.avgDailyKwh res = Cron.avgDailyKwh rec
    /\ Weekly.specYield res = Cron.specYield rec
    /\ Weekly.daysInRange res = Cron.daysInRange rec
    /\ Weekly.lifetimeGeneration res = Some (Cron.lifetimeGeneration rec).
Proof.
  intros tz now inv inverter key energyData rd Hlo Hhi Hcode Hdata Hcap rec res.
  destruct (defaultDateRange_parts tz now Hlo Hhi)
    as (_ & _ & Hsr & Her & Hdays).
  destruct (cron_window tz now) as (Hws & Hwe & _).
  subst rec res. rewrite Hdays.
  unfold Cron.energyTotals, Weekly.energyTotals.
  rewrite Hcode, Hdata. cbn [String.eqb Ascii.eqb Bool.eqb].
  rewrite Hsr, Her, Hws, Hwe.
  unfold Weekly.successRecord, Cron.makeRecord, Weekly.localsOf, Cron.localsOf.
  rewrite Hcap.
  destruct (Vendor.firstEntry rd) as [[psKeyData dev]|];
    [destruct (truthy_str psKeyData);
       [destruct (Vendor.firstEntry dev) as [[dp [dataArray|]]|]|]|];
    cbn [Weekly.totalKwh Weekly.avgDailyKwh Weekly.specYield Weekly.daysInRange
         Weekly.lifetimeGeneration Cron.totalKwh Cron.avgDailyKwh Cron.specYield
         Cron.daysInRange Cron.lifetimeGeneration Cron.local_avgDailyKwh
         Cron.local_specYield Cron.local_daysInRange Weekly.local_avgDailyKwh
         Weekly.local_specYield Z.ltb Z.compare];
    repeat split; reflexivity.
Qed.

Lemma default_range_records_agree_witness :
  Weekly.totalKwh
    (Weekly.successRecord Samples.rahul_weekly "1_1_1_1"
       (Weekly.calculateDaysInRange
          (defaultDateRange Samples.kolkata Samples.march8))
       (Weekly.energyTotals (defaultDateRange Samples.kolkata Samples.march8)
          [("1_1_1_1", [("p2", Some Samples.two_readings)])]))
  = Cron.totalKwh
      (Cron.makeRecord Samples.rahul
         (Cron.energyTotals (Cron.windowOf Samples.kolkata Samples.march8)
            (Samples.history Samples.two_readings))).
Proof.
  apply (default_range_records_agree Samples.kolkata Samples.march8
           Samples.rahul Samples.rahul_weekly "1_1_1_1"
           (Samples.history Samples.two_readings)
           [("1_1_1_1", [("p2", Some Samples.two_readings)])]);
    try reflexivity; apply Z.leb_le; vm_compute; reflexivity.
Defined.

End RangeFacts.

(* ================================================================== *)
(** * What the pipelines never do *)

Module InvariantFacts.
Import JS Vendor Http Request JSFacts.

(** ** No delta is negative *)

Lemma max0_not_negative (x : number) : lt (max0 x) zero = false.
Proof.
  unfold max0, lt, zero.
  destruct x as [s|s| |s m e]; try reflexivity;
    destruct s; reflexivity.
Qed.

Lemma forEachFrom_step_not_negative (l : list item) :
  forall (i : nat) (st : Daily.walk_state),
    Forall (fun p => lt (Daily.dailyKwh p) zero = false) (Daily.dailyData st) ->
    Forall (fun p => lt (Daily.dailyKwh p) zero = false)
      (Daily.dailyData (forEachFrom Daily.step l i st)).
Proof.
  induction l as [|it r IH]; intros i st H.
  - exact H.
  - simpl. apply IH. unfold Daily.step.
    destruct (valueKey it) as [key|]; [|exact H].
    destruct (i =? 0)%nat; [exact H|].
    cbn [Daily.dailyData]. apply Forall_app. split; [exact H|].
    constructor; [apply max0_not_negative | constructor].
Qed.

Lemma yearly_fold_not_negative (serialNumber : str)
  (range : AllGraph.year_range) (l : list item) :
  forall (st : list AllGraph.year_point * number),
    Forall (fun p => lt (AllGraph.yearlyKwh p) zero = false) (fst st) ->
    Forall (fun p => lt (AllGraph.yearlyKwh p) zero = false)
      (fst (fold_left (AllGraph.step serialNumber range) l st)).
Proof.
  induction l as [|it r IH]; intros [result prev] H.
  - exact H.
  - simpl. apply IH. unfold AllGraph.step.
    destruct (valueKey it) as [key|]; [|exact H].
    cbn [fst] in *.
    destruct (match parseInt (time_stamp it) with
              | Some n => (AllGraph.startYear range <=? n)%Z
                          && (n <=? AllGraph.endYear range)%Z
              | None => false
              end); [|exact H].
    apply Forall_app. split; [exact H|].
    constructor; [apply max0_not_negative | constructor].
Qed.

(** X7.  Whatever the vendor sends, in whatever order and with readings
    that go down or cannot be read, no delta of a daily series and no
    delta of a yearly series is below zero: the comparison of a delta with
    zero is false, also for the delta of two infinite readings, which is
    not a number. *)
Theorem no_delta_is_negative :
  forall (dataArray : list item) (apiData : option AllGraph.api_data)
         (serialNumber : str) (range : AllGraph.year_range)
         (points : list AllGraph.year_point),
    Forall (fun p => lt (Daily.dailyKwh p) zero = false)
      (Daily.dailyData (Daily.walk (Daily.sortedData dataArray)))
    /\ (AllGraph.formatYearlyData apiData serialNumber range = Ok points ->
        Forall (fun p => lt (AllGraph.yearlyKwh p) zero = false) points).
Proof.
  intros dataArray apiData serialNumber range points. split.
  - unfold Daily.walk, forEachIdx. apply forEachFrom_step_not_negative.
    constructor.
  - unfold AllGraph.formatYearlyData.
    destruct apiData as [d|]; [|intros H; injection H as <-; constructor].
    destruct (AllGraph.api_result_data d) as [rd|];
      [|intros H; injection H as <-; constructor].
    destruct (firstEntry rd) as [[k dev]|]; [|discriminate].
    destruct (firstEntry dev) as [[dp [[|it r]|]]|];
      try (intros H; injection H as <-; constructor).
    pose proof (yearly_fold_not_negative serialNumber range
                  (sort AllGraph.by_year (it :: r)) ([], zero)) as Hf.
    destruct (fold_left (AllGraph.step serialNumber range)
                (sort AllGraph.by_year (it :: r)) ([], zero)) as [result prev].
    intros H. injection H as <-.
    eapply Permutation_Forall; [apply Permutation_sym, sort_perm|].
    apply Hf. constructor.
Qed.

(** A counter that goes down from 12 kWh to 5 kWh gives a delta of 0. *)
Lemma no_delta_is_negative_witness :
  map Daily.dailyKwh
    (Daily.dailyData
       (Daily.walk
          (Daily.sortedData
             [ Samples.reading "20240301" "12000";
               Samples.reading "20240302" "5000" ])))
  = [zero]
  /\ Forall (fun p => lt (AllGraph.yearlyKwh p) zero = false)
       [ {| AllGraph.year := "2020"; AllGraph.yearNum := 2020;
            AllGraph.yearlyKwh := of_Z 5000;
            AllGraph.cumulativeKwh := of_Z 5000;
            AllGraph.serialNumber := "I1" |} ].
Proof.
  split; [vm_compute; reflexivity|].
  apply (no_delta_is_negative []
           (Some {| AllGraph.api_result_data :=
                      Some [("1_1_1_1",
                             [("p2", Some [Samples.reading "2020" "5000000"])])] |})
           "I1" Samples.decade).
  vm_compute. reflexivity.
Defined.



(** ** The records of the weekly page *)

(** The entry that the page makes for an id carries the roster entry of the
    id; there is none for an id that the roster does not hold. *)
Lemma withKey_inv (energyApi : history_api) (dates : Weekly.api_dates)
  (dateRange : Weekly.date_range) (daysInRange : Z)
  (inverter : Weekly.inverter) (key : str) (r : Weekly.result) :
  Weekly.withKey energyApi dates dateRange daysInRange inverter key = Ok r ->
  Weekly.inv r = inverter.
Proof.
  unfold Weekly.withKey.
  destruct (energyApi (Weekly.energyRequest dates key)) as [energyRes|];
    [|discriminate].
  destruct (negb (ok energyRes)); [discriminate|].
  destruct (json energyRes) as [energyData|]; [|discriminate].
  destruct (String.eqb (result_code energyData) "1"),
           (result_data energyData) as [rd|];
    intros H; injection H as <-; try reflexivity.
  unfold Weekly.successRecord.
  now destruct (Weekly.energyTotals dateRange rd).
Qed.

Lemma processInverter_roster (deviceApi : device_api) (energyApi : history_api)
  (inverters : list Weekly.inverter) (psKeyCache : Weekly.cache)
  (dates : Weekly.api_dates) (dateRange : Weekly.date_range)
  (daysInRange : Z) (i : nat) (inverterId : str) :
  match find (fun inv => String.eqb (Weekly.inverterId inv) inverterId)
             inverters with
  | Some inverter =>
      exists r : Weekly.result,
        fst (Weekly.processInverter deviceApi energyApi inverters psKeyCache
               dates dateRange daysInRange i inverterId) = Some r
        /\ Weekly.inv r = inverter
  | None =>
      fst (Weekly.processInverter deviceApi energyApi inverters psKeyCache
             dates dateRange daysInRange i inverterId) = None
  end.
Proof.
  unfold Weekly.processInverter, Weekly.tryInverter, Weekly.caughtRecord.
  destruct (find (fun inv => String.eqb (Weekly.inverterId inv) inverterId)
              inverters) as [inverter|] eqn:Hf; [|reflexivity].
  assert (Hk : forall (key : str) (w : option str),
             exists r : Weekly.result,
               fst (match
                      (match Weekly.withKey energyApi dates dateRange
                               daysInRange inverter key with
                       | Ok r => Ok (Some r)
                       | Throw m => Throw m
                       end, w)
                    with
                    | (Ok r, w0) => (r, w0)
                    | (Throw m, w0) =>
                        (Some
                           {| Weekly.inv := inverter;
                              Weekly.psKey := None;
                              Weekly.totalKwh := zero;
                              Weekly.avgDailyKwh := zero;
                              Weekly.specYield := zero;
                              Weekly.dailyData := [];
                              Weekly.error := Some m;
                              Weekly.daysInRange :=
                                Weekly.calculateDaysInRange dateRange;
                              Weekly.lifetimeGeneration := Some zero |}, w0)
                    end) = Some r
               /\ Weekly.inv r = inverter).
  { intros key w.
    destruct (Weekly.withKey energyApi dates dateRange daysInRange inverter key)
      as [r|m] eqn:Hw.
    - exists r. split; [reflexivity|]. now apply withKey_inv in Hw.
    - eexists. split; reflexivity. }
  destruct (Weekly.cached psKeyCache inverterId) as [key|]; [apply Hk|].
  destruct (deviceApi (Weekly.deviceRequest inverterId)) as [deviceRes|];
    [|eexists; split; reflexivity].
  destruct (negb (ok deviceRes)); [eexists; split; reflexivity|].
  destruct (json deviceRes) as [deviceData|]; [|eexists; split; reflexivity].
  destruct (String.eqb (Device.result_code deviceData) "1"),
           (Device.device_point_list deviceData) as [l|];
    try (eexists; split; reflexivity).
  destruct (Device.find_ps_key l) as [key|]; [apply Hk|].
  eexists; split; reflexivity.
Qed.

Lemma batch_roster (deviceApi : device_api) (energyApi : history_api)
  (inverters : list Weekly.inverter) (psKeyCache : Weekly.cache)
  (dates : Weekly.api_dates) (dateRange : Weekly.date_range)
  (daysInRange : Z) (i : nat) (batch : list str) :
  map Weekly.inv
    (Weekly.somes
       (map fst
          (map (Weekly.processInverter deviceApi energyApi inverters psKeyCache
                  dates dateRange daysInRange i) batch)))
  = Spec.selectedRoster inverters batch.
Proof.
  induction batch as [|inverterId r IH]; [reflexivity|].
  unfold Weekly.somes, Spec.selectedRoster in *. simpl.
  rewrite map_app, IH. f_equal.
  pose proof (processInverter_roster deviceApi energyApi inverters psKeyCache
                dates dateRange daysInRange i inverterId) as H.
  destruct (find (fun inv => String.eqb (Weekly.inverterId inv) inverterId)
              inverters) as [inverter|].
  - destruct H as [res [-> <-]]. reflexivity.
  - now rewrite H.
Qed.

Lemma selectedRoster_app (inverters : list Weekly.inverter) (a b : list str) :
  Spec.selectedRoster inverters (a ++ b)
  = Spec.selectedRoster inverters a ++ Spec.selectedRoster inverters b.
Proof. unfold Spec.selectedRoster. apply flat_map_app. Qed.

Lemma fetchLoop_roster (deviceApi : device_api) (energyApi : history_api)
  (inverters : list Weekly.inverter) (dates : Weekly.api_dates)
  (dateRange : Weekly.date_range) (selectedInverters : list str) :
  forall (fuel i : nat) (psKeyCache : Weekly.cache)
         (results : list Weekly.result),
    (List.length selectedInverters <= i + 10 * fuel)%nat ->
    map Weekly.inv
      (fst (Weekly.fetchLoop fuel deviceApi energyApi inverters dates dateRange
              selectedInverters i psKeyCache results))
    = map Weekly.inv results
      ++ Spec.selectedRoster inverters (skipn i selectedInverters).
Proof.
  induction fuel as [|fuel IH]; intros i psKeyCache results Hfuel.
  - simpl. rewrite skipn_all2 by lia. cbn. now rewrite app_nil_r.
  - cbn [Weekly.fetchLoop].
    destruct (i <? List.length selectedInverters)%nat eqn:Hi.
    + rewrite IH by lia.
      rewrite map_app, batch_roster, <- app_assoc. f_equal.
      rewrite <- selectedRoster_app. f_equal.
      rewrite (Nat.add_comm i 10), <- skipn_skipn.
      apply firstn_skipn.
    + apply Nat.ltb_ge in Hi. simpl.
      rewrite skipn_all2 by lia. cbn. now rewrite app_nil_r.
Qed.

(** X8.  With a valid date range the weekly page returns its results, and
    whatever the vendor answers, whatever fails and whatever the cache
    holds, they are one record for every selected id that the roster
    holds, in the order of the selection, each with the roster entry of
    its id: no inverter is dropped, repeated or moved. *)
Theorem one_record_for_each_selected_inverter :
  forall (tz : Calendar.zone) (deviceApi : device_api)
         (energyApi : history_api) (inverters : list Weekly.inverter)
         (dateRange : Weekly.date_range) (selectedInverters : list str)
         (cachedPsKeys : Weekly.cache) (s e : Calendar.Date),
    Calendar.newDate (Weekly.startDate dateRange) = Some s ->
    Calendar.newDate (Weekly.endDate dateRange) = Some e ->
    exists (results : list Weekly.result) (cache : Weekly.cache),
      Weekly.fetchPerformanceData tz deviceApi energyApi inverters dateRange
        selectedInverters cachedPsKeys = Ok (results, cache)
      /\ map Weekly.inv results
         = Spec.selectedRoster inverters selectedInverters.
Proof.
  intros tz deviceApi energyApi inverters dateRange selectedInverters
    cachedPsKeys s e Hs He.
  unfold Weekly.fetchPerformanceData, Weekly.apiDates. rewrite Hs, He.
  match goal with
  | |- context [Weekly.fetchLoop ?f ?a ?b ?c ?d ?g ?h ?i ?j ?k] =>
      pose proof (fetchLoop_roster a b c d g h f i j k) as H;
      destruct (Weekly.fetchLoop f a b c d g h i j k) as [results cache]
  end.
  exists results, cache. split; [reflexivity|].
  cbn [fst] in H. rewrite H by lia. reflexivity.
Qed.

(** One inverter of the roster, selected twice next to an id that the
    roster does not hold, with a vendor that cannot be reached. *)
Lemma one_record_for_each_selected_inverter_witness :
  exists (results : list Weekly.result) (cache : Weekly.cache),
    Weekly.fetchPerformanceData Samples.utc (fun _ => Throw "Failed to fetch")
      Samples.no_history [Samples.rahul_weekly] Samples.first_week
      ["I2492100573"; "I0000000000"; "I2492100573"] [] = Ok (results, cache)
    /\ map Weekly.inv results = [Samples.rahul_weekly; Samples.rahul_weekly].
Proof.
  destruct (one_record_for_each_selected_inverter Samples.utc
              (fun _ => Throw "Failed to fetch") Samples.no_history
              [Samples.rahul_weekly] Samples.first_week
              ["I2492100573"; "I0000000000"; "I2492100573"] []
              (19783 * Calendar.msPerDay) (19790 * Calendar.msPerDay)
              eq_refl eq_refl) as [results [cache [Hr Hm]]].
  exists results, cache. split; [exact Hr|]. rewrite Hm. reflexivity.
Defined.

(** ** The records of the handler *)




End InvariantFacts.

(* ================================================================== *)
(** * The handler as a whole *)

Module HandlerFacts.
Import JS Http Request Calendar Handler.

Lemma submits_app (a b : list call) : submits (a ++ b) = submits a ++ submits b.
Proof. unfold submits. apply flat_map_app. Qed.

(** The requests to the vendor hold no form for the sheet. *)
Lemma inverterCalls_submits (deviceApi : device_api) (w : Cron.window)
  (inverters : list Cron.inverter) :
  submits (flat_map (inverterCalls deviceApi w) inverters) = [].
Proof.
  induction inverters as [|inv r IH]; [reflexivity|].
  cbn [flat_map]. rewrite submits_app, IH, app_nil_r.
  unfold inverterCalls. cbn.
  destruct (deviceApi (Cron.deviceRequest inv)) as [deviceRes|];
    [|reflexivity].
  destruct (negb (ok deviceRes)); [reflexivity|].
  destruct (Http.json deviceRes) as [deviceData|]; [|reflexivity].
  destruct (match Device.device_point_list deviceData with
            | Some l => Device.find_ps_key l
            | None => None
            end) as [key|]; [|reflexivity].
  now destruct (truthy_str key).
Qed.

Lemma performanceData_not_empty (deviceApi : device_api)
  (energyApi : history_api) (tz : zone) (now : Date)
  (inverters : list Cron.inverter) (l : list Cron.record) :
  Cron.performanceData deviceApi energyApi tz now inverters = Ok l -> l <> [].
Proof.
  unfold Cron.performanceData.
  destruct (Cron.collect deviceApi energyApi (Cron.windowOf tz now) inverters);
    [discriminate|].
  intros H. injection H as <-. discriminate.
Qed.

Lemma option_is_iff (o : option str) (s : str) :
  option_is o s = true <-> o = Some s.
Proof.
  unfold option_is. destruct o as [t|]; [|split; discriminate].
  destruct (String.eqb_spec t s); split; congruence.
Qed.

Lemma truthy_opt_iff (o : option str) :
  Device.truthy_opt o = true <-> exists s : str, o = Some s /\ s <> "".
Proof.
  unfold Device.truthy_opt. destruct o as [[|c r]|]; cbn; split.
  - discriminate.
  - intros [s [E H]]. injection E as <-. congruence.
  - intros _. eexists. split; [reflexivity | discriminate].
  - reflexivity.
  - discriminate.
  - intros [s [E _]]. discriminate.
Qed.

(** X10.  A request that is refused is answered with 401 and one whose
    environment lacks a credential with 500, and in both cases the handler
    sends nothing.  A request is refused exactly when its user agent is not
    "vercel-cron", the secret is set and the authorization header is not
    the bearer of the secret: a request with the user agent "vercel-cron"
    is never refused, whatever its authorization header. *)
Theorem handler_refuses_before_any_call :
  forall (e : env) (h : headers) (tz : zone) (now : Date)
         (loginApi : fetched login_body) (sheetApi : outcome sheet_response)
         (deviceApi : device_api) (energyApi : history_api)
         (submitApi : submit_api),
    let out :=
      handler e h tz now loginApi sheetApi deviceApi energyApi submitApi in
    (refused e h = true ->
     out = ({| status := 401; json := Unauthorized |}, []))
    /\ (refused e h = false ->
        missing (VITE_SOLAR_APP_KEY e) || missing (VITE_SOLAR_SECRET_KEY e)
        || missing (VITE_USER_ACCOUNT e) || missing (VITE_USER_PASSWORD e)
        || missing (VITE_GOOGLE_SCRIPT_URL e) = true ->
        status (fst out) = 500 /\ snd out = [])
    /\ (refused e h = true <->
        user_agent h <> Some "vercel-cron"
        /\ (exists secret : str,
              CRON_SECRET e = Some secret /\ secret <> ""
              /\ authorization h <> Some ("Bearer " ++ secret)%string))
    /\ (user_agent h = Some "vercel-cron" -> refused e h = false)
    /\ (refused e h = false ->
        missing (VITE_SOLAR_APP_KEY e) || missing (VITE_SOLAR_SECRET_KEY e)
        || missing (VITE_USER_ACCOUNT e) || missing (VITE_USER_PASSWORD e)
        || missing (VITE_GOOGLE_SCRIPT_URL e) = false ->
        exists rest : list call, snd out = LoginCall :: rest).
Proof.
  intros e h tz now loginApi sheetApi deviceApi energyApi submitApi out.
  assert (Hiff : refused e h = true <->
                 user_agent h <> Some "vercel-cron"
                 /\ (exists secret : str,
                       CRON_SECRET e = Some secret /\ secret <> ""
                       /\ authorization h <> Some ("Bearer " ++ secret)%string)).
  { unfold refused. rewrite !andb_true_iff, !negb_true_iff. split.
    - intros [[Hu Hs] Ha].
      apply truthy_opt_iff in Hs as [secret [Es Hne]].
      split.
      + intros Hc. apply option_is_iff in Hc. congruence.
      + exists secret. split; [exact Es|]. split; [exact Hne|].
        intros Hc. rewrite Es in Ha. cbn [template] in Ha.
        apply option_is_iff in Hc. congruence.
    - intros [Hu [secret [Es [Hne Ha]]]].
      split; [split|].
      + destruct (option_is (user_agent h) "vercel-cron") eqn:E; [|reflexivity].
        apply option_is_iff in E. contradiction.
      + apply truthy_opt_iff. now exists secret.
      + rewrite Es. cbn [template].
        destruct (option_is (authorization h) ("Bearer " ++ secret)%string) eqn:E;
          [|reflexivity].
        apply option_is_iff in E. contradiction. }
  split; [|split; [|split; [exact Hiff|split]]].
  - intros Hr. subst out. unfold handler. now rewrite Hr.
  - intros Hr Hm. subst out. unfold handler. rewrite Hr, Hm. now split.
  - intros Hua. destruct (refused e h); [|reflexivity].
    destruct (proj1 Hiff eq_refl) as [Hne _]. contradiction.
  - intros Hr Hm. subst out. unfold handler. rewrite Hr, Hm.
    destruct (login loginApi); [|eexists; reflexivity].
    destruct (roster sheetApi); [|eexists; reflexivity].
    destruct (Cron.performanceData deviceApi energyApi tz now a0);
      [|eexists; reflexivity].
    match goal with
    | |- context [submit submitApi ?r] => destruct (submit submitApi r)
    end; eexists; reflexivity.
Qed.

(** A request with the user agent of the scheduler and no authorization
    header, while the secret is set and the password is missing: it is not
    refused, and it is answered with 500 before anything is sent. *)
Lemma handler_refuses_before_any_call_witness :
  refused
    {| VITE_SOLAR_APP_KEY := Some "appkey";
       VITE_SOLAR_SECRET_KEY := Some "secret";
       VITE_USER_ACCOUNT := Some "account";
       VITE_USER_PASSWORD := None;
       VITE_GOOGLE_SCRIPT_URL := Some "https://script.example/exec";
       CRON_SECRET := Some "s3cret" |}
    {| user_agent := Some "vercel-cron"; authorization := None |} = false
  /\ snd (handler
            {| VITE_SOLAR_APP_KEY := Some "appkey";
               VITE_SOLAR_SECRET_KEY := Some "secret";
               VITE_USER_ACCOUNT := Some "account";
               VITE_USER_PASSWORD := None;
               VITE_GOOGLE_SCRIPT_URL := Some "https://script.example/exec";
               CRON_SECRET := Some "s3cret" |}
            {| user_agent := Some "vercel-cron"; authorization := None |}
            Samples.utc Samples.march8 (Throw "Failed to fetch")
            (Throw "Failed to fetch") (fun _ => Throw "Failed to fetch")
            Samples.no_history (fun _ => Throw "Failed to fetch")) = [].
Proof.
  destruct (handler_refuses_before_any_call
              {| VITE_SOLAR_APP_KEY := Some "appkey";
                 VITE_SOLAR_SECRET_KEY := Some "secret";
                 VITE_USER_ACCOUNT := Some "account";
                 VITE_USER_PASSWORD := None;
                 VITE_GOOGLE_SCRIPT_URL := Some "https://script.example/exec";
                 CRON_SECRET := Some "s3cret" |}
              {| user_agent := Some "vercel-cron"; authorization := None |}
              Samples.utc Samples.march8 (Throw "Failed to fetch")
              (Throw "Failed to fetch") (fun _ => Throw "Failed to fetch")
              Samples.no_history (fun _ => Throw "Failed to fetch"))
    as [_ [Hm [_ [Hua _]]]].
  split; [apply Hua; reflexivity|].
  apply Hm; [apply Hua|]; reflexivity.
Defined.

(** X11.  The handler posts to the sheet at most once, as its last
    request, and never an empty list: the form holds the records that were
    collected for the roster, of which there is one at least.  It answers
    200 only after a post that the sheet accepted, with the number of the
    records, and its status is 200, 401 or 500. *)
Theorem handler_submits_once_with_data :
  forall (e : env) (h : headers) (tz : zone) (now : Date)
         (loginApi : fetched login_body) (sheetApi : outcome sheet_response)
         (deviceApi : device_api) (energyApi : history_api)
         (submitApi : submit_api),
    let out :=
      handler e h tz now loginApi sheetApi deviceApi energyApi submitApi in
    (List.length (submits (snd out)) <= 1)%nat
    /\ (forall request : submit_request,
          In request (submits (snd out)) ->
          data request <> []
          /\ (exists front : list call,
                snd out = front ++ [SubmitCall request] /\ submits front = [])
          /\ (exists inverters : list Cron.inverter,
                roster sheetApi = Ok inverters
                /\ data request
                   = Cron.collect deviceApi energyApi (Cron.windowOf tz now)
                       inverters)
          /\ action request = "syncCSVFormat"
          /\ sheetName request = "Weekly_Performance_Logs")
    /\ (status (fst out) = 200 ->
        exists (request : submit_request) (answer : Weekly.sync_answer)
               (dateRange : str),
          submits (snd out) = [request]
          /\ submit submitApi request = Ok answer
          /\ Weekly.answer_success answer = true
          /\ json (fst out)
             = Success (List.length (data request)) answer dateRange)
    /\ (status (fst out) = 200 \/ status (fst out) = 401
        \/ status (fst out) = 500).
Proof.
  intros e h tz now loginApi sheetApi deviceApi energyApi submitApi out.
  subst out. unfold handler.
  destruct (refused e h);
    [cbn; repeat split; try lia; try contradiction; try discriminate; auto|].
  destruct (missing (VITE_SOLAR_APP_KEY e) || missing (VITE_SOLAR_SECRET_KEY e)
            || missing (VITE_USER_ACCOUNT e) || missing (VITE_USER_PASSWORD e)
            || missing (VITE_GOOGLE_SCRIPT_URL e));
    [cbn; repeat split; try lia; try contradiction; try discriminate; auto|].
  destruct (login loginApi) as [token|m];
    [|cbn; repeat split; try lia; try contradiction; try discriminate; auto].
  destruct (roster sheetApi) as [inverters|m];
    [|cbn; repeat split; try lia; try contradiction; try discriminate; auto].
  assert (Hfetched :
            submits ([LoginCall; SheetCall]
                     ++ flat_map (inverterCalls deviceApi (Cron.windowOf tz now))
                          inverters) = []).
  { rewrite submits_app, inverterCalls_submits. reflexivity. }
  destruct (Cron.performanceData deviceApi energyApi tz now inverters)
    as [performanceData|m] eqn:Hp.
  - pose proof (performanceData_not_empty _ _ _ _ _ _ Hp) as Hne.
    assert (Hc : performanceData
                 = Cron.collect deviceApi energyApi (Cron.windowOf tz now)
                     inverters).
    { unfold Cron.performanceData in Hp.
      destruct (Cron.collect deviceApi energyApi (Cron.windowOf tz now)
                  inverters); [discriminate | now injection Hp]. }
    match goal with
    | |- context [submit submitApi ?r] =>
        set (request := r);
        destruct (submit submitApi request) as [answer|m] eqn:Hs
    end;
      cbn [fst snd status json]; rewrite submits_app, Hfetched;
      cbn [submits flat_map app List.length].
    + split; [lia|]. split.
      * intros r [<-|[]]. split; [exact Hne|].
        split;
          [exists ([LoginCall; SheetCall]
                   ++ flat_map (inverterCalls deviceApi (Cron.windowOf tz now))
                        inverters);
           split; [now rewrite <- ?app_assoc | exact Hfetched]|].
        split; [exists inverters; split; [reflexivity | exact Hc]|].
        split; reflexivity.
      * split; [|now left]. intros _.
        exists request, answer. eexists.
        split; [reflexivity|]. split; [exact Hs|].
        split; [|reflexivity].
        unfold submit in Hs.
        destruct (submitApi request) as [submitRes|]; [|discriminate].
        destruct (negb (ok submitRes)); [discriminate|].
        destruct (Http.json submitRes) as [submitResult|]; [|discriminate].
        destruct (Weekly.answer_success submitResult) eqn:Ha; [|discriminate].
        now injection Hs as <-.
    + split; [lia|]. split.
      * intros r [<-|[]]. split; [exact Hne|].
        split;
          [exists ([LoginCall; SheetCall]
                   ++ flat_map (inverterCalls deviceApi (Cron.windowOf tz now))
                        inverters);
           split; [now rewrite <- ?app_assoc | exact Hfetched]|].
        split; [exists inverters; split; [reflexivity | exact Hc]|].
        split; reflexivity.
      * split; [discriminate | now right; right].
  - cbn [fst snd status json]. rewrite Hfetched. cbn.
    repeat split; try lia; try contradiction; try discriminate; auto.
Qed.

(** A run that collects one record and whose sheet accepts it. *)
Lemma handler_submits_once_with_data_witness :
  exists (request : submit_request) (answer : Weekly.sync_answer)
         (dateRange : str),
    submits
      (snd (handler
              {| VITE_SOLAR_APP_KEY := Some "appkey";
                 VITE_SOLAR_SECRET_KEY := Some "secret";
                 VITE_USER_ACCOUNT := Some "account";
                 VITE_USER_PASSWORD := Some "password";
                 VITE_GOOGLE_SCRIPT_URL := Some "https://script.example/exec";
                 CRON_SECRET := None |}
              {| user_agent := None; authorization := None |}
              Samples.utc Samples.march8
              (Samples.answer {| result_code := "1"; result_msg := None;
                                 token := Some "token" |})
              (Ok {| sheet_ok := true; sheet_status := 200;
                     sheet_body :=
                       Json (Sheet.Bare
                               [ Sheet.RowArray [];
                                 Sheet.RowArray
                                   [ Sheet.VStr "49"; Sheet.VStr "I2492100573";
                                     Sheet.VStr "RAHUL SHARMA"; Sheet.VStr "3" ] ]) |})
              (fun _ => Samples.answer Samples.with_key)
              (fun _ => Samples.answer (Samples.history Samples.two_readings))
              (fun _ => Samples.answer
                          {| Weekly.answer_success := true;
                             Weekly.newRows := 1;
                             Weekly.updatedRows := 0;
                             Weekly.totalRows := 1;
                             Weekly.answer_error := None;
                             Weekly.answer_message := None |})))
    = [request]
    /\ List.length (data request) = 1%nat
    /\ Weekly.answer_success answer = true
    /\ dateRange = "01/03/2024 - 08/03/2024".
Proof.
  destruct (handler_submits_once_with_data
              {| VITE_SOLAR_APP_KEY := Some "appkey";
                 VITE_SOLAR_SECRET_KEY := Some "secret";
                 VITE_USER_ACCOUNT := Some "account";
                 VITE_USER_PASSWORD := Some "password";
                 VITE_GOOGLE_SCRIPT_URL := Some "https://script.example/exec";
                 CRON_SECRET := None |}
              {| user_agent := None; authorization := None |}
              Samples.utc Samples.march8
              (Samples.answer {| result_code := "1"; result_msg := None;
                                 token := Some "token" |})
              (Ok {| sheet_ok := true; sheet_status := 200;
                     sheet_body :=
                       Json (Sheet.Bare
                               [ Sheet.RowArray [];
                                 Sheet.RowArray
                                   [ Sheet.VStr "49"; Sheet.VStr "I2492100573";
                                     Sheet.VStr "RAHUL SHARMA"; Sheet.VStr "3" ] ]) |})
              (fun _ => Samples.answer Samples.with_key)
              (fun _ => Samples.answer (Samples.history Samples.two_readings))
              (fun _ => Samples.answer
                          {| Weekly.answer_success := true;
                             Weekly.newRows := 1;
                             Weekly.updatedRows := 0;
                             Weekly.totalRows := 1;
                             Weekly.answer_error := None;
                             Weekly.answer_message := None |}))
    as [_ [_ [H200 _]]].
  destruct H200 as [request [answer [dateRange [Hs [_ [Ha Hj]]]]]];
    [vm_compute; reflexivity|].
  exists request, answer, dateRange.
  split; [exact Hs|].
  vm_compute in Hs. injection Hs as <-.
  vm_compute in Hj. injection Hj as <- <-.
  split; [reflexivity|]. split; [exact Ha | reflexivity].
Defined.

End HandlerFacts.

(* ================================================================== *)
(** * The age of the saved token on the two pages *)

Module SessionFacts.
Import JS Session.

(** A text that [parseInt] reads is not empty. *)
Lemma parseInt_truthy (s : str) (t : Z) :
  parseInt s = Some t -> truthy_str s = true.
Proof. destruct s; [discriminate | reflexivity]. Qed.

(** X12.  The three tests of the age of the saved token are nested.  For
    a saved token with a time stamp that [parseInt] reads as [t]: the sync
    of the multi-year page goes on without a login up to 50 minutes of
    age, the weekly page takes the token at its mount up to 55 minutes,
    and the multi-year page takes it as its first token below 60 minutes.
    So a token that the sync uses is taken by the weekly page, and a token
    that the weekly page takes is taken by the multi-year page. *)
Theorem saved_token_windows_are_nested :
  forall (now t : Z) (token ts : str),
    truthy_str token = true ->
    parseInt ts = Some t ->
    let s := {| solarToken := Some token; solarTokenTimestamp := Some ts |} in
    (mustAuthenticate now token (Some ts) = false
     <-> now - t <= 50 * 60 * 1000)
    /\ (weeklySavedToken now s = Some token <-> now - t <= 55 * 60 * 1000)
    /\ (initialToken now s = token <-> now - t < 60 * 60 * 1000)
    /\ (mustAuthenticate now token (Some ts) = false ->
        weeklySavedToken now s = Some token)
    /\ (weeklySavedToken now s = Some token -> initialToken now s = token).
Proof.
  intros now t token ts Htok Hts s.
  pose proof (parseInt_truthy _ _ Hts) as Htruthy.
  assert (Hm : mustAuthenticate now token (Some ts) = false
               <-> now - t <= 50 * 60 * 1000).
  { unfold mustAuthenticate, tokenAge, Login.str_or. cbn [Device.truthy_opt].
    rewrite Htok, Htruthy, Hts. cbn [negb orb].
    destruct (Z.gtb_spec (now - t) (50 * 60 * 1000)); split;
      intros; try lia; try discriminate; reflexivity. }
  assert (Hw : weeklySavedToken now s = Some token
               <-> now - t <= 55 * 60 * 1000).
  { unfold weeklySavedToken, isTokenExpired, tokenAge, s.
    cbn [solarToken solarTokenTimestamp Device.truthy_opt].
    rewrite Htok, Htruthy, Hts. cbn [negb andb].
    destruct (Z.gtb_spec (now - t) (55 * 60 * 1000)); cbn [negb]; split;
      intros; try lia; try discriminate; reflexivity. }
  assert (Hi : initialToken now s = token <-> now - t < 60 * 60 * 1000).
  { unfold initialToken, tokenAge, Login.str_or, s.
    cbn [solarToken solarTokenTimestamp Device.truthy_opt].
    rewrite Htok, Htruthy, Hts. cbn [negb andb].
    destruct (Z.ltb_spec (now - t) (60 * 60 * 1000)); split;
      intros H0; try lia; try reflexivity.
    subst token. discriminate. }
  split; [exact Hm|]. split; [exact Hw|]. split; [exact Hi|].
  split; [intros H; apply Hw; apply Hm in H; lia|].
  intros H; apply Hi; apply Hw in H; lia.
Qed.

(** A token saved 52 minutes ago: the sync logs in again, and both pages
    take the token when they start. *)
Lemma saved_token_windows_are_nested_witness :
  mustAuthenticate 1709900000000 "token" (Some "1709896880000") = true
  /\ weeklySavedToken 1709900000000
       {| solarToken := Some "token";
          solarTokenTimestamp := Some "1709896880000" |} = Some "token"
  /\ initialToken 1709900000000
       {| solarToken := Some "token";
          solarTokenTimestamp := Some "1709896880000" |} = "token".
Proof.
  destruct (saved_token_windows_are_nested
              1709900000000 1709896880000 "token" "1709896880000"
              eq_refl eq_refl) as [_ [Hw [_ [_ Hwi]]]].
  split; [reflexivity|].
  assert (H : weeklySavedToken 1709900000000
                {| solarToken := Some "token";
                   solarTokenTimestamp := Some "1709896880000" |}
              = Some "token") by (apply Hw; lia).
  split; [exact H | exact (Hwi H)].
Defined.

(** X13.  A time stamp that [parseInt] does not read gives the age [NaN],
    and every comparison with it is false: the weekly page takes the saved
    token whatever the time is, the sync of the multi-year page never logs
    in again for it, and the multi-year page does not take it as its first
    token. *)
Theorem unreadable_time_stamp_never_expires :
  forall (now : Z) (token ts : str),
    truthy_str token = true ->
    truthy_str ts = true ->
    parseInt ts = None ->
    let s := {| solarToken := Some token; solarTokenTimestamp := Some ts |} in
    isTokenExpired now (Some ts) = false
    /\ weeklySavedToken now s = Some token
    /\ mustAuthenticate now token (Some ts) = false
    /\ initialToken now s = "".
Proof.
  intros now token ts Htok Htruthy Hts s.
  unfold weeklySavedToken, isTokenExpired, mustAuthenticate, initialToken,
    tokenAge, Login.str_or, s.
  cbn [solarToken solarTokenTimestamp Device.truthy_opt].
  rewrite Htok, Htruthy, Hts. cbn. repeat split.
Qed.

Lemma unreadable_time_stamp_never_expires_witness :
  weeklySavedToken 1709900000000
    {| solarToken := Some "token"; solarTokenTimestamp := Some "undefined" |}
  = Some "token"
  /\ weeklySavedToken 9999999999999
       {| solarToken := Some "token"; solarTokenTimestamp := Some "undefined" |}
     = Some "token".
Proof.
  split.
  - exact (proj1 (proj2 (unreadable_time_stamp_never_expires
                           1709900000000 "token" "undefined"
                           eq_refl eq_refl eq_refl))).
  - exact (proj1 (proj2 (unreadable_time_stamp_never_expires
                           9999999999999 "token" "undefined"
                           eq_refl eq_refl eq_refl))).
Defined.

End SessionFacts.
